(** * The agent/orchestrator coordination layer

    A shallow embedding of the TypeScript coordination layer
    (src/types, src/agents, src/reports, src/orchestrator) and the
    properties its specification states about it; then of the
    analytics agent and the test-file prioritizer, of the sign-in
    (src/auth), and of three scripts around the test runs (the overall
    health assessment, the retry decision, the summary of a Playwright
    report), with properties read off the code.

    Conventions of the embedding.
    - A JavaScript string is a sequence of UTF-16 code units. It is
      held in a [string] as the UTF-8 encoding of its code points, a
      surrogate that stands alone being encoded like any other code
      point. The operations that work by position ([substring],
      [trim], [length], iteration) count code units and code points
      as the engine does; concatenation is [+:+], which is exact
      wherever one of the two strings is ASCII at the joint, as in
      every concatenation of the code.
    - A value of type [any] is known by what the code can observe of
      it: whether it is truthy, what a template literal makes of it,
      and what a [for ... of] over it visits. Conversions and
      iterators written by the caller may throw, and may throw values
      that are no [Error]; those that never return, or that act on
      the agents or on the world, are not among the values of the
      model, and nothing is claimed of a call that is given one.
    - An [async] method is a computation in the monad [M]: it reads the
      environment [Env] (the behaviour of the operating system and of
      the libraries), threads the observable [World] (clock, file
      system, console) and the fields of [this], and either returns a
      value (the promise resolves) or throws (the promise rejects).
      The operating system and the libraries throw instances of
      [Error], or values that [String] renders.
    - Objects of type [Record<string, any>] that are only read by key
      are finite maps; tables that are iterated with [Object.entries]
      are association lists, in insertion order. *)

From Stdlib Require Import ZArith QArith_base String Ascii List Bool Lia Sorted.
From Stdlib Require Import Decimal DecimalString DecimalZ DecimalNat.
From stdpp Require Import base option list gmap strings.

Local Open Scope string_scope.
Local Open Scope Z_scope.

(** ** src/types/enums.ts *)

Inductive EventType := DEV_EVENT | CI_EVENT | PR_EVENT.

Inductive AgentType := API_AGENT | MOBILE_AGENT | WIREMOCK_AGENT.

Inductive TaskStatus := PENDING | RUNNING | COMPLETED | FAILED.

(** The string value of an [EventType] member, as it appears when the
    member is interpolated in a template literal. *)
Definition EventType_value (e : EventType) : string :=
  match e with
  | DEV_EVENT => "dev_event"
  | CI_EVENT => "ci_event"
  | PR_EVENT => "pr_event"
  end.

Definition TaskStatus_eqb (a b : TaskStatus) : bool :=
  match a, b with
  | PENDING, PENDING | RUNNING, RUNNING
  | COMPLETED, COMPLETED | FAILED, FAILED => true
  | _, _ => false
  end.

(** ** What an operation comes to *)

(** It returns a value, or throws. *)
Inductive Result (E A : Type) :=
| Returned (a : A)
| Thrown (e : E).
Arguments Returned {E A} a.
Arguments Thrown {E A} & e.

(** ** What a [throw] carries *)

(** A thrown value that [String] renders: an instance of [Error] (only
    its message is ever read), or any other value, given by its
    rendering. *)
Inductive JsExn :=
| JsError (message : string)
| JsThrown (text : string).

(** [error instanceof Error ? error.message : String(error)], for such
    a value. *)
Definition errorMessage (error : JsExn) : string :=
  match error with
  | JsError message => message
  | JsThrown text => text
  end.

(** A thrown value, as a [catch] clause can tell it from others: one
    that [String] renders, or one that is no [Error] and whose
    conversion by [String] throws in its turn (an object without
    prototype, an object whose [toString] throws). *)
Inductive Exn :=
| Printable (e : JsExn)
| Unprintable (raises : Exn).

Coercion Printable : JsExn >-> Exn.

(** The outcome of an operation of the environment, and that of a
    computation of the code. *)
Abbreviation Reply := (Result JsExn).
Abbreviation Outcome := (Result Exn).

(** [error instanceof Error ? error.message : String(error)] *)
Definition messageOf (error : Exn) : Outcome string :=
  match error with
  | Printable e => Returned (errorMessage e)
  | Unprintable raises => Thrown raises
  end.


(** ** The values carried by [any]-typed data

    [JsObject] is a plain object (a nested record); it also stands for
    the [Date] of a context, which the code neither converts nor
    iterates. [JsOther] is any other value, given by what the code can observe
    of it: whether [||] takes it for true; what a [for ... of] over it
    visits, and the exception that ends the visit if one does ([None]
    for a value that is not iterable); and the string that a template
    literal makes of it, or the exception that the conversion throws.
    The number 5 is [JsOther true None (inl "5")]; a [Set] of two
    strings is
    [JsOther true (Some ([JsString a; JsString b], None)) (inl "[object Set]")];
    an object without prototype is
    [JsOther true None (inr (Printable cannotConvert))]. *)

#[warnings="-register-all"]
Inductive JsValue :=
| JsUndefined
| JsNull
| JsBool (b : bool)
| JsString (s : string)
| JsArray (elems : list JsValue)
| JsObject
| JsOther (isTruthy : bool) (iteration : option (list JsValue * option Exn))
    (conversion : string + Exn).

(** Truthiness, as tested by [||] and [!]. *)
Definition truthy (v : JsValue) : bool :=
  match v with
  | JsUndefined | JsNull => false
  | JsBool b => b
  | JsString s => negb (String.eqb s "")
  | JsArray _ | JsObject => true
  | JsOther isTruthy _ _ => isTruthy
  end.

(** [a || b] *)
Definition js_or (a b : JsValue) : JsValue := if truthy a then a else b.

(** The conversion applied by a template literal. An array is the
    comma-joined conversion of its elements, from left to right, where
    [null] and [undefined] elements give the empty string. *)
Fixpoint ToString (v : JsValue) : Outcome string :=
  match v with
  | JsUndefined => Returned "undefined"
  | JsNull => Returned "null"
  | JsBool true => Returned "true"
  | JsBool false => Returned "false"
  | JsString s => Returned s
  | JsArray elems =>
      match
        (fix each (elems : list JsValue) : Outcome (list string) :=
           match elems with
           | [] => Returned []
           | x :: rest =>
               match match x with
                     | JsUndefined | JsNull => Returned ""
                     | _ => ToString x
                     end with
               | Thrown e => Thrown e
               | Returned s =>
                   match each rest with
                   | Thrown e => Thrown e
                   | Returned parts => Returned (s :: parts)
                   end
               end
           end) elems
      with
      | Thrown e => Thrown e
      | Returned parts => Returned (String.concat "," parts)
      end
  | JsObject => Returned "[object Object]"
  | JsOther _ _ (inl s) => Returned s
  | JsOther _ _ (inr e) => Thrown e
  end.

(** Decimal rendering of an integer-valued number in a template
    literal. *)
Definition Z_toString (z : Z) : string := NilEmpty.string_of_int (Z.to_int z).

Definition nat_toString (n : nat) : string := Z_toString (Z.of_nat n).

(** The characters that are spelled with an escape in the source. *)
Definition LF : string := String "010"%char EmptyString.
Definition DQUOTE : string := String "034"%char EmptyString.
Definition CHECK_MARK : string :=
  String "226"%char (String "156"%char (String "147"%char EmptyString)).

(** ** JavaScript strings, by position *)

(** Whether a byte continues the encoding of a code point. *)
Definition isContinuation (c : ascii) : bool :=
  let n := nat_of_ascii c in ((128 <=? n) && (n <? 192))%nat.

(** The number of bytes that follow the first byte of a code point. *)
Definition following (c : ascii) : nat :=
  let n := nat_of_ascii c in
  if (n <? 192)%nat then 0
  else if (n <? 224)%nat then 1
  else if (n <? 240)%nat then 2
  else if (n <? 248)%nat then 3
  else 0.

(** The code points of [s] after [current], of which [expected] bytes
    are still to come. *)
Fixpoint codePointsFrom (current : string) (expected : nat) (s : string) : list string :=
  match s with
  | EmptyString => [current]
  | String c s' =>
      match expected with
      | S n =>
          if isContinuation c
          then codePointsFrom (current +:+ String c EmptyString) n s'
          else current :: codePointsFrom (String c EmptyString) (following c) s'
      | O => current :: codePointsFrom (String c EmptyString) (following c) s'
      end
  end.

(** The code points of a string, each in its encoding: what the string
    iterator yields. *)
Definition codePoints (s : string) : list string :=
  match s with
  | EmptyString => []
  | String c s' => codePointsFrom (String c EmptyString) (following c) s'
  end.

(** The strings of a list, one after the other. *)
Definition implode (parts : list string) : string :=
  fold_right String.append EmptyString parts.

(** [s.length]: the number of UTF-16 code units, one for a code point
    below U+10000 and two for one above, read off the first byte of
    each code point. *)
Definition unitsOf (c : ascii) : nat :=
  if isContinuation c then 0
  else if (240 <=? nat_of_ascii c)%nat then 2 else 1.

Fixpoint String_length (s : string) : nat :=
  match s with
  | EmptyString => 0
  | String c s' => unitsOf c + String_length s'
  end.

(** The number of a code point. *)
Definition codePointOf (cp : string) : N :=
  match cp with
  | EmptyString => 0
  | String c rest =>
      let n := N_of_ascii c in
      let first :=
        if (n <? 192)%N then n
        else if (n <? 224)%N then n mod 32
        else if (n <? 240)%N then n mod 16
        else n mod 8 in
      fold_left (fun acc b => acc * 64 + N_of_ascii b mod 64)
        (list_ascii_of_string rest) first
  end%N.

(** The encoding of a code point from U+0800 to U+FFFF. *)
Definition threeBytes (n : N) : string :=
  String (ascii_of_N (224 + n / 4096))
    (String (ascii_of_N (128 + (n / 64) mod 64))
       (String (ascii_of_N (128 + n mod 64)) EmptyString)).

(** The first of the two code units of a code point above U+FFFF. *)
Definition highSurrogate (cp : string) : string :=
  threeBytes (55296 + ((codePointOf cp - 65536) / 1024) mod 1024).

(** The code points that make the first [n] code units. A cut between
    the two units of a code point keeps the first unit. *)
Fixpoint takeUnits (n : nat) (cps : list string) : list string :=
  match cps with
  | [] => []
  | cp :: rest =>
      if (String_length cp <=? n)%nat
      then cp :: takeUnits (n - String_length cp) rest
      else if (n =? 0)%nat then [] else [highSurrogate cp]
  end.

(** [s.substring(0, n)] *)
Definition substringTo (n : nat) (s : string) : string :=
  implode (takeUnits n (codePoints s)).

(** White space and line terminators, as [trim] knows them: U+0009 to
    U+000D, U+0020, U+00A0, U+1680, U+2000 to U+200A, U+2028, U+2029,
    U+202F, U+205F, U+3000 and U+FEFF. *)
Definition isWhiteSpace (cp : string) : bool :=
  let n := codePointOf cp in
  (((9 <=? n) && (n <=? 13))
   || (n =? 32) || (n =? 160) || (n =? 5760)
   || ((8192 <=? n) && (n <=? 8202))
   || (n =? 8232) || (n =? 8233) || (n =? 8239) || (n =? 8287)
   || (n =? 12288) || (n =? 65279))%N.

Fixpoint dropWhile {A} (p : A -> bool) (xs : list A) : list A :=
  match xs with
  | [] => []
  | x :: rest => if p x then dropWhile p rest else xs
  end.

(** [String.prototype.trim] *)
Definition trim (s : string) : string :=
  implode (rev (dropWhile isWhiteSpace (rev (dropWhile isWhiteSpace (codePoints s))))).

(** ** src/types/interfaces.ts *)

Module CIPipelineEvent.
Record t := mk {
  eventType : EventType;
  timestamp : Z;
  branch : string;
  commitHash : string;
  author : string;
  metadata : gmap string JsValue
}.
End CIPipelineEvent.
Abbreviation CIPipelineEvent := CIPipelineEvent.t.

Module TaskResult.
Record t := mk {
  taskName : string;
  status : TaskStatus;
  output : string;
  duration : Q;
  error : option string
}.
End TaskResult.
Abbreviation TaskResult := TaskResult.t.

Module AgentReport.
Record t := mk {
  agentType : AgentType;
  totalTests : Z;
  passedTests : Z;
  failedTests : Z;
  testResults : list TaskResult
}.
End AgentReport.
Abbreviation AgentReport := AgentReport.t.

Module PipelineResult.
Record t := mk {
  event : CIPipelineEvent;
  taskResults : list TaskResult;
  agentReports : list (string * AgentReport);
  generatedReports : list string;
  pipelineStatus : string
}.
End PipelineResult.
Abbreviation PipelineResult := PipelineResult.t.

(** [r => r.status === s], the predicate every filter in the code uses. *)
Definition hasStatus (s : TaskStatus) (r : TaskResult) : bool :=
  TaskStatus_eqb (TaskResult.status r) s.

(** [xs.filter(p).length] *)
Definition countIf {A} (p : A -> bool) (xs : list A) : Z :=
  Z.of_nat (length (List.filter p xs)).

(** ** The world the code runs in *)

(** The [data] object that [generateAllureReport] serialises. The file
    system of the model stores the object itself, standing for its
    [JSON.stringify] text; [timestamp] is the instant whose ISO
    rendering the file carries. *)
Module Summary.
Record t := mk {
  timestamp : Z;
  totalTests : Z;
  passed : Z;
  failed : Z;
  results : list TaskResult
}.
End Summary.
Abbreviation Summary := Summary.t.

(** The operations whose duration the environment decides. *)
Inductive IoCall :=
| IoTimer (ms : Z)
| IoExec (command : string)
| IoMkdir (path : string)
| IoWriteFile (path : string)
| IoRemote
| IoPause (ms : Z)
| IoDeleteSession.

(** Options passed to webdriverio's [remote]. *)
Module RemoteOptions.
Record t := mk {
  protocol : string;
  hostname : string;
  port : Z;
  path : string;
  udid : string;
  app : option string
}.
End RemoteOptions.
Abbreviation RemoteOptions := RemoteOptions.t.

(** Everything the code does not control: how long each operation takes
    in whole milliseconds of [Date.now()], what the shell prints or how
    it fails, whether the file system or the device cloud refuses. *)
Module Env.
Record t := mk {
  elapsed : IoCall -> nat;
  execSync : string -> Reply string;
  mkdir : string -> Reply unit;
  writeFile : string -> Reply unit;
  processEnv : gmap string string;
  remote : RemoteOptions -> Reply unit;
  pause : Z -> Reply unit;
  deleteSession : Reply unit
}.
End Env.
Abbreviation Env := Env.t.

Module World.
Record t := mk {
  clock : Z;
  dirs : gset string;
  files : gmap string Summary;
  console : list string
}.
End World.
Abbreviation World := World.t.

(** ** The monad of [async] methods

    [M S A]: a computation over the environment, the world and the
    fields [S] of [this]. The state survives a throw, as the mutations
    made before a JavaScript exception do. *)
Definition M (S A : Type) : Type :=
  Env -> World -> S -> Outcome A * World * S.

Definition ret {S A} (a : A) : M S A :=
  fun _ w s => (Returned a, w, s).

Definition throw {S A} (e : Exn) : M S A :=
  fun _ w s => (Thrown e, w, s).

Definition bind {S A B} (m : M S A) (k : A -> M S B) : M S B :=
  fun env w s =>
    match m env w s with
    | (Returned a, w', s') => k a env w' s'
    | (Thrown e, w', s') => (Thrown e, w', s')
    end.

Declare Scope js_scope.
Delimit Scope js_scope with js.
Notation "'let*' x ':=' m 'in' k" := (bind m (fun x => k))
  (at level 10, x pattern, m at level 100, k at level 200) : js_scope.
Notation "m ';;' k" := (bind m (fun _ => k))
  (at level 100, k at level 200, right associativity) : js_scope.
Local Open Scope js_scope.

(** [try { m } catch (error) { h error }] *)
Definition tryCatch {S A} (m : M S A) (h : Exn -> M S A) : M S A :=
  fun env w s =>
    match m env w s with
    | (Returned a, w', s') => (Returned a, w', s')
    | (Thrown e, w', s') => h e env w' s'
    end.

(** [try { m } finally { f }]: [f] always runs; its own exception
    replaces the outcome of [m]. *)
Definition tryFinally {S A} (m : M S A) (f : M S unit) : M S A :=
  fun env w s =>
    match m env w s with
    | (o, w', s') =>
        match f env w' s' with
        | (Returned _, w'', s'') => (o, w'', s'')
        | (Thrown e, w'', s'') => (Thrown e, w'', s'')
        end
    end.

(** Reading and updating the fields of [this]. *)
Definition this {S} : M S S := fun _ w s => (Returned s, w, s).

Definition update {S} (f : S -> S) : M S unit :=
  fun _ w s => (Returned tt, w, f s).

(** The outcome of an expression that touches neither the world nor
    [this]. *)
Definition liftOutcome {S A} (o : Outcome A) : M S A :=
  fun _ w s => (o, w, s).

(** What an operation of the environment answered. *)
Definition liftReply {S A} (o : Reply A) : M S A :=
  fun _ w s =>
    (match o with
     | Returned a => Returned a
     | Thrown e => Thrown (Printable e)
     end, w, s).

Definition ask {S A} (f : Env -> A) : M S A :=
  fun env w s => (Returned (f env), w, s).

Definition advance (n : nat) (w : World) : World :=
  World.mk (World.clock w + Z.of_nat n)
           (World.dirs w) (World.files w) (World.console w).

(** An operation of the outside world: it takes the time the
    environment says. *)
Definition io {S} (c : IoCall) : M S unit :=
  fun env w s => (Returned tt, advance (Env.elapsed env c) w, s).

(** [Date.now()] *)
Definition Date_now {S} : M S Z :=
  fun _ w s => (Returned (World.clock w), w, s).

(** [await new Promise(res => setTimeout(res, ms))]: resumes [ms]
    milliseconds later, plus whatever lag the environment adds. *)
Definition sleep {S} (ms : Z) : M S unit :=
  fun env w s =>
    (Returned tt,
     advance (Env.elapsed env (IoTimer ms))
       (World.mk (World.clock w + ms)
                 (World.dirs w) (World.files w) (World.console w)),
     s).

(** [console.log(line)] *)
Definition console_log {S} (line : string) : M S unit :=
  fun _ w s =>
    (Returned tt,
     World.mk (World.clock w) (World.dirs w) (World.files w)
              (World.console w ++ [line])%list,
     s).

(** [execSync(command, { encoding: 'utf8', timeout: 5000 })] *)
Definition execSync {S} (command : string) : M S string :=
  io (IoExec command) ;;
  let* o := ask (fun env => Env.execSync env command) in
  liftReply o.

(** [await fs.mkdir(dir, { recursive: true })] *)
Definition fs_mkdir {S} (dir : string) : M S unit :=
  io (IoMkdir dir) ;;
  let* o := ask (fun env => Env.mkdir env dir) in
  liftReply o ;;
  fun _ w s =>
    (Returned tt,
     World.mk (World.clock w) ({[ dir ]} ∪ World.dirs w)
              (World.files w) (World.console w),
     s).

(** [await fs.writeFile(filePath, JSON.stringify(data, null, 2))]:
    replaces the content of an existing file. *)
Definition fs_writeFile {S} (filePath : string) (data : Summary) : M S unit :=
  io (IoWriteFile filePath) ;;
  let* o := ask (fun env => Env.writeFile env filePath) in
  liftReply o ;;
  fun _ w s =>
    (Returned tt,
     World.mk (World.clock w) (World.dirs w)
              (<[ filePath := data ]> (World.files w)) (World.console w),
     s).

(** [for (const x of xs) { acc = body(acc, x) }], for a loop whose only
    local state is [acc]. *)
Fixpoint forOf {S A B} (xs : list A) (acc : B) (body : B -> A -> M S B) : M S B :=
  match xs with
  | [] => ret acc
  | x :: xs' => let* acc' := body acc x in forOf xs' acc' body
  end.

(** The values that a [for ... of] over [v] visits, and the exception
    that ends the visit if one does. An array yields its elements and a
    string its code points; [name] is the source text of the iterated
    expression, which the engine quotes when the value is not
    iterable. *)
Definition visits (name : string) (v : JsValue) : list JsValue * option Exn :=
  match v with
  | JsArray elems => (elems, None)
  | JsString s => (List.map JsString (codePoints s), None)
  | JsOther _ (Some iteration) _ => iteration
  | _ => ([], Some (Printable (JsError (name +:+ " is not iterable"))))
  end.

(** [for (const x of v) { acc = body(acc, x) }] *)
Definition forOfValue {S B} (name : string) (v : JsValue) (acc : B)
  (body : B -> JsValue -> M S B) : M S B :=
  let* acc' := forOf (fst (visits name v)) acc body in
  match snd (visits name v) with
  | None => ret acc'
  | Some e => throw e
  end.

(** [context.key], [undefined] when the key is absent. *)
Definition prop (context : gmap string JsValue) (key : string) : JsValue :=
  default JsUndefined (context !! key).

(** ** src/agents/BaseAgent.ts *)

Module BaseAgent.

Record t := mk {
  name : string;
  agentType : AgentType;
  tasks : list string
}.

Definition new (name : string) (agentType : AgentType) : t :=
  mk name agentType [].

Definition measureExecutionTime {S T} (taskName : string) (operation : M S T)
  : M S (T * Q) :=
  let* startTime := Date_now in
  let* result := operation in
  let* endTime := Date_now in
  let duration := Qmake (endTime - startTime) 1000 in
  ret (result, duration).

Definition createTaskResult (taskName : string) (status : TaskStatus)
  (output : string) (duration : Q) (error : option string) : TaskResult :=
  TaskResult.mk taskName status output duration error.

End BaseAgent.

(** The two abstract methods of [BaseAgent], over the fields [S] of the
    concrete class. *)
Module Agent.
Class t (S : Type) := {
  executeTask : string -> gmap string JsValue -> M S TaskResult;
  generateReport : M S AgentReport
}.
End Agent.

(** ** src/agents/APIAgent.ts *)

Module APIAgent.

Record t := mk {
  super : BaseAgent.t;
  postmanCollections : list JsValue;
  testResults : list TaskResult
}.

Definition new : t := mk (BaseAgent.new "API Agent" API_AGENT) [] [].

Definition testResults_push (r : TaskResult) (a : t) : t :=
  mk (super a) (postmanCollections a) (testResults a ++ [r])%list.

Definition postmanCollections_push (v : JsValue) (a : t) : t :=
  mk (super a) (postmanCollections a ++ [v])%list (testResults a).

Definition runPostmanTests (context : gmap string JsValue) : M t string :=
  let collectionPath := js_or (prop context "collectionPath") (JsString "api_tests.json") in
  tryCatch
    (let* path := liftOutcome (ToString collectionPath) in
     let command :=
       "echo " +:+ DQUOTE +:+ "Pretend running: newman run " +:+ path +:+ DQUOTE in
     let* output := execSync command in
     update (postmanCollections_push collectionPath) ;;
     ret ("Postman tests simulated: " +:+ trim (substringTo 100 output) +:+ "..."))
    (fun error =>
     let* message := liftOutcome (messageOf error) in
     throw (JsError ("Postman tests failed: " +:+ message))).

Definition validateApiEndpoints (context : gmap string JsValue) : M t string :=
  let endpoints :=
    js_or (prop context "endpoints")
      (JsArray [JsString "/api/v1/health"; JsString "/api/v1/users";
                JsString "/api/v1/products"]) in
  let* results :=
    forOfValue "endpoints" endpoints [] (fun results endpoint =>
      sleep 50 ;;
      let* text := liftOutcome (ToString endpoint) in
      ret (results ++ [CHECK_MARK +:+ " " +:+ text +:+ " - Status: 200"])%list) in
  ret ("API validation completed for " +:+ nat_toString (length results)
       +:+ " endpoints" +:+ LF +:+ String.concat LF results).

(** The body of the [switch] that [executeTask] measures. *)
Definition taskBody (task : string) (context : gmap string JsValue) : M t string :=
  if String.eqb task "postman_tests" then runPostmanTests context
  else if String.eqb task "api_validation" then validateApiEndpoints context
  else throw (JsError ("Unknown task: " +:+ task)).

Definition executeTask (task : string) (context : gmap string JsValue)
  : M t TaskResult :=
  tryCatch
    (let* (result, duration) :=
       BaseAgent.measureExecutionTime task (taskBody task context) in
     let taskResult :=
       BaseAgent.createTaskResult task COMPLETED result duration None in
     update (testResults_push taskResult) ;;
     ret taskResult)
    (fun error =>
     let* message := liftOutcome (messageOf error) in
     let taskResult :=
       BaseAgent.createTaskResult task FAILED "" (Qmake 0 1) (Some message) in
     update (testResults_push taskResult) ;;
     ret taskResult).

Definition generateReport : M t AgentReport :=
  let* self := this in
  let totalTests := Z.of_nat (length (testResults self)) in
  let passedTests := countIf (hasStatus COMPLETED) (testResults self) in
  ret (AgentReport.mk (BaseAgent.agentType (super self))
         totalTests passedTests (totalTests - passedTests) (testResults self)).

#[global] Instance agent : Agent.t t :=
  {| Agent.executeTask := executeTask; Agent.generateReport := generateReport |}.

End APIAgent.

(** ** src/agents/MobileAgent.ts *)

Module MobileAgent.

Record t := mk {
  super : BaseAgent.t;
  testResults : list TaskResult;
  devices : list string
}.

Definition new : t :=
  mk (BaseAgent.new "Mobile Agent" MOBILE_AGENT) [] ["iOS Simulator"].

Definition testResults_push (r : TaskResult) (a : t) : t :=
  mk (super a) (testResults a ++ [r])%list (devices a).

Definition runAppiumTests (context : gmap string JsValue) : M t string :=
  let* self := this in
  let* results :=
    forOf (devices self) [] (fun results device =>
      sleep 100 ;;
      ret (results ++ [CHECK_MARK +:+ " " +:+ device +:+ " - All tests passed"])%list) in
  ret ("Appium tests completed:" +:+ LF +:+ String.concat LF results).

Definition runWebDriverTests (context : gmap string JsValue) : M t string :=
  let browsers :=
    js_or (prop context "browsers") (JsArray [JsString "Chrome"; JsString "Firefox"]) in
  let* results :=
    forOfValue "browsers" browsers [] (fun results browser =>
      sleep 80 ;;
      let* text := liftOutcome (ToString browser) in
      ret (results ++ [CHECK_MARK +:+ " " +:+ text
                       +:+ " - WebDriver tests succeeded"])%list) in
  ret ("WebDriver tests completed:" +:+ LF +:+ String.concat LF results).

Definition taskBody (task : string) (context : gmap string JsValue) : M t string :=
  if String.eqb task "appium_tests" then runAppiumTests context
  else if String.eqb task "webdriver_tests" then runWebDriverTests context
  else throw (JsError ("Unknown task: " +:+ task)).

(** The [catch] branch pushes the failed result and returns the last
    element of the history, [this.testResults[this.testResults.length - 1]].
    An out-of-range read would yield [undefined], which is no
    [TaskResult]; the model makes that case a throw, so that whoever
    states that [executeTask] returns a result has to rule it out. *)
Definition executeTask (task : string) (context : gmap string JsValue)
  : M t TaskResult :=
  tryCatch
    (let* (result, duration) :=
       BaseAgent.measureExecutionTime task (taskBody task context) in
     let taskResult :=
       BaseAgent.createTaskResult task COMPLETED result duration None in
     update (testResults_push taskResult) ;;
     ret taskResult)
    (fun error =>
     let* message := liftOutcome (messageOf error) in
     let pushed :=
       BaseAgent.createTaskResult task FAILED "" (Qmake 0 1) (Some message) in
     update (testResults_push pushed) ;;
     let* self := this in
     match testResults self !! (length (testResults self) - 1)%nat with
     | Some r => ret r
     | None => throw (JsThrown "undefined")
     end).

Definition generateReport : M t AgentReport :=
  let* self := this in
  let totalTests := Z.of_nat (length (testResults self)) in
  let passedTests := countIf (hasStatus COMPLETED) (testResults self) in
  ret (AgentReport.mk (BaseAgent.agentType (super self))
         totalTests passedTests (totalTests - passedTests) (testResults self)).

#[global] Instance agent : Agent.t t :=
  {| Agent.executeTask := executeTask; Agent.generateReport := generateReport |}.

End MobileAgent.

(** ** src/agents/WireMockAgent.ts *)

Module WireMockAgent.

Record t := mk {
  super : BaseAgent.t;
  wiremocks : list JsValue;
  testResults : list TaskResult
}.

Definition new : t := mk (BaseAgent.new "Wiremock Agent" WIREMOCK_AGENT) [] [].

Definition testResults_push (r : TaskResult) (a : t) : t :=
  mk (super a) (wiremocks a) (testResults a ++ [r])%list.

Definition wiremocks_push (v : JsValue) (a : t) : t :=
  mk (super a) (wiremocks a ++ [v])%list (testResults a).

Definition runWiremockTests (context : gmap string JsValue) : M t string :=
  let collectionPath := js_or (prop context "collectionPath") (JsString "get-user.json") in
  tryCatch
    (let* path := liftOutcome (ToString collectionPath) in
     let command :=
       "echo " +:+ DQUOTE +:+ "Pretend running: wiremock run " +:+ path +:+ DQUOTE in
     let* output := execSync command in
     update (wiremocks_push collectionPath) ;;
     ret ("Wiremock tests simulated: " +:+ trim (substringTo 100 output) +:+ "..."))
    (fun error =>
     let* message := liftOutcome (messageOf error) in
     throw (JsError ("Wiremock tests failed: " +:+ message))).

(** Each line interpolates the whole [mocks] value, as the source does. *)
Definition validateWiremocks (context : gmap string JsValue) : M t string :=
  let mocks := js_or (prop context "mocks") (JsArray [JsString "/mocks/user"]) in
  let* results :=
    forOfValue "mocks" mocks [] (fun results mock =>
      sleep 50 ;;
      let* text := liftOutcome (ToString mocks) in
      ret (results ++ [CHECK_MARK +:+ " " +:+ text +:+ " - Status: 200"])%list) in
  ret ("Wiremock validation completed for " +:+ nat_toString (length results)
       +:+ " wiremocks" +:+ LF +:+ String.concat LF results).

Definition taskBody (task : string) (context : gmap string JsValue) : M t string :=
  if String.eqb task "wiremock_tests" then runWiremockTests context
  else if String.eqb task "mock_validation" then validateWiremocks context
  else throw (JsError ("Unknown task: " +:+ task)).

Definition executeTask (task : string) (context : gmap string JsValue)
  : M t TaskResult :=
  tryCatch
    (let* (result, duration) :=
       BaseAgent.measureExecutionTime task (taskBody task context) in
     let taskResult :=
       BaseAgent.createTaskResult task COMPLETED result duration None in
     update (testResults_push taskResult) ;;
     ret taskResult)
    (fun error =>
     let* message := liftOutcome (messageOf error) in
     let taskResult :=
       BaseAgent.createTaskResult task FAILED "" (Qmake 0 1) (Some message) in
     update (testResults_push taskResult) ;;
     ret taskResult).

Definition generateReport : M t AgentReport :=
  let* self := this in
  let totalTests := Z.of_nat (length (testResults self)) in
  let passedTests := countIf (hasStatus COMPLETED) (testResults self) in
  ret (AgentReport.mk (BaseAgent.agentType (super self))
         totalTests passedTests (totalTests - passedTests) (testResults self)).

#[global] Instance agent : Agent.t t :=
  {| Agent.executeTask := executeTask; Agent.generateReport := generateReport |}.

End WireMockAgent.

(** ** src/agents/HeadSpinAgent.ts *)

Module HeadSpinAgent.

Record t := mk {
  super : BaseAgent.t;
  testResults : list TaskResult
}.

Definition new : t := mk (BaseAgent.new "HeadSpin Agent" MOBILE_AGENT) [].

Definition testResults_push (r : TaskResult) (a : t) : t :=
  mk (super a) (testResults a ++ [r])%list.

(** [process.env.NAME] *)
Definition process_env {S} (name : string) : M S (option string) :=
  ask (fun env => Env.processEnv env !! name).

(** [!v] for a value that is a string or [undefined]. *)
Definition absent (v : option string) : bool :=
  match v with
  | None => true
  | Some s => String.eqb s ""
  end.

Definition runHeadSpinIOSSmokeTest : M t string :=
  let* HEADSPIN_USERNAME := process_env "HEADSPIN_USERNAME" in
  let* HEADSPIN_ACCESS_TOKEN := process_env "HEADSPIN_API_TOKEN" in
  let* host := process_env "HEADSPIN_HOST" in
  let HEADSPIN_HOST := if absent host then "us-west2.headspin.io" else default "" host in
  let* DEVICE_UDID := process_env "HEADSPIN_UDID" in
  if absent HEADSPIN_ACCESS_TOKEN || absent DEVICE_UDID
  then throw (JsError "Missing HeadSpin credentials or device info in .env")
  else
    let* app := process_env "HEADSPIN_APP_URL" in
    let options :=
      RemoteOptions.mk "https" HEADSPIN_HOST 443
        ("/v0/" +:+ default "" HEADSPIN_ACCESS_TOKEN +:+ "/wd/hub")
        (default "" DEVICE_UDID) app in
    io IoRemote ;;
    let* o := ask (fun env => Env.remote env options) in
    liftReply o ;;
    let* output :=
      tryFinally
        (io (IoPause 1000) ;;
         let* p := ask (fun env => Env.pause env 1000) in
         liftReply p ;;
         ret "HeadSpin iOS smoke test executed successfully!")
        (io IoDeleteSession ;;
         let* d := ask Env.deleteSession in
         liftReply d) in
    ret output.

Definition taskBody (task : string) (context : gmap string JsValue) : M t string :=
  if String.eqb task "headspin_ios_smoke" then runHeadSpinIOSSmokeTest
  else throw (JsError ("Unknown task: " +:+ task)).

Definition executeTask (task : string) (context : gmap string JsValue)
  : M t TaskResult :=
  tryCatch
    (let* (result, duration) :=
       BaseAgent.measureExecutionTime task (taskBody task context) in
     let taskResult :=
       BaseAgent.createTaskResult task COMPLETED result duration None in
     update (testResults_push taskResult) ;;
     ret taskResult)
    (fun error =>
     let* message := liftOutcome (messageOf error) in
     let taskResult :=
       BaseAgent.createTaskResult task FAILED "" (Qmake 0 1) (Some message) in
     update (testResults_push taskResult) ;;
     ret taskResult).

Definition generateReport : M t AgentReport :=
  let* self := this in
  let totalTests := Z.of_nat (length (testResults self)) in
  let passedTests := countIf (hasStatus COMPLETED) (testResults self) in
  ret (AgentReport.mk (BaseAgent.agentType (super self))
         totalTests passedTests (totalTests - passedTests) (testResults self)).

#[global] Instance agent : Agent.t t :=
  {| Agent.executeTask := executeTask; Agent.generateReport := generateReport |}.

End HeadSpinAgent.

(** ** Node's [path] module (POSIX flavour), as far as [path.join] of two
    arguments goes *)

Module path.

Definition isSlash (c : ascii) : bool := Ascii.eqb c "/"%char.

(** The segments between the separators of a path (never an empty
    list). *)
Fixpoint segments (p : string) : list string :=
  match p with
  | EmptyString => [EmptyString]
  | String c p' =>
      if isSlash c then EmptyString :: segments p'
      else match segments p' with
           | seg :: rest => String c seg :: rest
           | [] => [String c EmptyString]
           end
  end.

(** One step of [normalizeString]: [kept] holds the segments kept so
    far, the last one first. *)
Definition keep (allowAboveRoot : bool) (kept : list string) (seg : string)
  : list string :=
  if String.eqb seg "" || String.eqb seg "." then kept
  else if String.eqb seg ".." then
    match kept with
    | top :: rest =>
        if String.eqb top ".."
        then (if allowAboveRoot then ".." :: kept else kept)
        else rest
    | [] => if allowAboveRoot then [".."] else []
    end
  else seg :: kept.

Definition normalizeString (p : string) (allowAboveRoot : bool) : string :=
  String.concat "/" (rev (fold_left (keep allowAboveRoot) (segments p) [])).

Definition startsWithSlash (p : string) : bool :=
  match p with
  | String c _ => isSlash c
  | EmptyString => false
  end.

Fixpoint endsWithSlash (p : string) : bool :=
  match p with
  | EmptyString => false
  | String c EmptyString => isSlash c
  | String _ p' => endsWithSlash p'
  end.

Definition normalize (p : string) : string :=
  if String.eqb p "" then "."
  else
    let isAbsolute := startsWithSlash p in
    let trailingSeparator := endsWithSlash p in
    let res := normalizeString p (negb isAbsolute) in
    if String.eqb res "" then
      (if isAbsolute then "/" else if trailingSeparator then "./" else ".")
    else
      let res' := if trailingSeparator then res +:+ "/" else res in
      if isAbsolute then "/" +:+ res' else res'.

(** [path.join(a, b)]: empty arguments are skipped. *)
Definition join (a b : string) : string :=
  let joined :=
    if String.eqb a "" then b
    else if String.eqb b "" then a
    else a +:+ "/" +:+ b in
  if String.eqb joined "" then "." else normalize joined.

End path.

(** ** src/reports/ReportGenerator.ts *)

Module ReportGenerator.

Definition fileName (now : Z) : string :=
  "allure-report-" +:+ Z_toString now +:+ ".json".

(** [outputDir] is [None] when the caller leaves the parameter out. *)
Definition generateAllureReport {S} (testResults : list TaskResult)
  (outputDir : option string) : M S string :=
  let outputDir := default "pipeline-reports" outputDir in
  fs_mkdir outputDir ;;
  let* now := Date_now in
  let filePath := path.join outputDir (fileName now) in
  let* date := Date_now in
  let data :=
    Summary.mk date
      (Z.of_nat (length testResults))
      (countIf (hasStatus COMPLETED) testResults)
      (countIf (hasStatus FAILED) testResults)
      testResults in
  fs_writeFile filePath data ;;
  ret filePath.

Definition delay {S} (ms : Z) : M S unit := sleep ms.

Definition syncWithZephyrJira {S} (testResults : list TaskResult) : M S string :=
  let failed := List.filter (hasStatus FAILED) testResults in
  delay 150 ;;
  if negb (length failed =? 0)%nat
  then ret ("Mock: Synced " +:+ nat_toString (length failed)
            +:+ " failed test(s) with Jira.")
  else ret "No issues to sync with Jira/Zephyr - all tests passed!".

End ReportGenerator.

(** ** Agent objects

    A value of the type
    [{ executeTask: Function; generateReport: Function }]
    that the orchestrator stores: an instance of one of the concrete
    classes. Method calls dispatch on the class of the object. *)

Inductive AgentObject :=
| ApiObject (a : APIAgent.t)
| MobileObject (a : MobileAgent.t)
| WireMockObject (a : WireMockAgent.t)
| HeadSpinObject (a : HeadSpinAgent.t).

Definition invoke {A} (method : forall S, Agent.t S -> M S A) : M AgentObject A :=
  fun env w o =>
    match o with
    | ApiObject a =>
        match method _ APIAgent.agent env w a with
        | (r, w', a') => (r, w', ApiObject a')
        end
    | MobileObject a =>
        match method _ MobileAgent.agent env w a with
        | (r, w', a') => (r, w', MobileObject a')
        end
    | WireMockObject a =>
        match method _ WireMockAgent.agent env w a with
        | (r, w', a') => (r, w', WireMockObject a')
        end
    | HeadSpinObject a =>
        match method _ HeadSpinAgent.agent env w a with
        | (r, w', a') => (r, w', HeadSpinObject a')
        end
    end.

Definition AgentObject_executeTask (task : string) (context : gmap string JsValue)
  : M AgentObject TaskResult :=
  invoke (fun S _ => Agent.executeTask task context).

Definition AgentObject_generateReport : M AgentObject AgentReport :=
  invoke (fun S _ => Agent.generateReport).

(** The private history [this.testResults] of an agent object. *)
Definition history (o : AgentObject) : list TaskResult :=
  match o with
  | ApiObject a => APIAgent.testResults a
  | MobileObject a => MobileAgent.testResults a
  | WireMockObject a => WireMockAgent.testResults a
  | HeadSpinObject a => HeadSpinAgent.testResults a
  end.

(** The body that [executeTask] of the object's class runs for [task]. *)
Definition AgentObject_taskBody (task : string) (context : gmap string JsValue)
  : M AgentObject string :=
  fun env w o =>
    match o with
    | ApiObject a =>
        match APIAgent.taskBody task context env w a with
        | (r, w', a') => (r, w', ApiObject a')
        end
    | MobileObject a =>
        match MobileAgent.taskBody task context env w a with
        | (r, w', a') => (r, w', MobileObject a')
        end
    | WireMockObject a =>
        match WireMockAgent.taskBody task context env w a with
        | (r, w', a') => (r, w', WireMockObject a')
        end
    | HeadSpinObject a =>
        match HeadSpinAgent.taskBody task context env w a with
        | (r, w', a') => (r, w', HeadSpinObject a')
        end
    end.

(** The [case] labels of the [switch] in [executeTask] of each class. *)
Definition recognizedTasks (o : AgentObject) : list string :=
  match o with
  | ApiObject _ => ["postman_tests"; "api_validation"]
  | MobileObject _ => ["appium_tests"; "webdriver_tests"]
  | WireMockObject _ => ["wiremock_tests"; "mock_validation"]
  | HeadSpinObject _ => ["headspin_ios_smoke"]
  end.

(** A freshly constructed agent of each class. *)
Inductive AgentClass :=
| ClassAPIAgent
| ClassMobileAgent
| ClassWireMockAgent
| ClassHeadSpinAgent.

Definition construct (c : AgentClass) : AgentObject :=
  match c with
  | ClassAPIAgent => ApiObject APIAgent.new
  | ClassMobileAgent => MobileObject MobileAgent.new
  | ClassWireMockAgent => WireMockObject WireMockAgent.new
  | ClassHeadSpinAgent => HeadSpinObject HeadSpinAgent.new
  end.

(** ** src/orchestrator/MCPAgentOrchestrator.ts *)

Module MCPAgentOrchestrator.

(** [agents] in insertion order; the report generator has no fields. *)
Record t := mk {
  agents : list (string * AgentObject)
}.

Definition new : t :=
  mk [("api_agent", ApiObject APIAgent.new);
      ("mobile_agent", MobileObject MobileAgent.new);
      ("wiremock_agent", WireMockObject WireMockAgent.new)].

(** [obj[key]] on a table in insertion order. *)
Fixpoint lookupKey {V} (key : string) (table : list (string * V)) : option V :=
  match table with
  | [] => None
  | (k, v) :: rest => if String.eqb k key then Some v else lookupKey key rest
  end.

(** The object stored under [key] after a method has run on it. *)
Fixpoint storeKey {V} (key : string) (v : V) (table : list (string * V))
  : list (string * V) :=
  match table with
  | [] => []
  | (k, v0) :: rest =>
      if String.eqb k key then (k, v) :: rest else (k, v0) :: storeKey key v rest
  end.

(** [this.agents[agentName].method(...)]: a call on [undefined] throws
    a [TypeError]. *)
Definition callAgent {A} (agentName method : string) (m : M AgentObject A) : M t A :=
  fun env w self =>
    match lookupKey agentName (agents self) with
    | None =>
        (Thrown (Printable (JsError ("Cannot read properties of undefined (reading '"
                                     +:+ method +:+ "')"))), w, self)
    | Some agent =>
        match m env w agent with
        | (r, w', agent') => (r, w', mk (storeKey agentName agent' (agents self)))
        end
    end.

(** All the [case] labels fall through to the [default] table. *)
Definition getTasksForEvent (event : CIPipelineEvent) : list (string * list string) :=
  match CIPipelineEvent.eventType event with
  | CI_EVENT | PR_EVENT | DEV_EVENT =>
      [("api_agent", ["postman_tests"; "api_validation"]);
       ("mobile_agent", ["appium_tests"; "webdriver_tests"]);
       ("wiremock_agent", ["wiremock_tests"; "wiremock_tests"])]
  end.

Definition getPipelineStatus (taskResults : list TaskResult) : string :=
  if existsb (hasStatus FAILED) taskResults then "FAILED"
  else if forallb (hasStatus COMPLETED) taskResults then "SUCCESS"
  else "INCOMPLETE".

(** [await Promise.all([p, q])]. Both operations start at once; the
    model runs them one after the other, which is all their outcomes
    depend on: they use disjoint parts of the world, and the rejection
    of either rejects the whole. *)
Definition Promise_all {S A B} (p : M S A) (q : M S B) : M S (A * B) :=
  let* a := p in
  let* b := q in
  ret (a, b).

Definition makeContext (event : CIPipelineEvent) : gmap string JsValue :=
  {[ "event" := JsObject;
     "branch" := JsString (CIPipelineEvent.branch event);
     "commit" := JsString (CIPipelineEvent.commitHash event);
     "timestamp" := JsObject ]}.

(** The body of the inner loop of [processEvent]: one task of one
    agent, its result pushed on [allResults]. *)
Definition dispatch (event : CIPipelineEvent) (agentName : string)
  (allResults : list TaskResult) (task : string) : M t (list TaskResult) :=
  let context := makeContext event in
  console_log ("[MCPAgentOrchestrator] Executing " +:+ task
               +:+ " on " +:+ agentName) ;;
  let* result :=
    callAgent agentName "executeTask" (AgentObject_executeTask task context) in
  ret (allResults ++ [result])%list.

(** The inner loop: the tasks of one agent, in list order. *)
Definition runAgentTasks (event : CIPipelineEvent) (agentName : string)
  (agentTasks : list string) (allResults : list TaskResult)
  : M t (list TaskResult) :=
  forOf agentTasks allResults (dispatch event agentName).

(** The outer loop, over [Object.entries(tasksByAgent)]. *)
Definition runTasks (event : CIPipelineEvent)
  (tasksByAgent : list (string * list string)) : M t (list TaskResult) :=
  forOf tasksByAgent [] (fun allResults entry =>
    let (agentName, agentTasks) := entry in
    runAgentTasks event agentName agentTasks allResults).

(** The body of the loop that gathers the per-agent reports:
    [agentReports[name] = await agent.generateReport()]. *)
Definition collectReport (agentReports : list (string * AgentReport))
  (entry : string * AgentObject) : M t (list (string * AgentReport)) :=
  let (name, _) := entry in
  let* report := callAgent name "generateReport" AgentObject_generateReport in
  ret (agentReports ++ [(name, report)])%list.

Definition processEvent (event : CIPipelineEvent) : M t PipelineResult :=
  console_log ("[MCPAgentOrchestrator] Processing "
               +:+ EventType_value (CIPipelineEvent.eventType event)
               +:+ " for branch " +:+ CIPipelineEvent.branch event) ;;
  let tasksByAgent := getTasksForEvent event in
  let* allResults := runTasks event tasksByAgent in
  let* (allureReport, jiraSyncResult) :=
    Promise_all
      (ReportGenerator.generateAllureReport allResults None)
      (ReportGenerator.syncWithZephyrJira allResults) in
  let* self := this in
  let* agentReports := forOf (agents self) [] collectReport in
  ret (PipelineResult.mk event allResults agentReports
         [allureReport; jiraSyncResult] (getPipelineStatus allResults)).

End MCPAgentOrchestrator.

(** ** More of JavaScript's strings and arrays *)

(** [String.prototype.toLowerCase]: the letters A to Z; text is held as
    UTF-8, and no other character lowers to one of the letters searched
    for below. *)
Definition lowerChar (c : ascii) : ascii :=
  let n := nat_of_ascii c in
  if ((65 <=? n) && (n <=? 90))%nat then ascii_of_nat (n + 32) else c.

Fixpoint toLowerCase (s : string) : string :=
  match s with
  | EmptyString => EmptyString
  | String c s' => String (lowerChar c) (toLowerCase s')
  end.

(** [hay.includes(needle)] *)
Fixpoint includes (hay needle : string) : bool :=
  String.prefix needle hay
  || match hay with
     | EmptyString => false
     | String _ hay' => includes hay' needle
     end.

(** [Array.prototype.sort(compare)]: the sort is stable, so for a
    comparator that orders by a key its result is the one that insertion
    from the right builds. The source sorts in place and returns the
    same array; the list returned here is that array afterwards. *)
Fixpoint Array_insert {A} (compare : A -> A -> Z) (x : A) (sorted : list A) : list A :=
  match sorted with
  | [] => [x]
  | y :: rest =>
      if compare x y <=? 0 then x :: y :: rest
      else y :: Array_insert compare x rest
  end.

Fixpoint Array_sort {A} (compare : A -> A -> Z) (xs : list A) : list A :=
  match xs with
  | [] => []
  | x :: rest => Array_insert compare x (Array_sort compare rest)
  end.

(** An [await] on the outside world that takes [n] milliseconds. *)
Definition elapse {S} (n : nat) : M S unit :=
  fun _ w s => (Returned tt, advance n w, s).

(** ** src/agents/AnalyticsAgent.ts *)

Module AnalyticsAgent.

(** One choice of a chat completion: its message, if any, and the
    message's content, if any. *)
Record Choice := mkChoice {
  message : option (option string)
}.

(** What the file system, [JSON] and the OpenAI client do for the
    agent: [jsonPretty text] is [JSON.stringify(JSON.parse(text), null, 2)],
    which throws when [text] is not JSON; [inspect] is the rendering of
    a thrown value by [console.error]. *)
Record Services := mkServices {
  readFile : string -> Reply string;
  readTook : string -> nat;
  jsonPretty : string -> Reply string;
  chat : string -> string -> Reply (list Choice);
  chatTook : string -> nat;
  inspect : Exn -> string
}.

Record Priority := mkPriority {
  type : string;
  priority : Z
}.

(** The template literal of [analyzeTestResults]. *)
Definition promptFor (testData : string) : string :=
  LF +:+ "      Analyze the following test results and suggest improvements:"
  +:+ LF +:+ "      " +:+ testData
  +:+ LF +:+ "      Provide insights on failure trends and prioritization for next test runs."
  +:+ LF +:+ "    ".

Definition analyzeTestResults {S} (services : Services) (testDataPath : string)
  : M S string :=
  elapse (readTook services testDataPath) ;;
  let* text := liftReply (readFile services testDataPath) in
  let* testData := liftReply (jsonPretty services text) in
  let prompt := promptFor testData in
  elapse (chatTook services prompt) ;;
  let* choices := liftReply (chat services "gpt-4o" prompt) in
  match choices with
  | [] => throw (JsError "Cannot read properties of undefined (reading 'message')")
  | choice :: _ =>
      match message choice with
      | Some (Some content) =>
          if String.eqb content "" then ret "No analysis available" else ret content
      | _ => ret "No analysis available"
      end
  end.

Definition prioritizeTests (insights : string) : list Priority :=
  let priorityList := [] in
  let priorityList :=
    if includes (toLowerCase insights) "failure trends"
    then (priorityList ++ [mkPriority "regression" 1])%list else priorityList in
  let priorityList :=
    if includes (toLowerCase insights) "performance issues"
    then (priorityList ++ [mkPriority "performance" 2])%list else priorityList in
  priorityList.

End AnalyticsAgent.

(** ** The test-file prioritizer that uses the analytics agent *)

(** [priorities.find(p => file.includes(p.type))?.priority || 10] *)
Definition priorityOf (priorities : list AnalyticsAgent.Priority) (file : string) : Z :=
  match List.find (fun p => includes file (AnalyticsAgent.type p)) priorities with
  | Some p => if AnalyticsAgent.priority p =? 0 then 10 else AnalyticsAgent.priority p
  | None => 10
  end.

(** [console.error(label, error)]: the console of the model holds both
    streams. *)
Definition console_error {S} (line : string) : M S unit := console_log line.

Definition prioritizeTestFiles {S} (services : AnalyticsAgent.Services)
  (testFiles : list string) : M S (list string) :=
  if (length testFiles =? 0)%nat then ret testFiles
  else
    let testDataPath := "data/latest_failures.json" in
    let* insights :=
      tryCatch
        (let* insights := AnalyticsAgent.analyzeTestResults services testDataPath in
         console_log ("AI Insights: " +:+ insights) ;;
         ret insights)
        (fun error =>
         console_error ("Failed to analyze test results: "
                        +:+ AnalyticsAgent.inspect services error) ;;
         ret "No insights available") in
    let priorities := AnalyticsAgent.prioritizeTests insights in
    ret (Array_sort (fun a b => priorityOf priorities a - priorityOf priorities b)
           testFiles).

(** ** src/auth/users.ts, src/auth/totp.ts and src/auth/login.ts *)

Module auth.

Record User := mkUser {
  username : string;
  password : string;
  role : string;
  totpSecret : string
}.

Section Otplib.

(** The two secrets that [generateSecret()] returned when the module
    was loaded, and otplib's [totp.check]. *)
Variables (aliceSecret bobSecret : string) (check : string -> string -> bool).

Definition users : list User :=
  [ mkUser "alice" "alicepw" "admin" aliceSecret;
    mkUser "bob" "barbpw" "salesowner" bobSecret ]%list.

Definition findUser (name : string) : option User :=
  List.find (fun u => String.eqb (username u) name) users.

Definition verifyTOTP (token secret : string) : bool := check token secret.

Definition login (name pass token : string) : bool :=
  match findUser name with
  | Some user =>
      if String.eqb (password user) pass
      then verifyTOTP token (totpSecret user)
      else false
  | None => false
  end.

End Otplib.

End auth.

(** ** The health check script: the overall assessment *)

Module HealthCheck.

(** ['pass' | 'warn' | 'fail'] *)
Inductive Status := pass | warn | fail.

Definition Status_eqb (a b : Status) : bool :=
  match a, b with
  | pass, pass | warn, warn | fail, fail => true
  | _, _ => false
  end.

Record HealthCheckResult := mk {
  category : string;
  name : string;
  status : Status;
  message : string;
  version : option string;
  details : option string
}.

(** ['healthy' | 'warning' | 'critical'] *)
Inductive Health := healthy | warning | critical.

Definition assessOverallHealth (results : list HealthCheckResult) : Health :=
  let failCount := length (List.filter (fun r => Status_eqb (status r) fail) results) in
  let warnCount := length (List.filter (fun r => Status_eqb (status r) warn) results) in
  if (0 <? failCount)%nat then critical
  else if (3 <? warnCount)%nat then warning
  else healthy.

End HealthCheck.

(** ** The WebdriverIO configuration: smart retry *)

Module SmartRetry.

(** [aiConfig.smartRetry]; attempts and delays are whole numbers. *)
Record t := mk {
  enabled : bool;
  maxRetries : Z;
  retryDelay : Z;
  exponentialBackoff : bool;
  retryPatterns : list string;
  skipPatterns : list string
}.

(** An [Error] object as far as it is read: its name and message. *)
Record Error := mkError {
  name : string;
  message : string
}.

(** [Error.prototype.toString] *)
Definition Error_toString (error : Error) : string :=
  if String.eqb (name error) "" then message error
  else if String.eqb (message error) "" then name error
  else name error +:+ ": " +:+ message error.

(** A [for ... of] over patterns that returns at the first one the
    message includes. *)
Fixpoint firstIncluded (errorMessage : string) (patterns : list string) : bool :=
  match patterns with
  | nil => false
  | pattern :: rest =>
      if includes errorMessage pattern then true
      else firstIncluded errorMessage rest
  end.

Definition shouldRetryTest (error : Error) (attempt : Z) (smartRetry : t) : bool :=
  if negb (enabled smartRetry) || (maxRetries smartRetry <=? attempt) then false
  else
    let errorMessage :=
      if String.eqb (message error) "" then Error_toString error else message error in
    if firstIncluded errorMessage (skipPatterns smartRetry) then false
    else if firstIncluded errorMessage (retryPatterns smartRetry) then true
    else false.

End SmartRetry.

(** ** The test summary script: walking the suites of a Playwright report *)

Module TestSummary.

(** The symbols that open the log lines, in UTF-8. *)
Definition utf8 (bytes : list nat) : string :=
  fold_right (fun b s => String (ascii_of_nat b) s) EmptyString bytes.

Definition MAGNIFYING_GLASS : string := utf8 [240; 159; 148; 141]%nat.
Definition MEMO : string := utf8 [240; 159; 147; 157]%nat.
Definition TEST_TUBE : string := utf8 [240; 159; 167; 170]%nat.
Definition WARNING_SIGN : string := utf8 [226; 154; 160; 239; 184; 143]%nat.
Definition FILE_FOLDER : string := utf8 [240; 159; 147; 129]%nat.
Definition COUNTERCLOCKWISE_ARROWS : string := utf8 [240; 159; 148; 132]%nat.
Definition BAR_CHART : string := utf8 [240; 159; 147; 138]%nat.
Definition CHECK_BUTTON : string := utf8 [226; 156; 133]%nat.

(** The parts of the report that [processSuites] reads; durations are
    whole milliseconds. *)
Record TestResult := mkResult {
  duration : Z;
  status : string
}.

Record TestSpec := mkSpec {
  title : string;
  fullTitle : option string;
  outcome : string;
  results : list TestResult
}.

#[warnings="-register-all"]
Inductive TestSuite :=
| mkSuite (title file : string) (tests : list TestSpec) (suites : option (list TestSuite)).

(** An entry of [platformBreakdown]. *)
Record Counts := mkCounts {
  passed : Z;
  failed : Z;
  skipped : Z
}.

Record TestSummaryData := mk {
  totalTests : Z;
  passedTests : Z;
  failedTests : Z;
  skippedTests : Z;
  flakyTests : Z;
  totalDuration : Z;
  webTests : Z;
  apiTests : Z;
  failedTestsList : list string;
  platformBreakdown : gmap string Counts
}.

(** The assignments that [processSuites] makes to [summaryData]. *)
Definition set_totalDuration (f : Z -> Z) (d : TestSummaryData) : TestSummaryData :=
  mk (totalTests d) (passedTests d) (failedTests d) (skippedTests d) (flakyTests d)
     (f (totalDuration d)) (webTests d) (apiTests d) (failedTestsList d)
     (platformBreakdown d).

Definition set_webTests (f : Z -> Z) (d : TestSummaryData) : TestSummaryData :=
  mk (totalTests d) (passedTests d) (failedTests d) (skippedTests d) (flakyTests d)
     (totalDuration d) (f (webTests d)) (apiTests d) (failedTestsList d)
     (platformBreakdown d).

Definition set_apiTests (f : Z -> Z) (d : TestSummaryData) : TestSummaryData :=
  mk (totalTests d) (passedTests d) (failedTests d) (skippedTests d) (flakyTests d)
     (totalDuration d) (webTests d) (f (apiTests d)) (failedTestsList d)
     (platformBreakdown d).

Definition set_failedTestsList (f : list string -> list string) (d : TestSummaryData)
  : TestSummaryData :=
  mk (totalTests d) (passedTests d) (failedTests d) (skippedTests d) (flakyTests d)
     (totalDuration d) (webTests d) (apiTests d) (f (failedTestsList d))
     (platformBreakdown d).

Definition set_platformBreakdown (f : gmap string Counts -> gmap string Counts)
  (d : TestSummaryData) : TestSummaryData :=
  mk (totalTests d) (passedTests d) (failedTests d) (skippedTests d) (flakyTests d)
     (totalDuration d) (webTests d) (apiTests d) (failedTestsList d)
     (f (platformBreakdown d)).

(** The chain of conditionals that names the platform of a file. *)
Definition platformOf (file : string) : string :=
  if includes file "/api/" then "api"
  else if includes file "/web/" then "web"
  else if includes file "/api/" then "api"
  else if includes file "/visual/" then "visual"
  else if includes file "/performance/" then "performance"
  else if includes file "/manual/" then "manual"
  else "other".

(** [summaryData.platformBreakdown[platform].field++]: the entry must be
    there. *)
Definition increment (platform field : string) (f : Counts -> Counts)
  : M TestSummaryData unit :=
  let* summaryData := this in
  match platformBreakdown summaryData !! platform with
  | Some counts => update (set_platformBreakdown (fun b => <[platform := f counts]> b))
  | None =>
      throw (JsError ("Cannot read properties of undefined (reading '" +:+ field +:+ "')"))
  end.

(** The body of the loop over the tests of a suite. *)
Definition processTest (platform file : string) (test : TestSpec)
  : M TestSummaryData unit :=
  (if String.eqb platform "web" then update (set_webTests (fun n => n + 1)) else ret tt) ;;
  (if String.eqb platform "api" then update (set_apiTests (fun n => n + 1)) else ret tt) ;;
  console_log ("    " +:+ TEST_TUBE +:+ " Test: " +:+ title test
               +:+ " - Outcome: " +:+ outcome test) ;;
  (if String.eqb (outcome test) "expected" || String.eqb (outcome test) "passed" then
     increment platform "passed"
       (fun c => mkCounts (passed c + 1) (failed c) (skipped c))
   else if String.eqb (outcome test) "unexpected" || String.eqb (outcome test) "failed" then
     increment platform "failed"
       (fun c => mkCounts (passed c) (failed c + 1) (skipped c)) ;;
     update (set_failedTestsList (fun l =>
       (l ++ [match fullTitle test with
              | Some full => if String.eqb full "" then title test else full
              | None => title test
              end +:+ " (" +:+ file +:+ ")"])%list))
   else if String.eqb (outcome test) "skipped" then
     increment platform "skipped"
       (fun c => mkCounts (passed c) (failed c) (skipped c + 1))
   else ret tt) ;;
  forOf (results test) tt (fun _ result =>
    update (set_totalDuration (fun d => d + duration result))).

(** One turn of the loop of [processSuites]; the nested suites are
    processed by the same loop. *)
Fixpoint processSuite (suite : TestSuite) : M TestSummaryData unit :=
  match suite with
  | mkSuite title file tests suites =>
      console_log (MAGNIFYING_GLASS +:+ " Processing suite: " +:+ title
                   +:+ " (" +:+ file +:+ ")") ;;
      let platform := platformOf file in
      (let* summaryData := this in
       match platformBreakdown summaryData !! platform with
       | None => update (set_platformBreakdown (fun b => <[platform := mkCounts 0 0 0]> b))
       | Some _ => ret tt
       end) ;;
      (if (0 <? length tests)%nat then
         console_log ("  " +:+ MEMO +:+ " Processing " +:+ nat_toString (length tests)
                      +:+ " tests in suite") ;;
         forOf tests tt (fun _ test => processTest platform file test)
       else
         console_log ("  " +:+ WARNING_SIGN +:+ " No tests found in this suite")) ;;
      match suites with
      | Some nested =>
          if (0 <? length nested)%nat then
            console_log ("  " +:+ FILE_FOLDER +:+ " Processing "
                         +:+ nat_toString (length nested) +:+ " nested suites") ;;
            (fix processSuites (suites : list TestSuite) : M TestSummaryData unit :=
               match suites with
               | nil => ret tt
               | suite :: rest => processSuite suite ;; processSuites rest
               end) nested
          else ret tt
      | None => ret tt
      end
  end.

Definition processSuites (suites : list TestSuite) : M TestSummaryData unit :=
  forOf suites tt (fun _ suite => processSuite suite).

(** [TestStats], as far as it is read. *)
Module TestStats.
Record t := mk {
  duration : option Z;
  passed : option Z;
  failed : option Z;
  skipped : option Z;
  flaky : option Z
}.
End TestStats.

Record PlaywrightResults := mkResults {
  suites : list TestSuite;
  stats : option TestStats.t
}.

(** [n || 0] for an optional count. *)
Definition orZero (n : option Z) : Z := default 0 n.

(** A call that works on an object of the caller and returns nothing:
    the object afterwards. *)
Definition onObject {S T} (object : T) (m : M T unit) : M S T :=
  fun env w s =>
    match m env w object with
    | (Returned _, w', object') => (Returned object', w', s)
    | (Thrown e, w', _) => (Thrown e, w', s)
    end.

(** [inspect] is the rendering of the stats by [console.log]. *)
Definition processPlaywrightResults {S} (inspect : TestStats.t -> string)
  (results : PlaywrightResults) : M S TestSummaryData :=
  console_log (COUNTERCLOCKWISE_ARROWS +:+ " Processing Playwright results...") ;;
  let summaryData := mk 0 0 0 0 0 0 0 0 [] ∅ in
  let* summaryData :=
    match stats results with
    | Some st =>
        console_log (BAR_CHART +:+ " Processing stats: " +:+ inspect st) ;;
        ret (mk (orZero (TestStats.passed st) + orZero (TestStats.failed st)
                 + orZero (TestStats.skipped st))
                (orZero (TestStats.passed st))
                (orZero (TestStats.failed st))
                (orZero (TestStats.skipped st))
                (orZero (TestStats.flaky st))
                (orZero (TestStats.duration st))
                (webTests summaryData) (apiTests summaryData)
                (failedTestsList summaryData) (platformBreakdown summaryData))
    | None =>
        console_log (WARNING_SIGN +:+ " No stats found in results") ;;
        ret summaryData
    end in
  let* summaryData :=
    if (0 <? length (suites results))%nat then
      console_log (FILE_FOLDER +:+ " Processing "
                   +:+ nat_toString (length (suites results)) +:+ " test suites...") ;;
      onObject summaryData (processSuites (suites results))
    else
      console_log (WARNING_SIGN +:+ " No suites found in results") ;;
      ret summaryData in
  console_log (CHECK_BUTTON +:+ " Finished processing Playwright results") ;;
  ret summaryData.

End TestSummary.

(** ** Vocabulary of the statements *)

(** A sequence of [executeTask] calls on one agent object, each given
    by its task name and context, the caller keeping the outcome of
    each (a result or a rejection), in call order. *)
Definition executeTasks (calls : list (string * gmap string JsValue))
  : M AgentObject (list (Outcome TaskResult)) :=
  forOf calls [] (fun outcomes call =>
    fun env w o =>
      match AgentObject_executeTask (fst call) (snd call) env w o with
      | (outcome, w', o') => (Returned (outcomes ++ [outcome])%list, w', o')
      end).

(** The results among the outcomes of a sequence of calls. *)
Definition returnedBy {A} (outcomes : list (Outcome A)) : list A :=
  flat_map (fun outcome => match outcome with
                           | Returned a => [a]
                           | Thrown _ => []
                           end) outcomes.

(** Plain data: strings, booleans, [null], [undefined], plain objects,
    and arrays of plain data. *)
Fixpoint plain (v : JsValue) : bool :=
  match v with
  | JsArray elems => forallb plain elems
  | JsOther _ _ _ => false
  | _ => true
  end.

Definition plainContext (context : gmap string JsValue) : Prop :=
  forall key v, context !! key = Some v -> plain v = true.

(** A terminal status. *)
Definition terminal (r : TaskResult) : Prop :=
  TaskResult.status r = COMPLETED \/ TaskResult.status r = FAILED.

(** The history of the agent registered under [name]. *)
Definition historyOf (name : string) (o : MCPAgentOrchestrator.t) : list TaskResult :=
  match MCPAgentOrchestrator.lookupKey name (MCPAgentOrchestrator.agents o) with
  | Some agent => history agent
  | None => []
  end.

(** An orchestrator wired as the constructor wires it, whatever its
    agents have executed so far. *)
Definition wired (a : APIAgent.t) (m : MobileAgent.t) (k : WireMockAgent.t)
  : MCPAgentOrchestrator.t :=
  MCPAgentOrchestrator.mk
    [("api_agent", ApiObject a);
     ("mobile_agent", MobileObject m);
     ("wiremock_agent", WireMockObject k)].

(** The console line that precedes the dispatch of [task] to [agentName]. *)
Definition dispatchLine (agentName task : string) : string :=
  "[MCPAgentOrchestrator] Executing " +:+ task +:+ " on " +:+ agentName.

(** The reading of [Date.now()] that names the file of a
    [generateAllureReport] call started in world [w]: the clock once
    [mkdir] has completed. *)
Definition namingTime (env : Env) (outputDir : option string) (w : World) : Z :=
  World.clock w
  + Z.of_nat (Env.elapsed env (IoMkdir (default "pipeline-reports" outputDir))).

(** The class of an agent object. *)
Definition classOf (o : AgentObject) : AgentClass :=
  match o with
  | ApiObject _ => ClassAPIAgent
  | MobileObject _ => ClassMobileAgent
  | WireMockObject _ => ClassWireMockAgent
  | HeadSpinObject _ => ClassHeadSpinAgent
  end.

(** [this.agentType] of an agent object. *)
Definition agentTypeOf (o : AgentObject) : AgentType :=
  match o with
  | ApiObject a => BaseAgent.agentType (APIAgent.super a)
  | MobileObject a => BaseAgent.agentType (MobileAgent.super a)
  | WireMockObject a => BaseAgent.agentType (WireMockAgent.super a)
  | HeadSpinObject a => BaseAgent.agentType (HeadSpinAgent.super a)
  end.

(** What [executeTask] comes to, given the outcome of the task body
    measured from clock reading [t0] to clock reading [t1]: a result, or
    the exception that rendering the caught value throws. *)
Definition resultFor (task : string) (t0 t1 : Z) (o : Outcome string)
  : Outcome TaskResult :=
  match o with
  | Returned out => Returned (TaskResult.mk task COMPLETED out (Qmake (t1 - t0) 1000) None)
  | Thrown (Printable (JsError message)) =>
      Returned (TaskResult.mk task FAILED "" (Qmake 0 1) (Some message))
  | Thrown (Printable (JsThrown text)) =>
      Returned (TaskResult.mk task FAILED "" (Qmake 0 1) (Some text))
  | Thrown (Unprintable raises) => Thrown raises
  end.

(** An outcome that is no throw of a value that [String] cannot
    render. *)
Definition renderable {A} (o : Outcome A) : Prop :=
  match o with
  | Thrown (Unprintable _) => False
  | _ => True
  end.

(** [calm m]: no run of [m] throws such a value. *)
Definition calm {S A} (m : M S A) : Prop :=
  forall env w s o w' s', m env w s = (o, w', s') -> renderable o.

(** The agent object after it has pushed [r] on its history. *)
Definition pushed (r : TaskResult) (o : AgentObject) : AgentObject :=
  match o with
  | ApiObject a => ApiObject (APIAgent.testResults_push r a)
  | MobileObject a => MobileObject (MobileAgent.testResults_push r a)
  | WireMockObject a => WireMockObject (WireMockAgent.testResults_push r a)
  | HeadSpinObject a => HeadSpinObject (HeadSpinAgent.testResults_push r a)
  end.

(** The report over the history of an agent object. *)
Definition reportFor (o : AgentObject) : AgentReport :=
  AgentReport.mk (agentTypeOf o)
    (Z.of_nat (length (history o)))
    (countIf (hasStatus COMPLETED) (history o))
    (Z.of_nat (length (history o)) - countIf (hasStatus COMPLETED) (history o))
    (history o).

(** [frames R m]: every run of [m] relates the world and the fields
    before it to those after it by [R], whether it returns or throws. *)
Definition frames {S A} (R : World * S -> World * S -> Prop) (m : M S A) : Prop :=
  forall env w s o w' s', m env w s = (o, w', s') -> R (w, s) (w', s').

(** Console, directories and files are as before (the clock may have
    moved). *)
Definition quiet (w w' : World) : Prop :=
  World.console w' = World.console w
  /\ World.dirs w' = World.dirs w
  /\ World.files w' = World.files w.

(** The relation that task bodies respect: the world is [quiet] and the
    projection [hist] of the fields is as before. *)
Definition keeps {S H} (hist : S -> H) (x y : World * S) : Prop :=
  quiet (fst x) (fst y) /\ hist (snd y) = hist (snd x).

(** Whether a separator occurs in [p]. *)
Fixpoint hasSlash (p : string) : bool :=
  match p with
  | EmptyString => false
  | String c p' => path.isSlash c || hasSlash p'
  end.

(** A file name: a single segment that is neither empty nor a dot
    name. *)
Definition plainName (f : string) : Prop :=
  hasSlash f = false
  /\ String.eqb f "" = false
  /\ String.eqb f "." = false
  /\ String.eqb f ".." = false.

(** The path that a [generateAllureReport] call started in world [w]
    writes, and the summary it serialises at clock reading [now]. *)
Definition reportPath (env : Env) (outputDir : option string) (w : World) : string :=
  path.join (default "pipeline-reports" outputDir)
    (ReportGenerator.fileName (namingTime env outputDir w)).

Definition summaryOf (now : Z) (testResults : list TaskResult) : Summary :=
  Summary.mk now
    (Z.of_nat (length testResults))
    (countIf (hasStatus COMPLETED) testResults)
    (countIf (hasStatus FAILED) testResults)
    testResults.

(** The message of [syncWithZephyrJira] for a list of results. *)
Definition syncMessage (testResults : list TaskResult) : string :=
  if negb (length (List.filter (hasStatus FAILED) testResults) =? 0)%nat
  then "Mock: Synced "
       +:+ nat_toString (length (List.filter (hasStatus FAILED) testResults))
       +:+ " failed test(s) with Jira."
  else "No issues to sync with Jira/Zephyr - all tests passed!".

(** The class of the agent registered under each name, and the order
    of the names. *)
Definition sameWiring (o o' : MCPAgentOrchestrator.t) : Prop :=
  map fst (MCPAgentOrchestrator.agents o') = map fst (MCPAgentOrchestrator.agents o)
  /\ forall name,
       option_map classOf
         (MCPAgentOrchestrator.lookupKey name (MCPAgentOrchestrator.agents o'))
       = option_map classOf
           (MCPAgentOrchestrator.lookupKey name (MCPAgentOrchestrator.agents o)).

(** [o'] is [o] after the agent registered under [name] has pushed
    [rs] on its history. *)
Definition pushedOn (name : string) (rs : list TaskResult)
  (o o' : MCPAgentOrchestrator.t) : Prop :=
  sameWiring o o'
  /\ historyOf name o' = (historyOf name o ++ rs)%list
  /\ forall other, other <> name ->
       MCPAgentOrchestrator.lookupKey other (MCPAgentOrchestrator.agents o')
       = MCPAgentOrchestrator.lookupKey other (MCPAgentOrchestrator.agents o).

(** The three names of the task table are registered. *)
Definition registeredAll (o : MCPAgentOrchestrator.t) : Prop :=
  is_Some (MCPAgentOrchestrator.lookupKey "api_agent" (MCPAgentOrchestrator.agents o))
  /\ is_Some (MCPAgentOrchestrator.lookupKey "mobile_agent" (MCPAgentOrchestrator.agents o))
  /\ is_Some (MCPAgentOrchestrator.lookupKey "wiremock_agent" (MCPAgentOrchestrator.agents o)).

(** The reports gathered for a list of entries: one per entry, under
    the entry's name, each the report of the agent registered under
    that name. *)
Definition reportsFor (orch : MCPAgentOrchestrator.t)
  (entries : list (string * AgentObject)) (reports : list (string * AgentReport)) : Prop :=
  Forall2 (fun entry named =>
             fst named = fst entry
             /\ exists o,
                  MCPAgentOrchestrator.lookupKey (fst entry)
                    (MCPAgentOrchestrator.agents orch) = Some o
                  /\ snd named = reportFor o) entries reports.

(** The console lines of one [processEvent] run: the first line, then
    the six dispatches; and the six task names in dispatch order. *)
Definition processingLine (event : CIPipelineEvent) : string :=
  "[MCPAgentOrchestrator] Processing "
  +:+ EventType_value (CIPipelineEvent.eventType event)
  +:+ " for branch " +:+ CIPipelineEvent.branch event.

Definition dispatchLines : list string :=
  [dispatchLine "api_agent" "postman_tests";
   dispatchLine "api_agent" "api_validation";
   dispatchLine "mobile_agent" "appium_tests";
   dispatchLine "mobile_agent" "webdriver_tests";
   dispatchLine "wiremock_agent" "wiremock_tests";
   dispatchLine "wiremock_agent" "wiremock_tests"].

Definition taskNames : list string :=
  ["postman_tests"; "api_validation"; "appium_tests"; "webdriver_tests";
   "wiremock_tests"; "wiremock_tests"].

(** ** Sample environments and inputs *)

(** What [echo] prints for the command [echo "text"]. *)
Definition echoed (command : string) : string :=
  substring 6 (String.length command - 7) command +:+ LF.

(** An environment in which the shell works and nothing fails;
    operations take no measurable time. *)
Definition calmEnv : Env :=
  Env.mk (fun _ => 0%nat)
         (fun command => Returned (echoed command))
         (fun _ => Returned tt)
         (fun _ => Returned tt)
         ∅
         (fun _ => Returned tt)
         (fun _ => Returned tt)
         (Returned tt).

(** The same, where every operation takes a millisecond. *)
Definition tickEnv : Env :=
  Env.mk (fun _ => 1%nat)
         (fun command => Returned (echoed command))
         (fun _ => Returned tt)
         (fun _ => Returned tt)
         ∅
         (fun _ => Returned tt)
         (fun _ => Returned tt)
         (Returned tt).

(** The same as [calmEnv], on a machine whose disk is full. *)
Definition diskFullEnv : Env :=
  Env.mk (fun _ => 0%nat)
         (fun command => Returned (echoed command))
         (fun _ => Returned tt)
         (fun _ => Thrown (JsError "ENOSPC: no space left on device, write"))
         ∅
         (fun _ => Returned tt)
         (fun _ => Returned tt)
         (Returned tt).

(** The same as [calmEnv], with a shell that cannot be spawned. *)
Definition noShellEnv : Env :=
  Env.mk (fun _ => 0%nat)
         (fun _ => Thrown (JsError "spawnSync /bin/sh ENOENT"))
         (fun _ => Returned tt)
         (fun _ => Returned tt)
         ∅
         (fun _ => Returned tt)
         (fun _ => Returned tt)
         (Returned tt).

Definition world0 : World := World.mk 1700000000000 ∅ ∅ [].


(** U+00E9, U+00A0 and U+1F600, and a string repeated. *)
Definition E_ACUTE : string := String "195"%char (String "169"%char EmptyString).
Definition NO_BREAK_SPACE : string := String "194"%char (String "160"%char EmptyString).
Definition GRINNING_FACE : string :=
  String "240"%char (String "159"%char (String "152"%char (String "128"%char EmptyString))).

Fixpoint times (n : nat) (s : string) : string :=
  match n with
  | O => EmptyString
  | S n' => s +:+ times n' s
  end.

Definition ciEvent : CIPipelineEvent :=
  CIPipelineEvent.mk CI_EVENT 1700000000000 "main" "123abc" "CI Bot" ∅.

Definition passedResult : TaskResult :=
  TaskResult.mk "unit_test" COMPLETED "ok" (Qmake 1 1) None.

Definition failedResult : TaskResult :=
  TaskResult.mk "should fail" FAILED "" (Qmake 1 2) (Some "err").

Local Open Scope list_scope.

(** ** Vocabulary of the statements about tasks, runs, priorities and suites *)

(** The world after [n] timers of [ms] milliseconds have fired, one
    after the other. *)
Definition afterTimers (env : Env) (ms : Z) (n : nat) (w : World) : World :=
  World.mk (World.clock w + Z.of_nat n * (ms + Z.of_nat (Env.elapsed env (IoTimer ms))))
           (World.dirs w) (World.files w) (World.console w).

(** A property that is absent, or whose value [||] takes for false:
    [undefined], [null], [false], the empty string, or another such
    value (0, NaN). *)
Definition falsy (v : option JsValue) : Prop :=
  match v with
  | None
  | Some JsUndefined
  | Some JsNull
  | Some (JsBool false)
  | Some (JsString EmptyString)
  | Some (JsOther false _ _) => True
  | _ => False
  end.

(** One line of the output of [runAppiumTests]. *)
Definition deviceLine (device : string) : string :=
  CHECK_MARK +:+ " " +:+ device +:+ " - All tests passed".

(** The shell commands of [runPostmanTests] and of [runWiremockTests]
    for a collection. *)
Definition newmanCommand (collection : string) : string :=
  "echo " +:+ DQUOTE +:+ "Pretend running: newman run " +:+ collection +:+ DQUOTE.

Definition wiremockRunCommand (collection : string) : string :=
  "echo " +:+ DQUOTE +:+ "Pretend running: wiremock run " +:+ collection +:+ DQUOTE.



(** The credentials that [runHeadSpinIOSSmokeTest] reads, and the
    options it passes to [remote] when they are present. *)
Definition headSpinToken (env : Env) : option string :=
  Env.processEnv env !! "HEADSPIN_API_TOKEN".

Definition headSpinUdid (env : Env) : option string :=
  Env.processEnv env !! "HEADSPIN_UDID".


(** A sequence of [processEvent] calls on one orchestrator, the caller
    keeping the outcome of each (a result or a rejection). *)
Definition processEvents (events : list CIPipelineEvent)
  : M MCPAgentOrchestrator.t (list (Outcome PipelineResult)) :=
  forOf events [] (fun outcomes event =>
    fun env w self =>
      match MCPAgentOrchestrator.processEvent event env w self with
      | (outcome, w', self') => (Returned (outcomes ++ [outcome]), w', self')
      end).

(** The priority a file gets from the insights. *)
Definition rank (insights file : string) : Z :=
  priorityOf (AnalyticsAgent.prioritizeTests insights) file.

(** A comparator that orders by a numeric key, and the one of
    [prioritizeTestFiles]. *)
Definition byKey {A} (key : A -> Z) (a b : A) : Z := key a - key b.

Definition byRank (insights : string) : string -> string -> Z :=
  byKey (rank insights).

(** How bad an assessment is. *)
Definition severity (h : HealthCheck.Health) : Z :=
  match h with
  | HealthCheck.healthy => 0
  | HealthCheck.warning => 1
  | HealthCheck.critical => 2
  end.

(** The number of results with a status. *)
Definition statusCount (s : HealthCheck.Status) (results : list HealthCheck.HealthCheckResult)
  : nat :=
  length (List.filter (fun r => HealthCheck.Status_eqb (HealthCheck.status r) s) results).

(** The text that [shouldRetryTest] searches. *)
Definition searchedText (error : SmartRetry.Error) : string :=
  if String.eqb (SmartRetry.message error) "" then SmartRetry.name error
  else SmartRetry.message error.

(** The suites in the order in which the walk enters them, nested suites
    after their parent: the file and the tests of each. *)
Fixpoint blocksOf (suite : TestSummary.TestSuite)
  : list (string * list TestSummary.TestSpec) :=
  match suite with
  | TestSummary.mkSuite _ file tests suites =>
      (file, tests)
      :: match suites with
         | Some nested =>
             (fix each (suites : list TestSummary.TestSuite) :=
                match suites with
                | [] => []
                | suite :: rest => blocksOf suite ++ each rest
                end) nested
         | None => []
         end
  end.

Definition blocks (suites : list TestSummary.TestSuite)
  : list (string * list TestSummary.TestSpec) :=
  flat_map blocksOf suites.

(** The three kinds of outcome that are counted. *)
Definition isPassed (test : TestSummary.TestSpec) : bool :=
  String.eqb (TestSummary.outcome test) "expected"
  || String.eqb (TestSummary.outcome test) "passed".

Definition isFailed (test : TestSummary.TestSpec) : bool :=
  String.eqb (TestSummary.outcome test) "unexpected"
  || String.eqb (TestSummary.outcome test) "failed".

Definition isSkipped (test : TestSummary.TestSpec) : bool :=
  String.eqb (TestSummary.outcome test) "skipped".

Definition tally (tests : list TestSummary.TestSpec) : TestSummary.Counts :=
  TestSummary.mkCounts (countIf isPassed tests) (countIf isFailed tests)
    (countIf isSkipped tests).

Definition addCounts (a b : TestSummary.Counts) : TestSummary.Counts :=
  TestSummary.mkCounts (TestSummary.passed a + TestSummary.passed b)
    (TestSummary.failed a + TestSummary.failed b)
    (TestSummary.skipped a + TestSummary.skipped b).

(** The entry of the list of failed tests for a test of a file. *)
Definition failureLabel (file : string) (test : TestSummary.TestSpec) : string :=
  match TestSummary.fullTitle test with
  | Some full => if String.eqb full "" then TestSummary.title test else full
  | None => TestSummary.title test
  end +:+ " (" +:+ file +:+ ")".

(** The time that the results of some tests add up to. *)
Definition durationOf (tests : list TestSummary.TestSpec) : Z :=
  fold_right (fun test total =>
                fold_right (fun result t => TestSummary.duration result + t) total
                  (TestSummary.results test))
    0 tests.

(** The tests that the walk attributes to a platform, whether it enters
    a suite of that platform at all, and the failures it lists. *)
Definition testsOn (platform : string) (B : list (string * list TestSummary.TestSpec))
  : list TestSummary.TestSpec :=
  flat_map (fun b => if String.eqb (TestSummary.platformOf (fst b)) platform
                     then snd b else []) B.

Definition entered (platform : string) (B : list (string * list TestSummary.TestSpec))
  : bool :=
  existsb (fun b => String.eqb (TestSummary.platformOf (fst b)) platform) B.

Definition failuresOf (B : list (string * list TestSummary.TestSpec)) : list string :=
  flat_map (fun b => map (failureLabel (fst b)) (List.filter isFailed (snd b))) B.

(** The summary after the walk has gone through one suite (without its
    nested suites), and through several. *)
Definition afterBlock (b : string * list TestSummary.TestSpec)
  (d : TestSummary.TestSummaryData) : TestSummary.TestSummaryData :=
  let platform := TestSummary.platformOf (fst b) in
  TestSummary.mk (TestSummary.totalTests d) (TestSummary.passedTests d)
    (TestSummary.failedTests d) (TestSummary.skippedTests d) (TestSummary.flakyTests d)
    (TestSummary.totalDuration d + durationOf (snd b))
    (TestSummary.webTests d
     + if String.eqb platform "web" then Z.of_nat (length (snd b)) else 0)
    (TestSummary.apiTests d
     + if String.eqb platform "api" then Z.of_nat (length (snd b)) else 0)
    (TestSummary.failedTestsList d
     ++ map (failureLabel (fst b)) (List.filter isFailed (snd b)))
    (<[platform := addCounts
                     (default (TestSummary.mkCounts 0 0 0)
                        (TestSummary.platformBreakdown d !! platform))
                     (tally (snd b))]>
       (TestSummary.platformBreakdown d)).

Definition afterBlocks (B : list (string * list TestSummary.TestSpec))
  (d : TestSummary.TestSummaryData) : TestSummary.TestSummaryData :=
  fold_left (fun d b => afterBlock b d) B d.

(** Nothing happened to the world but lines on the console. *)
Definition logsOnly (w w' : World) : Prop :=
  World.clock w' = World.clock w
  /\ World.dirs w' = World.dirs w
  /\ World.files w' = World.files w
  /\ exists lines, World.console w' = World.console w ++ lines.

(** ** More sample environments *)

(** A device cloud with credentials, where everything succeeds. *)
Definition deviceCloudEnv : Env :=
  Env.mk (fun _ => 1%nat)
         (fun command => Returned (echoed command))
         (fun _ => Returned tt)
         (fun _ => Returned tt)
         {[ "HEADSPIN_API_TOKEN" := "token"; "HEADSPIN_UDID" := "00008030-A" ]}
         (fun _ => Returned tt)
         (fun _ => Returned tt)
         (Returned tt).


(** A rendering of thrown values for the console. *)
Definition rendering (error : Exn) : string :=
  match error with
  | Printable e => errorMessage e
  | Unprintable _ => "[Object: null prototype] {}"
  end.

(** Services for which the failure data cannot be read. *)
Definition noDataServices : AnalyticsAgent.Services :=
  AnalyticsAgent.mkServices
    (fun path => Thrown (JsError ("ENOENT: no such file or directory, open '" +:+ path +:+ "'")))
    (fun _ => 1%nat)
    (fun text => Returned text)
    (fun _ _ => Returned [])
    (fun _ => 0%nat)
    rendering.

(** Services whose model answers with the given text. *)
Definition answering (content : string) : AnalyticsAgent.Services :=
  AnalyticsAgent.mkServices
    (fun _ => Returned "[]")
    (fun _ => 1%nat)
    (fun text => Returned text)
    (fun _ _ => Returned [AnalyticsAgent.mkChoice (Some (Some content))])
    (fun _ => 250%nat)
    rendering.

(** * Properties *)

(** ** Statuses and counting *)

Lemma TaskStatus_eqb_eq (a b : TaskStatus) : TaskStatus_eqb a b = true <-> a = b.
Proof. destruct a, b; simpl; split; intro H; try reflexivity; discriminate H. Qed.

Lemma hasStatus_true (s : TaskStatus) (r : TaskResult) :
  hasStatus s r = true <-> TaskResult.status r = s.
Proof. apply TaskStatus_eqb_eq. Qed.

Lemma filter_split_length {A} (p : A -> bool) (xs : list A) :
  (length (List.filter p xs) + length (List.filter (fun x => negb (p x)) xs))%nat
  = length xs.
Proof.
  induction xs as [|x xs IH]; simpl; [reflexivity|].
  destruct (p x); simpl; lia.
Qed.

(** C1: [getPipelineStatus] is 'FAILED' exactly when some result is
    FAILED, 'SUCCESS' exactly when every result is COMPLETED, and
    'INCOMPLETE' exactly when neither holds. *)
Theorem getPipelineStatus_aggregates (taskResults : list TaskResult) :
  (MCPAgentOrchestrator.getPipelineStatus taskResults = "FAILED"
   <-> exists r, In r taskResults /\ TaskResult.status r = FAILED)
  /\ (MCPAgentOrchestrator.getPipelineStatus taskResults = "SUCCESS"
      <-> forall r, In r taskResults -> TaskResult.status r = COMPLETED)
  /\ (MCPAgentOrchestrator.getPipelineStatus taskResults = "INCOMPLETE"
      <-> ~ (exists r, In r taskResults /\ TaskResult.status r = FAILED)
          /\ ~ (forall r, In r taskResults -> TaskResult.status r = COMPLETED)).
Proof.
  unfold MCPAgentOrchestrator.getPipelineStatus.
  assert (HF : existsb (hasStatus FAILED) taskResults = true
               <-> exists r, In r taskResults /\ TaskResult.status r = FAILED).
  { rewrite existsb_exists. split; intros (r & Hin & Hr); exists r; split; trivial;
      now apply hasStatus_true. }
  assert (HC : forallb (hasStatus COMPLETED) taskResults = true
               <-> forall r, In r taskResults -> TaskResult.status r = COMPLETED).
  { rewrite forallb_forall. split; intros H r Hin; apply hasStatus_true; auto. }
  destruct (existsb (hasStatus FAILED) taskResults) eqn:EF.
  - assert (Hex : exists r, In r taskResults /\ TaskResult.status r = FAILED)
      by now apply HF.
    repeat split; try discriminate; auto.
    + intros Hall. destruct Hex as (r & Hin & Hr). rewrite (Hall r Hin) in Hr.
      discriminate Hr.
    + intros [Hno _]. now destruct Hno.
  - assert (Hno : ~ exists r, In r taskResults /\ TaskResult.status r = FAILED).
    { intro Hex. apply HF in Hex. discriminate Hex. }
    destruct (forallb (hasStatus COMPLETED) taskResults) eqn:EC.
    + assert (Hall : forall r, In r taskResults -> TaskResult.status r = COMPLETED)
        by now apply HC.
      repeat split; try discriminate; auto.
      * intros Hex. now destruct Hno.
      * intros [_ Hnall]. now destruct Hnall.
    + assert (Hnall : ~ forall r, In r taskResults -> TaskResult.status r = COMPLETED).
      { intro Hall. apply HC in Hall. discriminate Hall. }
      repeat split; try discriminate; auto.
      * intros Hex. now destruct Hno.
      * intros Hall. now destruct Hnall.
Qed.

Lemma getTasksForEvent_table event :
  MCPAgentOrchestrator.getTasksForEvent event
  = [("api_agent", ["postman_tests"; "api_validation"]);
     ("mobile_agent", ["appium_tests"; "webdriver_tests"]);
     ("wiremock_agent", ["wiremock_tests"; "wiremock_tests"])].
Proof.
  unfold MCPAgentOrchestrator.getTasksForEvent.
  now destruct (CIPipelineEvent.eventType event).
Qed.

(** C8: [getTasksForEvent] returns one fixed table whatever the event
    (dev, CI or PR); in particular its value is a function of the event
    type alone. *)
Theorem getTasksForEvent_fixed_table :
  (forall event,
     MCPAgentOrchestrator.getTasksForEvent event
     = [("api_agent", ["postman_tests"; "api_validation"]);
        ("mobile_agent", ["appium_tests"; "webdriver_tests"]);
        ("wiremock_agent", ["wiremock_tests"; "wiremock_tests"])])
  /\ (forall event event',
        CIPipelineEvent.eventType event = CIPipelineEvent.eventType event' ->
        MCPAgentOrchestrator.getTasksForEvent event
        = MCPAgentOrchestrator.getTasksForEvent event')
  /\ (forall event event',
        MCPAgentOrchestrator.getTasksForEvent event
        = MCPAgentOrchestrator.getTasksForEvent event').
Proof.
  repeat split.
  - apply getTasksForEvent_table.
  - intros event event' _. now rewrite !getTasksForEvent_table.
  - intros event event'. now rewrite !getTasksForEvent_table.
Qed.

(** ** What a computation leaves alone *)

Section Frames.
Context {S : Type} (R : World * S -> World * S -> Prop).
Hypothesis R_refl : forall x, R x x.
Hypothesis R_trans : forall x y z, R x y -> R y z -> R x z.

Lemma frames_ret {A} (a : A) : frames R (ret a).
Proof. intros env w s o w' s' E. inversion E; subst. apply R_refl. Qed.

Lemma frames_throw {A} (e : Exn) : frames R (@throw S A e).
Proof. intros env w s o w' s' E. inversion E; subst. apply R_refl. Qed.

Lemma frames_liftOutcome {A} (o : Outcome A) : frames R (@liftOutcome S A o).
Proof. intros env w s o' w' s' E. inversion E; subst. apply R_refl. Qed.

Lemma frames_liftReply {A} (o : Reply A) : frames R (@liftReply S A o).
Proof. intros env w s o' w' s' E. inversion E; subst. apply R_refl. Qed.

Lemma frames_ask {A} (f : Env -> A) : frames R (@ask S A f).
Proof. intros env w s o' w' s' E. inversion E; subst. apply R_refl. Qed.

Lemma frames_this : frames R (@this S).
Proof. intros env w s o' w' s' E. inversion E; subst. apply R_refl. Qed.

Lemma frames_Date_now : frames R (@Date_now S).
Proof. intros env w s o' w' s' E. inversion E; subst. apply R_refl. Qed.

Lemma frames_bind {A B} (m : M S A) (k : A -> M S B) :
  frames R m -> (forall a, frames R (k a)) -> frames R (bind m k).
Proof.
  intros Hm Hk env w s o w' s' E. unfold bind in E.
  destruct (m env w s) as [[[a|e] w1] s1] eqn:Em.
  - apply (R_trans _ (w1, s1)); [eapply Hm | eapply Hk]; eassumption.
  - inversion E; subst. eapply Hm; eassumption.
Qed.

Lemma frames_tryCatch {A} (m : M S A) (h : Exn -> M S A) :
  frames R m -> (forall e, frames R (h e)) -> frames R (tryCatch m h).
Proof.
  intros Hm Hh env w s o w' s' E. unfold tryCatch in E.
  destruct (m env w s) as [[[a|e] w1] s1] eqn:Em.
  - inversion E; subst. eapply Hm; eassumption.
  - apply (R_trans _ (w1, s1)); [eapply Hm | eapply Hh]; eassumption.
Qed.

Lemma frames_tryFinally {A} (m : M S A) (f : M S unit) :
  frames R m -> frames R f -> frames R (tryFinally m f).
Proof.
  intros Hm Hf env w s o w' s' E. unfold tryFinally in E.
  destruct (m env w s) as [[o1 w1] s1] eqn:Em.
  destruct (f env w1 s1) as [[[u|e] w2] s2] eqn:Ef; inversion E; subst;
    (apply (R_trans _ (w1, s1)); [eapply Hm | eapply Hf]; eassumption).
Qed.

Lemma frames_forOf {A B} (xs : list A) (body : B -> A -> M S B) :
  (forall acc x, frames R (body acc x)) -> forall acc, frames R (forOf xs acc body).
Proof.
  intros Hbody. induction xs as [|x xs IH]; intros acc; simpl.
  - apply frames_ret.
  - apply frames_bind; [apply Hbody | intros acc'; apply IH].
Qed.

Lemma frames_forOfValue {B} (name : string) (v : JsValue) (body : B -> JsValue -> M S B) :
  (forall acc x, frames R (body acc x)) -> forall acc, frames R (forOfValue name v acc body).
Proof.
  intros Hbody acc. unfold forOfValue.
  apply frames_bind; [now apply frames_forOf|].
  intros acc'. destruct (snd (visits name v)); [apply frames_throw | apply frames_ret].
Qed.

End Frames.

Lemma quiet_refl w : quiet w w.
Proof. repeat split. Qed.

Lemma quiet_trans w1 w2 w3 : quiet w1 w2 -> quiet w2 w3 -> quiet w1 w3.
Proof. intros (a & b & c) (d & e & f). repeat split; congruence. Qed.

Lemma keeps_refl {S H} (hist : S -> H) x : keeps hist x x.
Proof. split; [apply quiet_refl | reflexivity]. Qed.

Lemma keeps_trans {S H} (hist : S -> H) x y z :
  keeps hist x y -> keeps hist y z -> keeps hist x z.
Proof. intros [q1 h1] [q2 h2]. split; [eapply quiet_trans; eassumption | congruence]. Qed.

Lemma frames_io {S H} (hist : S -> H) (c : IoCall) : frames (keeps hist) (@io S c).
Proof. intros env w s o w' s' E. inversion E; subst. repeat split. Qed.

Lemma frames_sleep {S H} (hist : S -> H) (ms : Z) : frames (keeps hist) (@sleep S ms).
Proof. intros env w s o w' s' E. inversion E; subst. repeat split. Qed.

Lemma frames_update {S H} (hist : S -> H) (f : S -> S) :
  (forall s, hist (f s) = hist s) -> frames (keeps hist) (update f).
Proof. intros Hf env w s o w' s' E. inversion E; subst. repeat split. apply Hf. Qed.

Lemma frames_execSync {S H} (hist : S -> H) (command : string) :
  frames (keeps hist) (@execSync S command).
Proof.
  unfold execSync.
  apply frames_bind; [apply keeps_trans | apply frames_io |].
  intros _. apply frames_bind; [apply keeps_trans | |].
  - apply frames_ask, keeps_refl.
  - intros o. apply frames_liftReply, keeps_refl.
Qed.

Create HintDb frames.
#[local] Hint Resolve keeps_refl keeps_trans : frames.
#[local] Hint Resolve frames_ret frames_throw frames_liftOutcome frames_liftReply frames_ask
  frames_this frames_Date_now frames_io frames_sleep
  frames_execSync : frames.

(** Decomposes a computation along its structure, down to the primitive
    operations, which the hints discharge. *)
Ltac frame_step :=
  first
    [ apply frames_bind; [apply keeps_trans | | intros ? ]
    | apply frames_tryCatch; [apply keeps_trans | | intros ? ]
    | apply frames_tryFinally; [apply keeps_trans | | ]
    | apply frames_forOf; [apply keeps_refl | apply keeps_trans | intros ? ? ]
    | apply frames_forOfValue; [apply keeps_refl | apply keeps_trans | intros ? ? ]
    | apply frames_update; intros ?; reflexivity
    | solve [auto with frames]
    | match goal with |- frames _ (if ?b then _ else _) => destruct b end
    | match goal with |- frames _ (match ?x with _ => _ end) => destruct x end ].

Ltac frame := repeat frame_step.

Lemma APIAgent_taskBody_frames task context :
  frames (keeps APIAgent.testResults) (APIAgent.taskBody task context).
Proof.
  unfold APIAgent.taskBody, APIAgent.runPostmanTests, APIAgent.validateApiEndpoints.
  frame.
Qed.

Lemma MobileAgent_taskBody_frames task context :
  frames (keeps MobileAgent.testResults) (MobileAgent.taskBody task context).
Proof.
  unfold MobileAgent.taskBody, MobileAgent.runAppiumTests, MobileAgent.runWebDriverTests.
  frame.
Qed.

Lemma WireMockAgent_taskBody_frames task context :
  frames (keeps WireMockAgent.testResults) (WireMockAgent.taskBody task context).
Proof.
  unfold WireMockAgent.taskBody, WireMockAgent.runWiremockTests,
    WireMockAgent.validateWiremocks.
  frame.
Qed.

Lemma HeadSpinAgent_taskBody_frames task context :
  frames (keeps HeadSpinAgent.testResults) (HeadSpinAgent.taskBody task context).
Proof.
  unfold HeadSpinAgent.taskBody, HeadSpinAgent.runHeadSpinIOSSmokeTest,
    HeadSpinAgent.process_env.
  frame.
Qed.

(** ** What a computation throws *)

Section Calm.
Context {S : Type}.

Lemma calm_ret {A} (a : A) : calm (@ret S A a).
Proof. intros env w s o w' s' E. inversion E; subst. exact I. Qed.

Lemma calm_throw {A} (e : JsExn) : calm (@throw S A (Printable e)).
Proof. intros env w s o w' s' E. inversion E; subst. exact I. Qed.

Lemma calm_liftOutcome {A} (o : Outcome A) : renderable o -> calm (@liftOutcome S A o).
Proof. intros Ho env w s o' w' s' E. inversion E; subst. exact Ho. Qed.

Lemma calm_liftReply {A} (o : Reply A) : calm (@liftReply S A o).
Proof. intros env w s o' w' s' E. inversion E; subst. now destruct o. Qed.

Lemma calm_ask {A} (f : Env -> A) : calm (@ask S A f).
Proof. intros env w s o' w' s' E. inversion E; subst. exact I. Qed.

Lemma calm_this : calm (@this S).
Proof. intros env w s o' w' s' E. inversion E; subst. exact I. Qed.

Lemma calm_Date_now : calm (@Date_now S).
Proof. intros env w s o' w' s' E. inversion E; subst. exact I. Qed.

Lemma calm_io (c : IoCall) : calm (@io S c).
Proof. intros env w s o' w' s' E. inversion E; subst. exact I. Qed.

Lemma calm_sleep (ms : Z) : calm (@sleep S ms).
Proof. intros env w s o' w' s' E. inversion E; subst. exact I. Qed.

Lemma calm_update (f : S -> S) : calm (update f).
Proof. intros env w s o' w' s' E. inversion E; subst. exact I. Qed.

Lemma calm_bind {A B} (m : M S A) (k : A -> M S B) :
  calm m -> (forall a, calm (k a)) -> calm (bind m k).
Proof.
  intros Hm Hk env w s o w' s' E. unfold bind in E.
  destruct (m env w s) as [[[a|e] w1] s1] eqn:Em.
  - exact (Hk _ _ _ _ _ _ _ E).
  - inversion E; subst. exact (Hm _ _ _ _ _ _ Em).
Qed.

Lemma calm_tryCatch {A} (m : M S A) (h : Exn -> M S A) :
  calm m -> (forall e : JsExn, calm (h (Printable e))) -> calm (tryCatch m h).
Proof.
  intros Hm Hh env w s o w' s' E. unfold tryCatch in E.
  destruct (m env w s) as [[[a|e] w1] s1] eqn:Em.
  - inversion E; subst. exact I.
  - pose proof (Hm _ _ _ _ _ _ Em) as He. destruct e as [e|raises]; [|destruct He].
    exact (Hh _ _ _ _ _ _ _ E).
Qed.

Lemma calm_tryFinally {A} (m : M S A) (f : M S unit) :
  calm m -> calm f -> calm (tryFinally m f).
Proof.
  intros Hm Hf env w s o w' s' E. unfold tryFinally in E.
  destruct (m env w s) as [[o1 w1] s1] eqn:Em.
  destruct (f env w1 s1) as [[[u|e] w2] s2] eqn:Ef; inversion E; subst.
  - exact (Hm _ _ _ _ _ _ Em).
  - exact (Hf _ _ _ _ _ _ Ef).
Qed.

Lemma calm_forOf {A B} (P : A -> Prop) (xs : list A) (body : B -> A -> M S B) :
  Forall P xs -> (forall acc x, P x -> calm (body acc x)) ->
  forall acc, calm (forOf xs acc body).
Proof.
  intros Hxs Hbody. induction Hxs as [|x xs Hx _ IH]; intros acc; simpl.
  - apply calm_ret.
  - apply calm_bind; [now apply Hbody | intros acc'; apply IH].
Qed.

Lemma calm_execSync (command : string) : calm (@execSync S command).
Proof.
  unfold execSync.
  apply calm_bind; [apply calm_io|]. intros _.
  apply calm_bind; [apply calm_ask|]. intros o. apply calm_liftReply.
Qed.

End Calm.

(** Plain data converts to a string, and a visit of plain data visits
    plain data and throws nothing but an [Error]. *)
Lemma JsValue_elems_ind (P : JsValue -> Prop) :
  (forall elems, Forall P elems -> P (JsArray elems)) ->
  (forall v, (forall elems, v <> JsArray elems) -> P v) ->
  forall v, P v.
Proof.
  intros Harray Hother. fix IH 1. intros v.
  destruct v as [| |b|s|elems| |t it c]; try (apply Hother; discriminate).
  apply Harray. induction elems as [|x rest IHl]; constructor; [apply IH | exact IHl].
Qed.

Lemma ToString_plain (v : JsValue) : plain v = true -> exists s, ToString v = Returned s.
Proof.
  induction v as [elems IH|v Hno] using JsValue_elems_ind; intros Hv.
  2:{ destruct v as [| |[]|s|elems| |t it c]; try (eexists; reflexivity).
      - now destruct (Hno elems).
      - discriminate Hv. }
  cbn [plain] in Hv. cbn [ToString].
  assert (Hparts : exists parts,
             (fix each (elems : list JsValue) : Outcome (list string) :=
                match elems with
                | [] => Returned []
                | x :: rest =>
                    match match x with
                          | JsUndefined | JsNull => Returned ""
                          | _ => ToString x
                          end with
                    | Thrown e => Thrown e
                    | Returned s =>
                        match each rest with
                        | Thrown e => Thrown e
                        | Returned parts => Returned (s :: parts)
                        end
                    end
                end) elems = Returned parts).
  { induction IH as [|x rest Hx _ IHl]; [eexists; reflexivity|].
    cbn [forallb] in Hv. apply andb_prop in Hv. destruct Hv as [Hpx Hrest].
    destruct (IHl Hrest) as (parts & ->).
    destruct (Hx Hpx) as (s & Es).
    destruct x; try (rewrite Es); eexists; reflexivity. }
  destruct Hparts as (parts & ->). eexists; reflexivity.
Qed.

Lemma visits_plain (name : string) (v : JsValue) :
  plain v = true ->
  Forall (fun x => plain x = true) (fst (visits name v))
  /\ match snd (visits name v) with
     | Some (Unprintable _) => False
     | _ => True
     end.
Proof.
  intros Hv. destruct v as [| |b|s|elems| |t it c]; try (split; [constructor | exact I]).
  - split; [|exact I]. cbn [visits fst]. apply List.Forall_forall. intros x Hx.
    apply in_map_iff in Hx. destruct Hx as (cp & <- & _). reflexivity.
  - split; [|exact I]. cbn [visits fst]. apply List.Forall_forall.
    cbn [plain] in Hv. rewrite forallb_forall in Hv. exact Hv.
  - discriminate Hv.
Qed.

Lemma calm_forOfValue {S B} (name : string) (v : JsValue) (body : B -> JsValue -> M S B) :
  plain v = true ->
  (forall acc x, plain x = true -> calm (body acc x)) ->
  forall acc, calm (forOfValue name v acc body).
Proof.
  intros Hv Hbody acc. destruct (visits_plain name v Hv) as [Hitems Hend].
  unfold forOfValue. apply calm_bind.
  - now apply (calm_forOf (fun x => plain x = true)).
  - intros acc'. destruct (snd (visits name v)) as [[e|raises]|];
      [apply calm_throw | destruct Hend | apply calm_ret].
Qed.

Lemma calm_ToString {S} (v : JsValue) : plain v = true -> calm (@liftOutcome S _ (ToString v)).
Proof. intros Hv. apply calm_liftOutcome. destruct (ToString_plain v Hv) as (s & ->). exact I. Qed.

Lemma calm_messageOf {S} (e : JsExn) : calm (@liftOutcome S _ (messageOf (Printable e))).
Proof. apply calm_liftOutcome. exact I. Qed.

Lemma plain_js_or (a b : JsValue) : plain a = true -> plain b = true -> plain (js_or a b) = true.
Proof. intros Ha Hb. unfold js_or. now destruct (truthy a). Qed.

Lemma plain_prop context key : plainContext context -> plain (prop context key) = true.
Proof.
  intros Hc. unfold prop. destruct (context !! key) as [v|] eqn:E; [|reflexivity].
  exact (Hc key v E).
Qed.

Create HintDb calm.
#[local] Hint Resolve calm_ret calm_throw calm_liftReply calm_ask calm_this calm_Date_now
  calm_io calm_sleep calm_update calm_execSync calm_messageOf : calm.

(** Decomposes a computation over a context of plain data. *)
Ltac calm_step :=
  first
    [ match goal with
      | |- calm (forOfValue _ _ _ _) => apply calm_forOfValue; [ | intros ? ? ? ]
      | |- calm (forOf _ _ _) =>
          apply (calm_forOf (fun _ => True)); [now apply List.Forall_forall | intros ? ? _ ]
      | |- calm (liftOutcome (ToString _)) => apply calm_ToString
      | |- plain (js_or _ _) = true => apply plain_js_or
      | |- plain (prop _ _) = true => apply plain_prop; assumption
      | |- plain _ = true => first [assumption | reflexivity]
      end
    | apply calm_bind; [ | intros ? ]
    | apply calm_tryCatch; [ | intros ? ]
    | apply calm_tryFinally
    | solve [auto with calm]
    | match goal with |- calm (if ?b then _ else _) => destruct b end
    | match goal with |- calm (match ?x with _ => _ end) => destruct x end ].

Ltac calming := repeat calm_step.

Lemma APIAgent_taskBody_calm task context :
  plainContext context -> calm (APIAgent.taskBody task context).
Proof.
  intros Hc.
  unfold APIAgent.taskBody, APIAgent.runPostmanTests, APIAgent.validateApiEndpoints.
  calming.
Qed.

Lemma MobileAgent_taskBody_calm task context :
  plainContext context -> calm (MobileAgent.taskBody task context).
Proof.
  intros Hc.
  unfold MobileAgent.taskBody, MobileAgent.runAppiumTests, MobileAgent.runWebDriverTests.
  calming.
Qed.

Lemma WireMockAgent_taskBody_calm task context :
  plainContext context -> calm (WireMockAgent.taskBody task context).
Proof.
  intros Hc.
  unfold WireMockAgent.taskBody, WireMockAgent.runWiremockTests,
    WireMockAgent.validateWiremocks.
  calming.
Qed.

Lemma HeadSpinAgent_taskBody_calm task context : calm (HeadSpinAgent.taskBody task context).
Proof.
  unfold HeadSpinAgent.taskBody, HeadSpinAgent.runHeadSpinIOSSmokeTest,
    HeadSpinAgent.process_env.
  calming.
Qed.

(** ** One [executeTask] call *)

Lemma lookup_last_pushed {A} (l : list A) (x : A) :
  (l ++ [x]) !! (length (l ++ [x]) - 1)%nat = Some x.
Proof. apply list_lookup_middle. rewrite length_app. simpl. lia. Qed.

Lemma APIAgent_executeTask_run task context env w a :
  APIAgent.executeTask task context env w a
  = match APIAgent.taskBody task context env w a with
    | (o, w1, a1) =>
        match resultFor task (World.clock w) (World.clock w1) o with
        | Returned r => (Returned r, w1, APIAgent.testResults_push r a1)
        | Thrown e => (Thrown e, w1, a1)
        end
    end.
Proof.
  cbv beta iota delta [APIAgent.executeTask tryCatch bind BaseAgent.measureExecutionTime
    BaseAgent.createTaskResult Date_now update ret liftOutcome liftReply messageOf errorMessage
    resultFor].
  destruct (APIAgent.taskBody task context env w a) as [[[out|[[message|text]|raises]] w1] a1];
    reflexivity.
Qed.

Lemma MobileAgent_executeTask_run task context env w a :
  MobileAgent.executeTask task context env w a
  = match MobileAgent.taskBody task context env w a with
    | (o, w1, a1) =>
        match resultFor task (World.clock w) (World.clock w1) o with
        | Returned r => (Returned r, w1, MobileAgent.testResults_push r a1)
        | Thrown e => (Thrown e, w1, a1)
        end
    end.
Proof.
  cbv beta iota delta [MobileAgent.executeTask tryCatch bind BaseAgent.measureExecutionTime
    BaseAgent.createTaskResult Date_now update ret this liftOutcome liftReply messageOf errorMessage
    resultFor].
  destruct (MobileAgent.taskBody task context env w a)
    as [[[out|[[message|text]|raises]] w1] a1];
    try reflexivity;
    cbn [MobileAgent.testResults MobileAgent.testResults_push];
    now rewrite lookup_last_pushed.
Qed.

Lemma WireMockAgent_executeTask_run task context env w a :
  WireMockAgent.executeTask task context env w a
  = match WireMockAgent.taskBody task context env w a with
    | (o, w1, a1) =>
        match resultFor task (World.clock w) (World.clock w1) o with
        | Returned r => (Returned r, w1, WireMockAgent.testResults_push r a1)
        | Thrown e => (Thrown e, w1, a1)
        end
    end.
Proof.
  cbv beta iota delta [WireMockAgent.executeTask tryCatch bind BaseAgent.measureExecutionTime
    BaseAgent.createTaskResult Date_now update ret liftOutcome liftReply messageOf errorMessage
    resultFor].
  destruct (WireMockAgent.taskBody task context env w a)
    as [[[out|[[message|text]|raises]] w1] a1];
    reflexivity.
Qed.

Lemma HeadSpinAgent_executeTask_run task context env w a :
  HeadSpinAgent.executeTask task context env w a
  = match HeadSpinAgent.taskBody task context env w a with
    | (o, w1, a1) =>
        match resultFor task (World.clock w) (World.clock w1) o with
        | Returned r => (Returned r, w1, HeadSpinAgent.testResults_push r a1)
        | Thrown e => (Thrown e, w1, a1)
        end
    end.
Proof.
  cbv beta iota delta [HeadSpinAgent.executeTask tryCatch bind BaseAgent.measureExecutionTime
    BaseAgent.createTaskResult Date_now update ret liftOutcome liftReply messageOf errorMessage
    resultFor].
  destruct (HeadSpinAgent.taskBody task context env w a)
    as [[[out|[[message|text]|raises]] w1] a1];
    reflexivity.
Qed.

Lemma history_pushed r o : history (pushed r o) = (history o ++ [r])%list.
Proof. now destruct o. Qed.

Lemma classOf_pushed r o : classOf (pushed r o) = classOf o.
Proof. now destruct o. Qed.

(** Whatever the class, the task, the context, the environment and the
    world: the task body leaves console, files and history alone, and
    [executeTask] comes to what [resultFor] says of the outcome of the
    body, a result being pushed on the history. *)
Lemma AgentObject_executeTask_run task context env w o :
  exists ob wb o1,
    AgentObject_taskBody task context env w o = (ob, wb, o1)
    /\ quiet w wb
    /\ history o1 = history o
    /\ classOf o1 = classOf o
    /\ AgentObject_executeTask task context env w o
       = match resultFor task (World.clock w) (World.clock wb) ob with
         | Returned r => (Returned r, wb, pushed r o1)
         | Thrown e => (Thrown e, wb, o1)
         end.
Proof.
  destruct o as [a|a|a|a]; unfold AgentObject_executeTask, AgentObject_taskBody, invoke;
    cbn [Agent.executeTask APIAgent.agent MobileAgent.agent WireMockAgent.agent
         HeadSpinAgent.agent].
  - rewrite APIAgent_executeTask_run.
    destruct (APIAgent.taskBody task context env w a) as [[ob wb] a1] eqn:E.
    apply APIAgent_taskBody_frames in E. destruct E as [Hq Hh]. simpl in Hq, Hh.
    exists ob, wb, (ApiObject a1). repeat split; try apply Hq; trivial.
    now destruct (resultFor task (World.clock w) (World.clock wb) ob).
  - rewrite MobileAgent_executeTask_run.
    destruct (MobileAgent.taskBody task context env w a) as [[ob wb] a1] eqn:E.
    apply MobileAgent_taskBody_frames in E. destruct E as [Hq Hh]. simpl in Hq, Hh.
    exists ob, wb, (MobileObject a1). repeat split; try apply Hq; trivial.
    now destruct (resultFor task (World.clock w) (World.clock wb) ob).
  - rewrite WireMockAgent_executeTask_run.
    destruct (WireMockAgent.taskBody task context env w a) as [[ob wb] a1] eqn:E.
    apply WireMockAgent_taskBody_frames in E. destruct E as [Hq Hh]. simpl in Hq, Hh.
    exists ob, wb, (WireMockObject a1). repeat split; try apply Hq; trivial.
    now destruct (resultFor task (World.clock w) (World.clock wb) ob).
  - rewrite HeadSpinAgent_executeTask_run.
    destruct (HeadSpinAgent.taskBody task context env w a) as [[ob wb] a1] eqn:E.
    apply HeadSpinAgent_taskBody_frames in E. destruct E as [Hq Hh]. simpl in Hq, Hh.
    exists ob, wb, (HeadSpinObject a1). repeat split; try apply Hq; trivial.
    now destruct (resultFor task (World.clock w) (World.clock wb) ob).
Qed.

Lemma AgentObject_taskBody_calm task context :
  plainContext context -> calm (AgentObject_taskBody task context).
Proof.
  intros Hc env w o ob wb o1 E. unfold AgentObject_taskBody in E.
  destruct o as [a|a|a|a].
  - destruct (APIAgent.taskBody task context env w a) as [[ob' wb'] a1] eqn:Eb.
    inversion E; subst. eapply APIAgent_taskBody_calm; eassumption.
  - destruct (MobileAgent.taskBody task context env w a) as [[ob' wb'] a1] eqn:Eb.
    inversion E; subst. eapply MobileAgent_taskBody_calm; eassumption.
  - destruct (WireMockAgent.taskBody task context env w a) as [[ob' wb'] a1] eqn:Eb.
    inversion E; subst. eapply WireMockAgent_taskBody_calm; eassumption.
  - destruct (HeadSpinAgent.taskBody task context env w a) as [[ob' wb'] a1] eqn:Eb.
    inversion E; subst. eapply HeadSpinAgent_taskBody_calm; eassumption.
Qed.

Lemma resultFor_renderable task t0 t1 o :
  renderable o ->
  exists r,
    resultFor task t0 t1 o = Returned r
    /\ terminal r
    /\ TaskResult.taskName r = task.
Proof.
  destruct o as [out|[[message|text]|raises]]; intros Ho; try destruct Ho;
    eexists; (split; [reflexivity|]); split; try reflexivity;
    first [now left | now right].
Qed.

(** With a context of plain data [executeTask] returns: a result whose
    status is COMPLETED or FAILED, pushed on the history. *)
Lemma AgentObject_executeTask_plain task context env w o :
  plainContext context ->
  exists r w' o',
    AgentObject_executeTask task context env w o = (Returned r, w', o')
    /\ terminal r
    /\ TaskResult.taskName r = task
    /\ history o' = (history o ++ [r])%list
    /\ classOf o' = classOf o
    /\ quiet w w'.
Proof.
  intros Hc.
  destruct (AgentObject_executeTask_run task context env w o)
    as (ob & wb & o1 & Eb & Hq & Hh & Hcl & Ex).
  pose proof (AgentObject_taskBody_calm task context Hc _ _ _ _ _ _ Eb) as Hr.
  destruct (resultFor_renderable task (World.clock w) (World.clock wb) ob Hr)
    as (r & Er & Ht & Hn).
  rewrite Er in Ex. exists r, wb, (pushed r o1).
  split; [exact Ex|]. split; [exact Ht|]. split; [exact Hn|].
  split; [now rewrite history_pushed, Hh|]. split; [now rewrite classOf_pushed|]. exact Hq.
Qed.




(** A task name outside the [case] labels reaches the [default] branch
    of the [switch]. *)
Lemma unknown_task_throws task context env w o :
  ~ In task (recognizedTasks o) ->
  exists o1,
    AgentObject_taskBody task context env w o
    = (Thrown (Printable (JsError ("Unknown task: " +:+ task))), w, o1).
Proof.
  intros Hnot.
  assert (Hne : forall label, In label (recognizedTasks o) -> String.eqb task label = false).
  { intros label Hin. apply String.eqb_neq. intros ->. now apply Hnot. }
  destruct o as [a|a|a|a]; unfold AgentObject_taskBody;
    [unfold APIAgent.taskBody | unfold MobileAgent.taskBody
    | unfold WireMockAgent.taskBody | unfold HeadSpinAgent.taskBody];
    repeat (rewrite Hne by (simpl; tauto)); eexists; reflexivity.
Qed.

(** C3: a task name that is not among the [case] labels of the agent's
    [switch] gives a FAILED result whose [error] is present and not
    empty (it is 'Unknown task: ' followed by the name). *)
Theorem executeTask_unknown_task_fails (o : AgentObject) (task : string)
  (context : gmap string JsValue) (env : Env) (w : World) :
  ~ In task (recognizedTasks o) ->
  exists r w' o' message,
    AgentObject_executeTask task context env w o = (Returned r, w', o')
    /\ TaskResult.status r = FAILED
    /\ TaskResult.error r = Some message
    /\ message <> ""
    /\ message = "Unknown task: " +:+ task.
Proof.
  intros Hnot.
  destruct (unknown_task_throws task context env w o Hnot) as (o1 & Eb).
  destruct (AgentObject_executeTask_run task context env w o)
    as (ob & wb & o1' & Eb' & _ & _ & _ & Ex).
  rewrite Eb in Eb'. inversion Eb'; subst ob wb o1'.
  cbn [resultFor] in Ex.
  eexists _, _, _, _. split; [exact Ex|]. repeat split. discriminate.
Qed.

(** The API agent, asked to 'deploy'. *)
Lemma executeTask_unknown_task_fails_witness :
  ~ In "deploy" (recognizedTasks (construct ClassAPIAgent))
  /\ exists r w' o' message,
       AgentObject_executeTask "deploy" ∅ calmEnv world0 (construct ClassAPIAgent)
       = (Returned r, w', o')
       /\ TaskResult.status r = FAILED
       /\ TaskResult.error r = Some message
       /\ message <> ""
       /\ message = "Unknown task: " +:+ "deploy".
Proof.
  assert (H : ~ In "deploy" (recognizedTasks (construct ClassAPIAgent))).
  { simpl. intros [H|[H|[]]]; discriminate H. }
  split; [exact H|].
  exact (executeTask_unknown_task_fails (construct ClassAPIAgent) "deploy" ∅
           calmEnv world0 H).
Defined.

(** ** Reports *)

(** [generateReport] reads the history and touches nothing. *)
Lemma AgentObject_generateReport_run env w o :
  AgentObject_generateReport env w o = (Returned (reportFor o), w, o).
Proof. destruct o; reflexivity. Qed.

(** A list is made of the elements that pass a test and of those that
    fail it. *)
Lemma filter_Permutation {A} (p : A -> bool) (xs : list A) :
  Permutation xs (List.filter p xs ++ List.filter (fun x => negb (p x)) xs).
Proof.
  induction xs as [|x xs IH]; [constructor|].
  cbn [List.filter]. destruct (p x); cbn [negb app].
  - now constructor.
  - now apply Permutation_cons_app.
Qed.

Lemma filter_hasStatus (s : TaskStatus) (rs : list TaskResult) :
  Forall (fun r => TaskResult.status r = s) (List.filter (hasStatus s) rs)
  /\ Forall (fun r => TaskResult.status r <> s)
       (List.filter (fun r => negb (hasStatus s r)) rs).
Proof.
  split; apply List.Forall_forall; intros r Hr; apply filter_In in Hr; destruct Hr as [_ Hr].
  - now apply hasStatus_true.
  - intros E. apply hasStatus_true in E. rewrite E in Hr. discriminate Hr.
Qed.

(** The number of results with a status does not depend on how they are
    told apart. *)
Lemma length_filter_hasStatus (s : TaskStatus) (rs : list TaskResult) :
  forall chosen others,
    Permutation rs (chosen ++ others) ->
    Forall (fun r => TaskResult.status r = s) chosen ->
    Forall (fun r => TaskResult.status r <> s) others ->
    length (List.filter (hasStatus s) rs) = length chosen.
Proof.
  intros chosen others Hp Hc Ho.
  assert (Hlen : forall xs ys : list TaskResult,
             Permutation xs ys ->
             length (List.filter (hasStatus s) xs) = length (List.filter (hasStatus s) ys)).
  { induction 1 as [|x xs ys _ IH|x y xs|xs ys zs _ IH1 _ IH2]; cbn [List.filter].
    - reflexivity.
    - destruct (hasStatus s x); cbn [length]; congruence.
    - destruct (hasStatus s x), (hasStatus s y); reflexivity.
    - congruence. }
  rewrite (Hlen _ _ Hp), List.filter_app, length_app.
  assert (H1 : List.filter (hasStatus s) chosen = chosen).
  { clear Hp. induction Hc as [|r chosen Hr _ IH]; [reflexivity|].
    cbn [List.filter]. apply hasStatus_true in Hr. rewrite Hr. now f_equal. }
  assert (H2 : List.filter (hasStatus s) others = []).
  { clear Hp. induction Ho as [|r others Hr _ IH]; [reflexivity|].
    cbn [List.filter]. destruct (hasStatus s r) eqn:E; [|exact IH].
    apply hasStatus_true in E. now destruct Hr. }
  rewrite H1, H2. simpl. lia.
Qed.

(** A sequence of calls settles one call after the other: the results
    of the calls that returned are pushed, in order, on the history. *)
Lemma forOf_executeTask_run calls : forall acc env w o,
  exists outcomes w' o',
    forOf calls acc (fun outcomes call =>
      fun env w o =>
        match AgentObject_executeTask (fst call) (snd call) env w o with
        | (outcome, w', o') => (Returned (outcomes ++ [outcome]), w', o')
        end) env w o
    = (Returned (acc ++ outcomes), w', o')
    /\ history o' = history o ++ returnedBy outcomes
    /\ length outcomes = length calls
    /\ ((forall call, In call calls -> plainContext (snd call)) ->
        length (returnedBy outcomes) = length calls).
Proof.
  induction calls as [|[task context] calls IH]; intros acc env w o.
  - exists [], w, o. simpl. rewrite !app_nil_r. repeat split.
  - destruct (AgentObject_executeTask_run task context env w o)
      as (ob & wb & o1 & Eb & _ & Hh & _ & Ex).
    cbn [forOf]. unfold bind at 1. cbn [fst snd]. rewrite Ex.
    destruct (resultFor task (World.clock w) (World.clock wb) ob) as [r|e] eqn:Er.
    + destruct (IH (acc ++ [Returned r]) env wb (pushed r o1))
        as (outcomes & w' & o' & E & Hh' & Hl & Hplain).
      exists (Returned r :: outcomes), w', o'. rewrite E, <- app_assoc.
      split; [reflexivity|]. split.
      { rewrite Hh', history_pushed, Hh, <- app_assoc. reflexivity. }
      split; [simpl; now rewrite Hl|].
      intros Hall. cbn [returnedBy flat_map app length]. f_equal.
      apply Hplain. intros call Hin. apply Hall. now right.
    + destruct (IH (acc ++ [Thrown e]) env wb o1)
        as (outcomes & w' & o' & E & Hh' & Hl & Hplain).
      exists (Thrown e :: outcomes), w', o'. rewrite E, <- app_assoc.
      split; [reflexivity|]. split.
      { rewrite Hh', Hh. reflexivity. }
      split; [simpl; now rewrite Hl|].
      intros Hall. exfalso.
      pose proof (AgentObject_taskBody_calm task context
                    (Hall (task, context) (or_introl eq_refl)) _ _ _ _ _ _ Eb) as Hr.
      destruct (resultFor_renderable task (World.clock w) (World.clock wb) ob Hr)
        as (r & Er' & _). congruence.
Qed.

Lemma history_construct c : history (construct c) = [].
Proof. now destruct c. Qed.

(** C5: for every agent class and every sequence of [executeTask]
    calls on a fresh agent (the empty sequence included), whatever each
    call came to, the report that [generateReport] then returns lists
    the results of the calls that returned; totalTests is their number,
    passedTests the number of those whose status is COMPLETED and
    failedTests the number of the others, so that
    totalTests = passedTests + failedTests. With contexts of plain data
    every call returns, and totalTests is the number of calls. *)
Theorem report_counts_add_up (c : AgentClass)
  (calls : list (string * gmap string JsValue)) (env : Env) (w : World) :
  exists outcomes w' o' report passed others,
    executeTasks calls env w (construct c) = (Returned outcomes, w', o')
    /\ length outcomes = length calls
    /\ AgentObject_generateReport env w' o' = (Returned report, w', o')
    /\ AgentReport.testResults report = returnedBy outcomes
    /\ AgentReport.totalTests report = Z.of_nat (length (returnedBy outcomes))
    /\ AgentReport.totalTests report
       = AgentReport.passedTests report + AgentReport.failedTests report
    /\ Permutation (AgentReport.testResults report) (passed ++ others)
    /\ Forall (fun r => TaskResult.status r = COMPLETED) passed
    /\ Forall (fun r => TaskResult.status r <> COMPLETED) others
    /\ AgentReport.passedTests report = Z.of_nat (length passed)
    /\ AgentReport.failedTests report = Z.of_nat (length others)
    /\ ((forall call, In call calls -> plainContext (snd call)) ->
        AgentReport.totalTests report = Z.of_nat (length calls)).
Proof.
  destruct (forOf_executeTask_run calls [] env w (construct c))
    as (outcomes & w' & o' & E & Hh & Hl & Hplain).
  rewrite history_construct in Hh. simpl in Hh.
  exists outcomes, w', o', (reportFor o'),
    (List.filter (hasStatus COMPLETED) (history o')),
    (List.filter (fun r => negb (hasStatus COMPLETED r)) (history o')).
  split; [exact E|]. split; [exact Hl|].
  split; [apply AgentObject_generateReport_run|].
  unfold reportFor.
  cbn [AgentReport.totalTests AgentReport.passedTests AgentReport.failedTests
       AgentReport.testResults].
  destruct (filter_hasStatus COMPLETED (history o')) as [Hpassed Hothers].
  split; [exact Hh|]. split; [now rewrite Hh|]. split; [lia|].
  split; [apply filter_Permutation|]. split; [exact Hpassed|]. split; [exact Hothers|].
  split; [reflexivity|]. split.
  - unfold countIf. pose proof (filter_split_length (hasStatus COMPLETED) (history o')). lia.
  - intros Hall. rewrite Hh. f_equal. now apply Hplain.
Qed.

(** C9: on a fresh agent of any class [generateReport] returns zero
    counts and no results; on any agent it returns without changing
    the world or the agent, so that a second call returns the same
    report; and the report does not depend on the environment or the
    world. *)
Theorem generateReport_reads_only :
  (forall c env w,
     exists report,
       AgentObject_generateReport env w (construct c) = (Returned report, w, construct c)
       /\ AgentReport.totalTests report = 0
       /\ AgentReport.passedTests report = 0
       /\ AgentReport.failedTests report = 0
       /\ AgentReport.testResults report = [])
  /\ (forall o env w,
        exists report,
          AgentObject_generateReport env w o = (Returned report, w, o)
          /\ bind AgentObject_generateReport (fun first =>
               bind AgentObject_generateReport (fun second =>
                 ret (first, second))) env w o
             = (Returned (report, report), w, o))
  /\ (forall o env w env' w',
        fst (fst (AgentObject_generateReport env w o))
        = fst (fst (AgentObject_generateReport env' w' o))).
Proof.
  repeat split.
  - intros c env w. eexists. split; [apply AgentObject_generateReport_run|].
    unfold reportFor. rewrite history_construct. repeat split.
  - intros o env w. eexists. split; [apply AgentObject_generateReport_run|].
    unfold bind. rewrite AgentObject_generateReport_run.
    cbv beta iota. rewrite AgentObject_generateReport_run. reflexivity.
  - intros o env w env' w'. now rewrite !AgentObject_generateReport_run.
Qed.

(** ** The tracker sync *)

(** C7: the message of [syncWithZephyrJira] depends on the results
    whose status is FAILED, and on nothing else: when there is none (as
    in the empty list) it is the 'No issues to sync' message, otherwise
    it is 'Mock: Synced n failed test(s) with Jira.' with n their
    number; the outcome is the same for every list with the same FAILED
    results, whatever the others and the order; and no message of the
    second form equals the first. *)
Theorem syncWithZephyrJira_messages {S : Type} (testResults : list TaskResult)
  (env : Env) (w : World) (s : S) :
  exists message w' failed others,
    ReportGenerator.syncWithZephyrJira testResults env w s = (Returned message, w', s)
    /\ Permutation testResults (failed ++ others)
    /\ Forall (fun r => TaskResult.status r = FAILED) failed
    /\ Forall (fun r => TaskResult.status r <> FAILED) others
    /\ (failed = [] ->
        message = "No issues to sync with Jira/Zephyr - all tests passed!")
    /\ (failed <> [] ->
        message = "Mock: Synced " +:+ nat_toString (length failed)
                  +:+ " failed test(s) with Jira.")
    /\ (forall others' mixed,
          Forall (fun r => TaskResult.status r <> FAILED) others' ->
          Permutation mixed (failed ++ others') ->
          ReportGenerator.syncWithZephyrJira mixed env w s = (Returned message, w', s))
    /\ (exists w0,
          ReportGenerator.syncWithZephyrJira [] env w s
          = (Returned "No issues to sync with Jira/Zephyr - all tests passed!", w0, s))
    /\ (forall n : nat,
          "Mock: Synced " +:+ nat_toString n +:+ " failed test(s) with Jira."
          <> "No issues to sync with Jira/Zephyr - all tests passed!").
Proof.
  set (failed := List.filter (hasStatus FAILED) testResults).
  set (others := List.filter (fun r => negb (hasStatus FAILED r)) testResults).
  destruct (filter_hasStatus FAILED testResults) as [Hfailed Hothers].
  fold failed in Hfailed. fold others in Hothers.
  assert (Hrun : forall results,
             length (List.filter (hasStatus FAILED) results) = length failed ->
             ReportGenerator.syncWithZephyrJira results env w s
             = (Returned (if (length failed =? 0)%nat
                          then "No issues to sync with Jira/Zephyr - all tests passed!"
                          else "Mock: Synced " +:+ nat_toString (length failed)
                               +:+ " failed test(s) with Jira."),
                advance (Env.elapsed env (IoTimer 150))
                  (World.mk (World.clock w + 150) (World.dirs w) (World.files w)
                     (World.console w)), s)).
  { intros results Hlen.
    unfold ReportGenerator.syncWithZephyrJira, ReportGenerator.delay.
    cbv beta iota zeta delta [bind sleep ret]. rewrite Hlen.
    destruct (length failed =? 0)%nat; reflexivity. }
  eexists _, _, failed, others.
  split; [apply Hrun; reflexivity|].
  split; [apply filter_Permutation|]. split; [exact Hfailed|]. split; [exact Hothers|].
  split; [intros ->; reflexivity|].
  split; [intros Hne; destruct failed; [now destruct Hne | reflexivity]|].
  split.
  { intros others' mixed Ho' Hp. apply Hrun.
    exact (length_filter_hasStatus FAILED mixed failed others' Hp Hfailed Ho'). }
  split; [eexists; reflexivity|].
  intros n H. discriminate H.
Qed.

(** ** Strings and paths *)

Lemma append_cons (c : ascii) (a b : string) : String c a +:+ b = String c (a +:+ b).
Proof. reflexivity. Qed.

Lemma append_empty_l (b : string) : "" +:+ b = b.
Proof. reflexivity. Qed.

Lemma append_assoc (a b c : string) : (a +:+ b) +:+ c = a +:+ (b +:+ c).
Proof.
  induction a as [|x a IH]; [reflexivity|].
  rewrite !append_cons. now f_equal.
Qed.

Lemma length_append (a b : string) :
  String.length (a +:+ b) = (String.length a + String.length b)%nat.
Proof.
  induction a as [|x a IH]; [reflexivity|].
  rewrite append_cons. simpl. now rewrite IH.
Qed.

Lemma append_cancel_l (x a b : string) : x +:+ a = x +:+ b -> a = b.
Proof.
  induction x as [|c x IH]; intros H; [exact H|].
  rewrite !append_cons in H. injection H. exact IH.
Qed.

Lemma append_cancel_r (x : string) : forall a b, a +:+ x = b +:+ x -> a = b.
Proof.
  induction a as [|c a IH]; intros [|c' b] H.
  - reflexivity.
  - apply (f_equal String.length) in H. rewrite append_empty_l, append_cons in H.
    simpl in H. rewrite length_append in H. lia.
  - apply (f_equal String.length) in H. rewrite append_empty_l, append_cons in H.
    simpl in H. rewrite length_append in H. lia.
  - rewrite !append_cons in H. injection H as -> H. f_equal. now apply IH.
Qed.

(** Code points and code units. *)

Lemma append_empty_r (a : string) : a +:+ "" = a.
Proof. induction a as [|c a IH]; [reflexivity|]. rewrite append_cons. now f_equal. Qed.

Lemma implode_codePointsFrom (s : string) : forall current expected,
  implode (codePointsFrom current expected s) = current +:+ s.
Proof.
  induction s as [|c s IH]; intros current expected.
  - simpl. now rewrite append_empty_r.
  - cbn [codePointsFrom].
    assert (Hnew : implode (current :: codePointsFrom (String c EmptyString) (following c) s)
                   = current +:+ String c s).
    { cbn [implode fold_right]. fold (implode (codePointsFrom (String c EmptyString) (following c) s)).
      now rewrite IH. }
    destruct expected as [|n]; [exact Hnew|].
    destruct (isContinuation c); [|exact Hnew].
    rewrite IH, append_assoc. reflexivity.
Qed.

Lemma implode_codePoints (s : string) : implode (codePoints s) = s.
Proof. destruct s as [|c s]; [reflexivity|]. apply implode_codePointsFrom. Qed.

Lemma String_length_append (a b : string) :
  String_length (a +:+ b) = (String_length a + String_length b)%nat.
Proof.
  induction a as [|c a IH]; [reflexivity|].
  rewrite append_cons. cbn [String_length]. rewrite IH. lia.
Qed.

Lemma String_length_implode_cons (x : string) (l : list string) :
  String_length (implode (x :: l)) = (String_length x + String_length (implode l))%nat.
Proof. cbn [implode fold_right]. apply String_length_append. Qed.

Lemma String_length_implode_app (l1 l2 : list string) :
  String_length (implode (l1 ++ l2))
  = (String_length (implode l1) + String_length (implode l2))%nat.
Proof.
  induction l1 as [|x l1 IH]; [reflexivity|].
  change ((x :: l1) ++ l2)%list with (x :: (l1 ++ l2))%list.
  rewrite !String_length_implode_cons, IH. lia.
Qed.

Lemma String_length_implode_rev (l : list string) :
  String_length (implode (rev l)) = String_length (implode l).
Proof.
  induction l as [|x l IH]; [reflexivity|].
  cbn [rev]. rewrite String_length_implode_app, !String_length_implode_cons, IH.
  change (String_length (implode [])) with 0%nat. lia.
Qed.

Lemma String_length_implode_dropWhile (p : string -> bool) (l : list string) :
  (String_length (implode (dropWhile p l)) <= String_length (implode l))%nat.
Proof.
  induction l as [|x l IH]; [reflexivity|].
  cbn [dropWhile]. destruct (p x); [|reflexivity].
  rewrite String_length_implode_cons. lia.
Qed.

Lemma String_length_trim (s : string) : (String_length (trim s) <= String_length s)%nat.
Proof.
  unfold trim. rewrite String_length_implode_rev.
  pose proof (String_length_implode_dropWhile isWhiteSpace
                (rev (dropWhile isWhiteSpace (codePoints s)))) as H1.
  rewrite String_length_implode_rev in H1.
  pose proof (String_length_implode_dropWhile isWhiteSpace (codePoints s)) as H2.
  rewrite implode_codePoints in H2. lia.
Qed.

Lemma unitsOf_continuation (n : N) :
  unitsOf (ascii_of_N (128 + n mod 64)) = 0%nat.
Proof.
  unfold unitsOf, isContinuation.
  assert (Hm : (n mod 64 < 64)%N) by (apply N.mod_upper_bound; discriminate).
  set (m := (n mod 64)%N) in *. clearbody m.
  assert (H : nat_of_ascii (ascii_of_N (128 + m)) = N.to_nat (128 + m)).
  { unfold nat_of_ascii. rewrite N_ascii_embedding; [reflexivity | lia]. }
  rewrite H.
  assert (H1 : (128 <=? N.to_nat (128 + m))%nat = true) by (apply Nat.leb_le; lia).
  assert (H2 : (N.to_nat (128 + m) <? 192)%nat = true) by (apply Nat.ltb_lt; lia).
  now rewrite H1, H2.
Qed.

Lemma String_length_highSurrogate (cp : string) : String_length (highSurrogate cp) = 1%nat.
Proof.
  unfold highSurrogate, threeBytes. cbn [String_length]. rewrite !unitsOf_continuation.
  set (k := (((codePointOf cp - 65536) / 1024) mod 1024)%N).
  assert (Hk : (k < 1024)%N) by (apply N.mod_upper_bound; discriminate).
  assert (H : ((55296 + k) / 4096 = 13)%N).
  { clearbody k. symmetry. apply (N.div_unique _ _ _ (2048 + k)%N); lia. }
  rewrite H. reflexivity.
Qed.

Lemma String_length_takeUnits (cps : list string) : forall n,
  (String_length (implode (takeUnits n cps)) <= n)%nat.
Proof.
  induction cps as [|cp rest IH]; intros n; cbn [takeUnits]; [simpl; lia|].
  destruct (String_length cp <=? n)%nat eqn:E.
  - apply Nat.leb_le in E. rewrite String_length_implode_cons.
    specialize (IH (n - String_length cp)%nat). lia.
  - destruct (n =? 0)%nat eqn:E0; [simpl; lia|].
    apply Nat.eqb_neq in E0. rewrite String_length_implode_cons.
    rewrite String_length_highSurrogate. simpl. lia.
Qed.

Lemma String_length_substringTo (n : nat) (s : string) :
  (String_length (substringTo n s) <= n)%nat.
Proof. apply String_length_takeUnits. Qed.

(** A cut at 100 code units keeps 72 of 80 characters of two bytes
    each that follow 28 ASCII characters; a cut between the two code
    units of U+1F600 keeps the first of them; [trim] strips the
    no-break space; and iteration yields code points. *)
Example substringTo_counts_code_units :
  substringTo 100 (times 28 "x" +:+ times 80 E_ACUTE)
  = times 28 "x" +:+ times 72 E_ACUTE.
Proof. vm_compute. reflexivity. Qed.

Example substringTo_cuts_between_units :
  String_length ("a" +:+ GRINNING_FACE) = 3%nat
  /\ String_length (substringTo 2 ("a" +:+ GRINNING_FACE)) = 2%nat
  /\ substringTo 2 ("a" +:+ GRINNING_FACE) <> "a" +:+ GRINNING_FACE
  /\ substringTo 3 ("a" +:+ GRINNING_FACE) = "a" +:+ GRINNING_FACE.
Proof. repeat split; try (vm_compute; reflexivity). vm_compute. discriminate. Qed.

Example trim_strips_no_break_space :
  trim (" " +:+ NO_BREAK_SPACE +:+ "a b" +:+ NO_BREAK_SPACE +:+ LF) = "a b".
Proof. vm_compute. reflexivity. Qed.

Example codePoints_of_mixed_text :
  codePoints ("a" +:+ E_ACUTE +:+ GRINNING_FACE) = ["a"; E_ACUTE; GRINNING_FACE].
Proof. vm_compute. reflexivity. Qed.

Lemma Z_toString_inj (a b : Z) : Z_toString a = Z_toString b -> a = b.
Proof.
  unfold Z_toString. intros H. apply to_int_inj.
  pose proof (NilEmpty.isi (Z.to_int a)) as Ha.
  pose proof (NilEmpty.isi (Z.to_int b)) as Hb.
  rewrite H in Ha. congruence.
Qed.

Lemma fileName_inj (a b : Z) :
  ReportGenerator.fileName a = ReportGenerator.fileName b -> a = b.
Proof.
  unfold ReportGenerator.fileName. intros H.
  apply append_cancel_l, append_cancel_r in H. now apply Z_toString_inj.
Qed.

Lemma hasSlash_append (a b : string) : hasSlash (a +:+ b) = hasSlash a || hasSlash b.
Proof.
  induction a as [|c a IH]; [reflexivity|].
  rewrite append_cons. simpl. rewrite IH. now rewrite orb_assoc.
Qed.

Lemma hasSlash_uint (d : uint) : hasSlash (NilEmpty.string_of_uint d) = false.
Proof. induction d; simpl; auto. Qed.

Lemma hasSlash_Z_toString (z : Z) : hasSlash (Z_toString z) = false.
Proof.
  unfold Z_toString. destruct (Z.to_int z); simpl; apply hasSlash_uint.
Qed.

Lemma hasSlash_fileName (now : Z) : hasSlash (ReportGenerator.fileName now) = false.
Proof.
  unfold ReportGenerator.fileName.
  rewrite !hasSlash_append, hasSlash_Z_toString. reflexivity.
Qed.

Lemma segments_nonempty (p : string) : path.segments p <> [].
Proof.
  destruct p as [|c p]; simpl; [discriminate|].
  destruct (path.isSlash c); [discriminate|].
  destruct (path.segments p); discriminate.
Qed.

Lemma segments_plain (f : string) : hasSlash f = false -> path.segments f = [f].
Proof.
  induction f as [|c f IH]; simpl; [reflexivity|].
  intros H. apply orb_false_elim in H. destruct H as [Hc Hf].
  rewrite Hc, (IH Hf). reflexivity.
Qed.

Lemma segments_append (d f : string) :
  hasSlash f = false ->
  path.segments (d +:+ "/" +:+ f) = path.segments d ++ [f].
Proof.
  intros Hf. induction d as [|c d IH].
  - rewrite append_empty_l, append_cons, append_empty_l. simpl.
    now rewrite (segments_plain f Hf).
  - rewrite append_cons. cbn [path.segments]. rewrite IH.
    destruct (path.isSlash c); [reflexivity|].
    destruct (path.segments d) as [|seg rest] eqn:E; [now apply segments_nonempty in E|].
    reflexivity.
Qed.

Lemma concat_snoc (sep : string) (l : list string) (f : string) :
  String.concat sep (l ++ [f])
  = match l with
    | [] => f
    | _ => String.concat sep l +:+ sep +:+ f
    end.
Proof.
  induction l as [|x l IH]; [reflexivity|].
  destruct l as [|y l]; [reflexivity|].
  change (String.concat sep ((x :: y :: l) ++ [f]))
    with (x +:+ sep +:+ String.concat sep ((y :: l) ++ [f])).
  rewrite IH.
  change (String.concat sep (x :: y :: l))
    with (x +:+ sep +:+ String.concat sep (y :: l)).
  now rewrite !append_assoc.
Qed.

Lemma endsWithSlash_append (a f : string) :
  f <> "" -> path.endsWithSlash (a +:+ f) = path.endsWithSlash f.
Proof.
  intros Hf. induction a as [|c a IH]; [reflexivity|].
  rewrite append_cons. cbn [path.endsWithSlash]. rewrite IH.
  destruct (a +:+ f) eqn:E; [|reflexivity].
  destruct a; [now destruct Hf | discriminate E].
Qed.

Lemma endsWithSlash_plain (f : string) : hasSlash f = false -> path.endsWithSlash f = false.
Proof.
  induction f as [|c f IH]; [reflexivity|].
  simpl. intros H. apply orb_false_elim in H. destruct H as [Hc Hf].
  destruct f; [exact Hc | now apply IH].
Qed.

Lemma plainName_fileName (now : Z) : plainName (ReportGenerator.fileName now).
Proof. split; [apply hasSlash_fileName | repeat split]. Qed.

Lemma normalizeString_plain_last (joined f : string) (kept : list string) (b : bool) :
  plainName f ->
  path.segments joined = kept ++ [f] ->
  exists prefix,
    path.normalizeString joined b = prefix +:+ f
    /\ prefix = match rev (fold_left (path.keep b) kept []) with
                | [] => ""
                | l => String.concat "/" l +:+ "/"
                end.
Proof.
  intros (Hs & H0 & H1 & H2) Hseg. unfold path.normalizeString.
  rewrite Hseg, fold_left_app. cbn [fold_left].
  unfold path.keep at 1. rewrite H0, H1, H2. cbn [orb].
  cbn [rev]. rewrite concat_snoc. eexists. split; [|reflexivity].
  destruct (rev (fold_left (path.keep b) kept [])); [reflexivity|].
  now rewrite append_assoc.
Qed.

(** [path.join] of a directory and a file name is a prefix that the
    directory alone decides, followed by the file name. *)
Lemma join_plain (d : string) :
  exists prefix, forall f, plainName f -> path.join d f = prefix +:+ f.
Proof.
  destruct (String.eqb d "") eqn:Ed.
  - exists "". intros f Hf. pose proof Hf as (Hs & H0 & H1 & H2).
    apply String.eqb_eq in Ed. subst d.
    unfold path.join. simpl. rewrite H0. unfold path.normalize. rewrite H0.
    destruct (normalizeString_plain_last f f [] (negb (path.startsWithSlash f)) Hf
                (segments_plain f Hs)) as (prefix & E & Hp).
    simpl in Hp. subst prefix. rewrite append_empty_l in E. rewrite E, H0.
    rewrite (endsWithSlash_plain f Hs).
    destruct f as [|c f]; [discriminate H0|].
    simpl in Hs. apply orb_false_elim in Hs. destruct Hs as [Hc _].
    cbn [path.startsWithSlash]. rewrite Hc. reflexivity.
  - set (b := negb (path.startsWithSlash d)).
    exists ((if path.startsWithSlash d then "/" else "")
            +:+ match rev (fold_left (path.keep b) (path.segments d) []) with
                | [] => ""
                | l => String.concat "/" l +:+ "/"
                end).
    intros f Hf. pose proof Hf as (Hs & H0 & H1 & H2).
    unfold path.join. rewrite Ed, H0. cbv iota.
    assert (Hj : String.eqb (d +:+ "/" +:+ f) "" = false).
    { destruct d; [discriminate Ed | reflexivity]. }
    rewrite Hj. unfold path.normalize. rewrite Hj.
    assert (Hstart : path.startsWithSlash (d +:+ "/" +:+ f) = path.startsWithSlash d).
    { destruct d; [discriminate Ed | reflexivity]. }
    rewrite Hstart. fold b.
    destruct (normalizeString_plain_last (d +:+ "/" +:+ f) f (path.segments d) b Hf
                (segments_append d f Hs)) as (prefix & E & ->).
    rewrite E.
    assert (Hne : String.eqb
                    (match rev (fold_left (path.keep b) (path.segments d) []) with
                     | [] => ""
                     | l => String.concat "/" l +:+ "/"
                     end +:+ f) "" = false).
    { apply String.eqb_neq. intros Habs. apply (f_equal String.length) in Habs.
      rewrite length_append in Habs. destruct f; [discriminate H0 | simpl in Habs; lia]. }
    rewrite Hne.
    assert (Hend : path.endsWithSlash (d +:+ "/" +:+ f) = false).
    { rewrite <- append_assoc, endsWithSlash_append.
      - now apply endsWithSlash_plain.
      - intros ->. discriminate H0. }
    rewrite Hend. destruct (path.startsWithSlash d); simpl; reflexivity.
Qed.

Lemma join_fileName_inj (d : string) (a b : Z) :
  path.join d (ReportGenerator.fileName a) = path.join d (ReportGenerator.fileName b)
  -> a = b.
Proof.
  destruct (join_plain d) as (prefix & Hp).
  rewrite !Hp by apply plainName_fileName.
  intros H. apply append_cancel_l in H. now apply fileName_inj.
Qed.

(** [path.join] of a plain directory name and a plain file name. *)
Lemma join_plain_names (d f : string) :
  plainName d -> plainName f -> path.join d f = d +:+ "/" +:+ f.
Proof.
  intros (Ds & D0 & D1 & D2) Hf. pose proof Hf as (Fs & F0 & F1 & F2).
  unfold path.join. rewrite D0, F0.
  assert (Hj : String.eqb (d +:+ "/" +:+ f) "" = false).
  { destruct d; [discriminate D0 | reflexivity]. }
  rewrite Hj. unfold path.normalize. rewrite Hj.
  assert (Hstart : path.startsWithSlash (d +:+ "/" +:+ f) = false).
  { destruct d as [|c d]; [discriminate D0|]. simpl in Ds.
    apply orb_false_elim in Ds. destruct Ds as [Hc _]. exact Hc. }
  rewrite Hstart. cbn [negb].
  destruct (normalizeString_plain_last (d +:+ "/" +:+ f) f [d] true Hf) as (prefix & E & Hp).
  { rewrite segments_append by exact Fs. now rewrite (segments_plain d Ds). }
  cbn [fold_left] in Hp. unfold path.keep in Hp. rewrite D0, D1, D2 in Hp.
  cbn in Hp. subst prefix. rewrite E.
  assert (Hend : path.endsWithSlash (d +:+ "/" +:+ f) = false).
  { rewrite <- append_assoc, endsWithSlash_append.
    - now apply endsWithSlash_plain.
    - intros ->. discriminate F0. }
  rewrite Hend.
  assert (Hne : String.eqb ((d +:+ "/") +:+ f) "" = false).
  { destruct d; [discriminate D0 | reflexivity]. }
  rewrite Hne. apply append_assoc.
Qed.

(** ** The summary writer *)

(** [generateAllureReport] step by step: it rejects with the error of
    [mkdir] or of [writeFile], and otherwise returns the path it wrote
    the summary to. *)
Lemma generateAllureReport_run {S : Type} testResults outputDir env w (s : S) :
  exists w',
    ReportGenerator.generateAllureReport testResults outputDir env w s
    = ((match Env.mkdir env (default "pipeline-reports" outputDir) with
       | Thrown e => Thrown e
       | Returned _ =>
           match Env.writeFile env (reportPath env outputDir w) with
           | Thrown e => Thrown e
           | Returned _ => Returned (reportPath env outputDir w)
           end
       end) : Outcome string, w', s)
    /\ World.console w' = World.console w
    /\ match Env.mkdir env (default "pipeline-reports" outputDir),
             Env.writeFile env (reportPath env outputDir w) with
       | Returned _, Returned _ =>
           World.files w'
           = <[ reportPath env outputDir w
                := summaryOf (namingTime env outputDir w) testResults ]> (World.files w)
       | _, _ => World.files w' = World.files w
       end.
Proof.
  unfold reportPath, namingTime.
  cbv beta iota zeta delta [ReportGenerator.generateAllureReport fs_mkdir fs_writeFile
    bind io ask liftOutcome liftReply Date_now ret advance].
  cbn [World.clock World.files World.console World.dirs].
  destruct (Env.mkdir env (default "pipeline-reports" outputDir)) as [[]|e].
  - destruct (Env.writeFile env _) as [[]|e]; eexists; repeat split.
  - eexists; repeat split.
Qed.

(** C6, as the code has it: when [mkdir] and [writeFile] succeed, two
    calls with the same output directory return the same path exactly
    when the clock reads the same millisecond at the time they name
    their file; each call stores at its path a summary whose
    totalTests is the length of the list it was given, and leaves every
    other path as it was. *)
Theorem generateAllureReport_names_by_clock {S : Type}
  (first second : list TaskResult) (outputDir : option string)
  (env : Env) (wa wb : World) (s : S) :
  Env.mkdir env (default "pipeline-reports" outputDir) = Returned tt ->
  (forall p, Env.writeFile env p = Returned tt) ->
  exists p1 w1 p2 w2 summary1 summary2,
    ReportGenerator.generateAllureReport first outputDir env wa s = (Returned p1, w1, s)
    /\ ReportGenerator.generateAllureReport second outputDir env wb s
       = (Returned p2, w2, s)
    /\ (p1 = p2 <-> namingTime env outputDir wa = namingTime env outputDir wb)
    /\ World.files w1 !! p1 = Some summary1
    /\ Summary.totalTests summary1 = Z.of_nat (length first)
    /\ Summary.results summary1 = first
    /\ World.files w2 !! p2 = Some summary2
    /\ Summary.totalTests summary2 = Z.of_nat (length second)
    /\ Summary.results summary2 = second
    /\ (forall p, p <> p2 -> World.files w2 !! p = World.files wb !! p).
Proof.
  intros Hmk Hwr.
  destruct (generateAllureReport_run first outputDir env wa s) as (w1 & E1 & _ & F1).
  destruct (generateAllureReport_run second outputDir env wb s) as (w2 & E2 & _ & F2).
  rewrite Hmk, Hwr in E1, E2, F1, F2.
  exists (reportPath env outputDir wa), w1, (reportPath env outputDir wb), w2.
  exists (summaryOf (namingTime env outputDir wa) first),
         (summaryOf (namingTime env outputDir wb) second).
  split; [exact E1|]. split; [exact E2|]. split.
  { unfold reportPath. split.
    - apply join_fileName_inj.
    - now intros ->. }
  rewrite F1, F2. repeat split.
  - apply lookup_insert_eq.
  - apply lookup_insert_eq.
  - intros p Hp. now apply lookup_insert_ne.
Qed.

(** Two calls two milliseconds apart, where every operation takes one
    millisecond. *)
Lemma generateAllureReport_names_by_clock_witness :
  Env.mkdir tickEnv (default "pipeline-reports" None) = Returned tt
  /\ (forall p, Env.writeFile tickEnv p = Returned tt)
  /\ exists p1 w1 p2 w2 summary1 summary2,
       ReportGenerator.generateAllureReport [passedResult] None tickEnv world0 tt
       = (Returned p1, w1, tt)
       /\ ReportGenerator.generateAllureReport [passedResult; failedResult] None tickEnv
            (advance 2 world0) tt
          = (Returned p2, w2, tt)
       /\ (p1 = p2
           <-> namingTime tickEnv None world0 = namingTime tickEnv None (advance 2 world0))
       /\ World.files w1 !! p1 = Some summary1
       /\ Summary.totalTests summary1 = Z.of_nat (length [passedResult])
       /\ Summary.results summary1 = [passedResult]
       /\ World.files w2 !! p2 = Some summary2
       /\ Summary.totalTests summary2 = Z.of_nat (length [passedResult; failedResult])
       /\ Summary.results summary2 = [passedResult; failedResult]
       /\ (forall p, p <> p2 ->
           World.files w2 !! p = World.files (advance 2 world0) !! p).
Proof.
  split; [reflexivity|]. split; [intros p; reflexivity|].
  apply (generateAllureReport_names_by_clock [passedResult] [passedResult; failedResult]
           None tickEnv world0 (advance 2 world0) tt).
  - reflexivity.
  - intros p. reflexivity.
Defined.

(** C6, as stated, fails: two consecutive calls within one millisecond
    return the same path, and the summary of the second replaces that
    of the first. *)
Lemma generateAllureReport_same_millisecond_overwrites :
  exists w1 w2 summary1 summary2,
    ReportGenerator.generateAllureReport [passedResult] None calmEnv world0 tt
    = (Returned "pipeline-reports/allure-report-1700000000000.json", w1, tt)
    /\ ReportGenerator.generateAllureReport [passedResult; failedResult] None calmEnv w1 tt
       = (Returned "pipeline-reports/allure-report-1700000000000.json", w2, tt)
    /\ World.files w1 !! "pipeline-reports/allure-report-1700000000000.json"
       = Some summary1
    /\ World.files w2 !! "pipeline-reports/allure-report-1700000000000.json"
       = Some summary2
    /\ Summary.totalTests summary1 = 1
    /\ Summary.totalTests summary2 = 2
    /\ size (World.files w2) = 1%nat.
Proof.
  eexists _, _, _, _.
  split; [vm_compute; reflexivity|].
  split; [vm_compute; reflexivity|].
  split; [vm_compute; reflexivity|].
  split; [vm_compute; reflexivity|].
  split; [reflexivity|]. split; [reflexivity|]. vm_compute. reflexivity.
Qed.

Import MCPAgentOrchestrator.

(** ** The agent table of the orchestrator *)

Lemma lookupKey_storeKey_same {V} (key : string) (v v0 : V) table :
  lookupKey key table = Some v0 -> lookupKey key (storeKey key v table) = Some v.
Proof.
  induction table as [|[k x] table IH]; simpl; [discriminate|].
  destruct (String.eqb k key) eqn:E; simpl; rewrite E; auto.
Qed.

Lemma lookupKey_storeKey_other {V} (key other : string) (v : V) table :
  other <> key -> lookupKey other (storeKey key v table) = lookupKey other table.
Proof.
  intros Hne. induction table as [|[k x] table IH]; simpl; [reflexivity|].
  destruct (String.eqb k key) eqn:E; simpl.
  - apply String.eqb_eq in E. subst k.
    assert (String.eqb key other = false) as -> by (apply String.eqb_neq; congruence).
    reflexivity.
  - destruct (String.eqb k other); [reflexivity | exact IH].
Qed.

Lemma storeKey_keys {V} (key : string) (v : V) table :
  map fst (storeKey key v table) = map fst table.
Proof.
  induction table as [|[k x] table IH]; simpl; [reflexivity|].
  destruct (String.eqb k key); simpl; [reflexivity | now rewrite IH].
Qed.

Lemma storeKey_same_value {V} (key : string) (v : V) table :
  lookupKey key table = Some v -> storeKey key v table = table.
Proof.
  induction table as [|[k x] table IH]; simpl; [reflexivity|].
  destruct (String.eqb k key) eqn:E.
  - intros H. injection H as ->. reflexivity.
  - intros H. now rewrite IH.
Qed.

Lemma lookupKey_In {V} (key : string) (v : V) table :
  In (key, v) table -> exists v', lookupKey key table = Some v'.
Proof.
  induction table as [|[k x] table IH]; simpl; [tauto|].
  intros [H|H].
  - injection H as -> ->. rewrite String.eqb_refl. eauto.
  - destruct (String.eqb k key); eauto.
Qed.

Lemma sameWiring_refl o : sameWiring o o.
Proof. split; [reflexivity | intros; reflexivity]. Qed.

Lemma sameWiring_trans o1 o2 o3 : sameWiring o1 o2 -> sameWiring o2 o3 -> sameWiring o1 o3.
Proof. intros [a b] [c d]. split; [congruence | intros name; rewrite d; apply b]. Qed.

Lemma pushedOn_nil name o : pushedOn name [] o o.
Proof.
  split; [apply sameWiring_refl|]. split; [now rewrite app_nil_r | reflexivity].
Qed.

Lemma pushedOn_app name rs1 rs2 o o1 o2 :
  pushedOn name rs1 o o1 -> pushedOn name rs2 o1 o2 -> pushedOn name (rs1 ++ rs2) o o2.
Proof.
  intros (S1 & H1 & O1) (S2 & H2 & O2). split; [eapply sameWiring_trans; eassumption|].
  split.
  - now rewrite H2, H1, app_assoc.
  - intros other Hne. rewrite O2, O1 by exact Hne. reflexivity.
Qed.

Lemma sameWiring_registered o o' name :
  sameWiring o o' ->
  is_Some (lookupKey name (agents o)) -> is_Some (lookupKey name (agents o')).
Proof.
  intros [_ H] [x Hx]. specialize (H name). rewrite Hx in H.
  destruct (lookupKey name (agents o')); [eauto | discriminate H].
Qed.

Lemma pushedOn_other name rs o o' other :
  pushedOn name rs o o' -> other <> name -> historyOf other o' = historyOf other o.
Proof. intros (_ & _ & H) Hne. unfold historyOf. now rewrite H. Qed.

(** ** Dispatching tasks *)

(** The context that [processEvent] passes to the agents is plain
    data. *)
Lemma makeContext_plain event : plainContext (makeContext event).
Proof.
  intros key v H. unfold makeContext in H.
  repeat (apply lookup_insert_Some in H; destruct H as [[_ <-]|[_ H]]; [reflexivity|]).
  apply lookup_singleton_Some in H. destruct H as [_ <-]. reflexivity.
Qed.

Lemma callAgent_executeTask_run name task context env w orch :
  plainContext context ->
  is_Some (lookupKey name (agents orch)) ->
  exists r w' orch',
    callAgent name "executeTask" (AgentObject_executeTask task context) env w orch
    = (Returned r, w', orch')
    /\ terminal r
    /\ TaskResult.taskName r = task
    /\ quiet w w'
    /\ pushedOn name [r] orch orch'.
Proof.
  intros Hplain [o Ho].
  destruct (AgentObject_executeTask_plain task context env w o Hplain)
    as (r & wb & o' & Ex & Ht & Hn & Hh & Hc & Hq).
  exists r, wb, (mk (storeKey name o' (agents orch))).
  unfold callAgent. rewrite Ho, Ex. split; [reflexivity|].
  split; [exact Ht|]. split; [exact Hn|].
  split; [exact Hq|]. split; [split|split].
  - apply storeKey_keys.
  - intros n. cbn [agents]. destruct (String.eqb_spec n name) as [->|Hne].
    + rewrite (lookupKey_storeKey_same name o' o _ Ho), Ho. simpl. now rewrite Hc.
    + now rewrite lookupKey_storeKey_other.
  - unfold historyOf. cbn [agents].
    now rewrite (lookupKey_storeKey_same name o' o _ Ho), Ho.
  - intros other Hne. cbn [agents]. now apply lookupKey_storeKey_other.
Qed.

Lemma dispatch_run event name acc task env w orch :
  is_Some (lookupKey name (agents orch)) ->
  exists r w' orch',
    dispatch event name acc task env w orch = (Returned (acc ++ [r]), w', orch')
    /\ terminal r
    /\ TaskResult.taskName r = task
    /\ World.console w' = World.console w ++ [dispatchLine name task]
    /\ World.dirs w' = World.dirs w
    /\ World.files w' = World.files w
    /\ pushedOn name [r] orch orch'.
Proof.
  intros Hreg.
  set (w1 := World.mk (World.clock w) (World.dirs w) (World.files w)
               (World.console w ++ [dispatchLine name task])).
  destruct (callAgent_executeTask_run name task (makeContext event) env w1 orch
              (makeContext_plain event) Hreg)
    as (r & w' & orch' & E & Ht & Hn & (Hq1 & Hq2 & Hq3) & Hp).
  exists r, w', orch'.
  unfold dispatch, bind, console_log. fold (dispatchLine name task). fold w1.
  rewrite E. repeat split; trivial; try apply Hp.
Qed.

Lemma runAgentTasks_run event name env tasks : forall acc w orch,
  is_Some (lookupKey name (agents orch)) ->
  exists rs w' orch',
    runAgentTasks event name tasks acc env w orch = (Returned (acc ++ rs), w', orch')
    /\ map TaskResult.taskName rs = tasks
    /\ Forall terminal rs
    /\ World.console w' = World.console w ++ map (dispatchLine name) tasks
    /\ World.dirs w' = World.dirs w
    /\ World.files w' = World.files w
    /\ pushedOn name rs orch orch'.
Proof.
  unfold runAgentTasks.
  induction tasks as [|task tasks IH]; intros acc w orch Hreg.
  - exists [], w, orch. simpl. rewrite !app_nil_r.
    repeat split; try constructor; try apply pushedOn_nil.
  - destruct (dispatch_run event name acc task env w orch Hreg)
      as (r & w1 & orch1 & E1 & Ht1 & Hn1 & Hc1 & Hd1 & Hf1 & Hp1).
    assert (Hreg1 : is_Some (lookupKey name (agents orch1))).
    { eapply sameWiring_registered; [apply Hp1 | exact Hreg]. }
    destruct (IH (acc ++ [r]) w1 orch1 Hreg1)
      as (rs & w' & orch' & E & Hn & Ht & Hc & Hd & Hf & Hp).
    exists (r :: rs), w', orch'.
    cbn [forOf]. unfold bind at 1. rewrite E1, E, <- app_assoc.
    split; [reflexivity|]. split; [simpl; congruence|].
    split; [now constructor|].
    split; [rewrite Hc, Hc1, <- app_assoc; reflexivity|].
    split; [congruence|]. split; [congruence|].
    apply (pushedOn_app name [r] rs orch orch1 orch'); assumption.
Qed.

Lemma two_results (rs : list TaskResult) (t1 t2 : string) :
  map TaskResult.taskName rs = [t1; t2] ->
  exists r1 r2,
    rs = [r1; r2] /\ TaskResult.taskName r1 = t1 /\ TaskResult.taskName r2 = t2.
Proof.
  destruct rs as [|r1 [|r2 [|r3 rs]]]; simpl; intros H; try discriminate H.
  injection H as H1 H2. eauto.
Qed.

Lemma runTasks_run event env w orch :
  registeredAll orch ->
  exists r1 r2 r3 r4 r5 r6 w' orch',
    runTasks event (getTasksForEvent event) env w orch
    = (Returned [r1; r2; r3; r4; r5; r6], w', orch')
    /\ map TaskResult.taskName [r1; r2; r3; r4; r5; r6] = taskNames
    /\ Forall terminal [r1; r2; r3; r4; r5; r6]
    /\ World.console w' = World.console w ++ dispatchLines
    /\ World.dirs w' = World.dirs w
    /\ World.files w' = World.files w
    /\ sameWiring orch orch'
    /\ historyOf "api_agent" orch' = historyOf "api_agent" orch ++ [r1; r2]
    /\ historyOf "mobile_agent" orch' = historyOf "mobile_agent" orch ++ [r3; r4]
    /\ historyOf "wiremock_agent" orch' = historyOf "wiremock_agent" orch ++ [r5; r6].
Proof.
  intros (Ha & Hm & Hk). rewrite getTasksForEvent_table. unfold runTasks.
  cbn [forOf].
  destruct (runAgentTasks_run event "api_agent" env ["postman_tests"; "api_validation"]
              [] w orch Ha)
    as (rs1 & w1 & o1 & E1 & N1 & T1 & C1 & D1 & F1 & P1).
  assert (Hm1 : is_Some (lookupKey "mobile_agent" (agents o1)))
    by (eapply sameWiring_registered; [apply P1 | exact Hm]).
  destruct (runAgentTasks_run event "mobile_agent" env ["appium_tests"; "webdriver_tests"]
              ([] ++ rs1) w1 o1 Hm1)
    as (rs2 & w2 & o2 & E2 & N2 & T2 & C2 & D2 & F2 & P2).
  assert (Hk2 : is_Some (lookupKey "wiremock_agent" (agents o2))).
  { eapply sameWiring_registered; [apply P2|].
    eapply sameWiring_registered; [apply P1 | exact Hk]. }
  destruct (runAgentTasks_run event "wiremock_agent" env ["wiremock_tests"; "wiremock_tests"]
              (([] ++ rs1) ++ rs2) w2 o2 Hk2)
    as (rs3 & w3 & o3 & E3 & N3 & T3 & C3 & D3 & F3 & P3).
  destruct (two_results rs1 _ _ N1) as (r1 & r2 & -> & n1 & n2).
  destruct (two_results rs2 _ _ N2) as (r3 & r4 & -> & n3 & n4).
  destruct (two_results rs3 _ _ N3) as (r5 & r6 & -> & n5 & n6).
  exists r1, r2, r3, r4, r5, r6, w3, o3.
  unfold bind. rewrite E1. cbv beta iota. rewrite E2. cbv beta iota. rewrite E3.
  split; [reflexivity|].
  split; [simpl; unfold taskNames; congruence|].
  split.
  { change [r1; r2; r3; r4; r5; r6] with ([r1; r2] ++ [r3; r4] ++ [r5; r6]).
    rewrite !Forall_app. auto. }
  split; [rewrite C3, C2, C1, <- !app_assoc; reflexivity|].
  split; [congruence|]. split; [congruence|].
  split.
  { eapply sameWiring_trans; [apply P1|].
    eapply sameWiring_trans; [apply P2 | apply P3]. }
  split; [|split].
  - rewrite (pushedOn_other _ _ _ _ "api_agent" P3) by discriminate.
    rewrite (pushedOn_other _ _ _ _ "api_agent" P2) by discriminate.
    apply P1.
  - rewrite (pushedOn_other _ _ _ _ "mobile_agent" P3) by discriminate.
    destruct P2 as (_ & -> & _).
    now rewrite (pushedOn_other _ _ _ _ "mobile_agent" P1) by discriminate.
  - destruct P3 as (_ & -> & _).
    rewrite (pushedOn_other _ _ _ _ "wiremock_agent" P2) by discriminate.
    now rewrite (pushedOn_other _ _ _ _ "wiremock_agent" P1) by discriminate.
Qed.

(** ** Gathering the reports *)

Lemma callAgent_generateReport_run name env w orch o :
  lookupKey name (agents orch) = Some o ->
  callAgent name "generateReport" AgentObject_generateReport env w orch
  = (Returned (reportFor o), w, orch).
Proof.
  intros Ho. unfold callAgent. rewrite Ho, AgentObject_generateReport_run.
  rewrite (storeKey_same_value name o _ Ho). now destruct orch.
Qed.

Lemma collectReports_run env w orch entries : forall acc,
  (forall entry, In entry entries -> is_Some (lookupKey (fst entry) (agents orch))) ->
  exists reports,
    forOf entries acc collectReport env w orch = (Returned (acc ++ reports), w, orch)
    /\ reportsFor orch entries reports.
Proof.
  induction entries as [|[name o0] entries IH]; intros acc Hreg.
  - exists []. simpl. rewrite app_nil_r. split; [reflexivity | constructor].
  - destruct (Hreg (name, o0) (or_introl eq_refl)) as [o Ho]. simpl in Ho.
    destruct (IH (acc ++ [(name, reportFor o)])) as (reports & E & HF).
    { intros entry Hin. apply Hreg. now right. }
    exists ((name, reportFor o) :: reports).
    cbn [forOf]. unfold bind at 1. unfold collectReport at 1. unfold bind at 1.
    rewrite (callAgent_generateReport_run name env w orch o Ho).
    unfold ret at 1. rewrite E, <- app_assoc. split; [reflexivity|].
    constructor; [|exact HF]. split; [reflexivity|]. exists o. now split.
Qed.

Lemma agents_registered orch entry :
  In entry (agents orch) -> is_Some (lookupKey (fst entry) (agents orch)).
Proof.
  destruct entry as [name o]. intros Hin.
  destruct (lookupKey_In name o _ Hin) as [o' Ho']. now exists o'.
Qed.

(** ** One pipeline run *)

Lemma syncWithZephyrJira_run {S : Type} testResults env w (s : S) :
  exists w',
    ReportGenerator.syncWithZephyrJira testResults env w s
    = (Returned (syncMessage testResults), w', s)
    /\ World.console w' = World.console w
    /\ World.files w' = World.files w.
Proof.
  unfold ReportGenerator.syncWithZephyrJira, ReportGenerator.delay, bind, sleep,
    syncMessage.
  eexists.
  destruct (negb (length (List.filter (hasStatus FAILED) testResults) =? 0)%nat);
    repeat split.
Qed.

(** What [processEvent] does, for an orchestrator in which the three
    names of the task table are registered: the six tasks run, each to
    a terminal result; then the outcome is that of writing the summary. *)
Lemma processEvent_run event env w orch :
  registeredAll orch ->
  exists r1 r2 r3 r4 r5 r6 w6 wf orch' reports,
    processEvent event env w orch
    = ((match Env.mkdir env "pipeline-reports" with
       | Thrown e => Thrown e
       | Returned _ =>
           match Env.writeFile env (reportPath env None w6) with
           | Thrown e => Thrown e
           | Returned _ =>
               Returned
                 (PipelineResult.mk event [r1; r2; r3; r4; r5; r6] reports
                    [reportPath env None w6; syncMessage [r1; r2; r3; r4; r5; r6]]
                    (getPipelineStatus [r1; r2; r3; r4; r5; r6]))
           end
       end) : Outcome PipelineResult, wf, orch')
    /\ map TaskResult.taskName [r1; r2; r3; r4; r5; r6] = taskNames
    /\ Forall terminal [r1; r2; r3; r4; r5; r6]
    /\ World.console wf = World.console w ++ processingLine event :: dispatchLines
    /\ sameWiring orch orch'
    /\ historyOf "api_agent" orch' = historyOf "api_agent" orch ++ [r1; r2]
    /\ historyOf "mobile_agent" orch' = historyOf "mobile_agent" orch ++ [r3; r4]
    /\ historyOf "wiremock_agent" orch' = historyOf "wiremock_agent" orch ++ [r5; r6]
    /\ reportsFor orch' (agents orch') reports.
Proof.
  intros Hreg.
  set (w0 := World.mk (World.clock w) (World.dirs w) (World.files w)
               (World.console w ++ [processingLine event])).
  destruct (runTasks_run event env w0 orch Hreg)
    as (r1 & r2 & r3 & r4 & r5 & r6 & w6 & orch' & E & Hn & Ht & Hc & _ & _
        & Hs & Ha & Hm & Hk).
  set (rs := [r1; r2; r3; r4; r5; r6]) in *.
  destruct (generateAllureReport_run rs None env w6 orch') as (w7 & E7 & Hc7 & _).
  destruct (collectReports_run env w7 orch' (agents orch') [])
    as (reports0 & Er0 & Hr0); [apply agents_registered|].
  assert (Hc6 : World.console w6 = World.console w ++ processingLine event :: dispatchLines).
  { rewrite Hc. unfold w0. cbn [World.console]. now rewrite <- app_assoc. }
  exists r1, r2, r3, r4, r5, r6, w6.
  unfold processEvent. unfold bind at 1. unfold console_log at 1.
  fold (processingLine event). fold w0.
  unfold bind at 1. rewrite E. fold rs.
  unfold bind at 1. unfold Promise_all. unfold bind at 1. rewrite E7.
  cbn [default].
  destruct (Env.mkdir env "pipeline-reports") as [[]|e].
  2:{ exists w7, orch', reports0.
      repeat (split; [first [reflexivity | assumption | congruence]|]).
      assumption. }
  destruct (Env.writeFile env (reportPath env None w6)) as [[]|e].
  2:{ exists w7, orch', reports0.
      repeat (split; [first [reflexivity | assumption | congruence]|]).
      assumption. }
  destruct (syncWithZephyrJira_run rs env w7 orch') as (w8 & E8 & Hc8 & _).
  destruct (collectReports_run env w8 orch' (agents orch') [])
    as (reports & Er & Hr); [apply agents_registered|].
  exists w8, orch', reports.
  unfold bind at 1. rewrite E8. unfold ret at 1. cbv beta iota.
  unfold bind at 1. unfold this at 1. unfold bind at 1. rewrite Er.
  repeat (split; [first [reflexivity | assumption | congruence]|]).
  assumption.
Qed.

Lemma wired_registered a m k : registeredAll (wired a m k).
Proof. repeat split; eexists; reflexivity. Qed.

(** C4, as the code has it: in every environment the six scheduled
    tasks are dispatched, in order, each to a result whose status is
    COMPLETED or FAILED, whatever the outcome of the earlier ones. Then
    [processEvent] rejects with the error of [mkdir] when the report
    directory cannot be made, rejects with the error of [writeFile] when
    the summary cannot be written to its path
    'pipeline-reports/allure-report-<ms>.json', and returns the
    assembled result, which names that path, in the one case that is
    left. *)
Theorem processEvent_fail_soft (event : CIPipelineEvent) (env : Env) (w : World)
  (a : APIAgent.t) (m : MobileAgent.t) (k : WireMockAgent.t) :
  exists r1 r2 r3 r4 r5 r6 outcome w' orch' now,
    processEvent event env w (wired a m k) = (outcome, w', orch')
    /\ World.console w' = World.console w ++ processingLine event :: dispatchLines
    /\ map TaskResult.taskName [r1; r2; r3; r4; r5; r6] = taskNames
    /\ Forall terminal [r1; r2; r3; r4; r5; r6]
    /\ historyOf "api_agent" orch' = APIAgent.testResults a ++ [r1; r2]
    /\ historyOf "mobile_agent" orch' = MobileAgent.testResults m ++ [r3; r4]
    /\ historyOf "wiremock_agent" orch' = WireMockAgent.testResults k ++ [r5; r6]
    /\ match Env.mkdir env "pipeline-reports" with
       | Thrown e => outcome = Thrown e
       | Returned _ =>
           match Env.writeFile env
                   ("pipeline-reports/allure-report-" +:+ Z_toString now +:+ ".json") with
           | Thrown e => outcome = Thrown e
           | Returned _ =>
               exists result message,
                 outcome = Returned result
                 /\ PipelineResult.taskResults result = [r1; r2; r3; r4; r5; r6]
                 /\ PipelineResult.pipelineStatus result
                    = getPipelineStatus [r1; r2; r3; r4; r5; r6]
                 /\ PipelineResult.generatedReports result
                    = ["pipeline-reports/allure-report-" +:+ Z_toString now +:+ ".json";
                       message]
           end
       end.
Proof.
  destruct (processEvent_run event env w (wired a m k) (wired_registered a m k))
    as (r1 & r2 & r3 & r4 & r5 & r6 & w6 & wf & orch' & reports
        & E & Hn & Ht & Hc & _ & Ha & Hm & Hk & _).
  exists r1, r2, r3, r4, r5, r6. eexists. exists wf, orch', (namingTime env None w6).
  split; [exact E|]. split; [exact Hc|]. split; [exact Hn|]. split; [exact Ht|].
  split; [exact Ha|]. split; [exact Hm|]. split; [exact Hk|].
  assert (Hpath : reportPath env None w6
                  = "pipeline-reports/allure-report-"
                    +:+ Z_toString (namingTime env None w6) +:+ ".json").
  { unfold reportPath. cbn [default].
    rewrite (join_plain_names "pipeline-reports" _ ltac:(repeat split)
               (plainName_fileName _)).
    reflexivity. }
  rewrite <- Hpath.
  destruct (Env.mkdir env "pipeline-reports") as [[]|e]; [|reflexivity].
  destruct (Env.writeFile env (reportPath env None w6)) as [[]|e]; [|reflexivity].
  eexists _, _. repeat split.
Qed.

(** C4, as stated, fails: on a full disk the six tasks run and then
    [processEvent] rejects with the error of [writeFile]. *)
Lemma processEvent_rejects_when_disk_full :
  exists w' orch',
    processEvent ciEvent diskFullEnv world0 MCPAgentOrchestrator.new
    = (Thrown (Printable (JsError "ENOSPC: no space left on device, write")), w', orch').
Proof. eexists _, _. vm_compute. reflexivity. Qed.

(** C10: with the agents wired as the constructor wires them,
    [processEvent] dispatches six tasks, in the order postman_tests and
    api_validation on api_agent, appium_tests and webdriver_tests on
    mobile_agent, then wiremock_tests twice on wiremock_agent; each
    agent's history grows by the two results of its own tasks; and a
    returned PipelineResult lists the six results in that order. *)
Theorem processEvent_dispatches_six (event : CIPipelineEvent) (env : Env) (w : World)
  (a : APIAgent.t) (m : MobileAgent.t) (k : WireMockAgent.t) :
  exists r1 r2 r3 r4 r5 r6 outcome w' orch',
    processEvent event env w (wired a m k) = (outcome, w', orch')
    /\ World.console w'
       = World.console w ++
         [processingLine event;
          "[MCPAgentOrchestrator] Executing postman_tests on api_agent";
          "[MCPAgentOrchestrator] Executing api_validation on api_agent";
          "[MCPAgentOrchestrator] Executing appium_tests on mobile_agent";
          "[MCPAgentOrchestrator] Executing webdriver_tests on mobile_agent";
          "[MCPAgentOrchestrator] Executing wiremock_tests on wiremock_agent";
          "[MCPAgentOrchestrator] Executing wiremock_tests on wiremock_agent"]
    /\ map TaskResult.taskName [r1; r2; r3; r4; r5; r6]
       = ["postman_tests"; "api_validation"; "appium_tests"; "webdriver_tests";
          "wiremock_tests"; "wiremock_tests"]
    /\ historyOf "api_agent" orch' = APIAgent.testResults a ++ [r1; r2]
    /\ historyOf "mobile_agent" orch' = MobileAgent.testResults m ++ [r3; r4]
    /\ historyOf "wiremock_agent" orch' = WireMockAgent.testResults k ++ [r5; r6]
    /\ (forall result,
          outcome = Returned result ->
          PipelineResult.taskResults result = [r1; r2; r3; r4; r5; r6]
          /\ length (PipelineResult.taskResults result) = 6%nat)
    /\ (Env.mkdir env "pipeline-reports" = Returned tt ->
        (forall p, Env.writeFile env p = Returned tt) ->
        exists result, outcome = Returned result).
Proof.
  destruct (processEvent_run event env w (wired a m k) (wired_registered a m k))
    as (r1 & r2 & r3 & r4 & r5 & r6 & w6 & wf & orch' & reports
        & E & Hn & Ht & Hc & _ & Ha & Hm & Hk & _).
  exists r1, r2, r3, r4, r5, r6. eexists. exists wf, orch'.
  split; [exact E|]. split; [exact Hc|]. split; [exact Hn|].
  split; [exact Ha|]. split; [exact Hm|]. split; [exact Hk|]. split.
  - intros result Hres.
    destruct (Env.mkdir env "pipeline-reports") as [[]|e]; [|discriminate Hres].
    destruct (Env.writeFile env (reportPath env None w6)) as [[]|e];
      [|discriminate Hres].
    injection Hres as <-. split; reflexivity.
  - intros Hmk Hw. rewrite Hmk, Hw. eexists. reflexivity.
Qed.

(** ** Task by task *)

Lemma world_eta (w : World) :
  World.mk (World.clock w) (World.dirs w) (World.files w) (World.console w) = w.
Proof. now destruct w. Qed.

Lemma afterTimers_zero env ms w : afterTimers env ms 0 w = w.
Proof.
  unfold afterTimers. rewrite <- (world_eta w) at 5. f_equal. simpl. lia.
Qed.

Lemma afterTimers_succ env ms n w :
  afterTimers env ms n
    (advance (Env.elapsed env (IoTimer ms))
       (World.mk (World.clock w + ms) (World.dirs w) (World.files w) (World.console w)))
  = afterTimers env ms (S n) w.
Proof. unfold afterTimers, advance. cbn [World.clock World.dirs World.files World.console]. f_equal. lia. Qed.

(** A loop that waits [ms] milliseconds and pushes one line per item. *)
Lemma forOf_sleep_lines {S A} (ms : Z) (line : A -> string) (items : list A) :
  forall acc env w (s : S),
    forOf items acc (fun results x => bind (sleep ms) (fun _ => ret (results ++ [line x])))
      env w s
    = (Returned (acc ++ map line items), afterTimers env ms (length items) w, s).
Proof.
  induction items as [|x items IH]; intros acc env w s.
  - simpl. now rewrite app_nil_r, afterTimers_zero.
  - cbn [forOf]. unfold bind at 1. unfold bind at 1. unfold sleep at 1. unfold ret at 1.
    rewrite IH. cbn [map length]. rewrite afterTimers_succ, <- app_assoc. reflexivity.
Qed.



(** What [context.key || fallback] is. *)
Lemma js_or_falsy context key fallback :
  falsy (context !! key) -> js_or (prop context key) fallback = fallback.
Proof.
  unfold prop. destruct (context !! key) as [[| |[]|[|c s]|elems| |[] it conv]|];
    intros H; try destruct H; reflexivity.
Qed.

Lemma js_or_string context key fallback text :
  context !! key = Some (JsString text) -> text <> "" ->
  js_or (prop context key) fallback = JsString text.
Proof.
  intros E Hne. unfold prop. rewrite E. cbn [default]. unfold id, js_or, truthy.
  destruct (String.eqb_spec text ""); [contradiction | reflexivity].
Qed.



(** X1: [executeTask('postman_tests')] of the API agent, for a
    [collectionPath] that is absent or falsy (the collection is then
    'api_tests.json') or a string that is not empty: the shell runs
    [echo "Pretend running: newman run <collection>"]. When it answers,
    the result is COMPLETED; its output is 'Postman tests simulated: ',
    the first 100 UTF-16 code units of the answer with white space
    trimmed at both ends, and '...', hence at most 128 code units; and
    the collection is recorded in [postmanCollections]. When the shell
    throws, the result is FAILED with the error 'Postman tests
    failed: ' followed by the message of the [Error] (or by the
    rendering of another thrown value), and nothing is recorded. *)
Theorem postman_tests_outcome (context : gmap string JsValue) (env : Env) (w : World)
  (a : APIAgent.t) (collection : string) :
  falsy (context !! "collectionPath") /\ collection = "api_tests.json"
  \/ context !! "collectionPath" = Some (JsString collection) /\ collection <> "" ->
  exists r w' a',
    APIAgent.executeTask "postman_tests" context env w a = (Returned r, w', a')
    /\ match Env.execSync env (newmanCommand collection) with
       | Returned shellOutput =>
           TaskResult.status r = COMPLETED
           /\ TaskResult.output r
              = "Postman tests simulated: " +:+ trim (substringTo 100 shellOutput) +:+ "..."
           /\ (String_length (TaskResult.output r) <= 128)%nat
           /\ APIAgent.postmanCollections a'
              = APIAgent.postmanCollections a ++ [JsString collection]
       | Thrown (JsError message) =>
           TaskResult.status r = FAILED
           /\ TaskResult.error r = Some ("Postman tests failed: " +:+ message)
           /\ APIAgent.postmanCollections a' = APIAgent.postmanCollections a
       | Thrown (JsThrown text) =>
           TaskResult.status r = FAILED
           /\ TaskResult.error r = Some ("Postman tests failed: " +:+ text)
           /\ APIAgent.postmanCollections a' = APIAgent.postmanCollections a
       end.
Proof.
  intros Hshape.
  assert (Hcoll : js_or (prop context "collectionPath") (JsString "api_tests.json")
                  = JsString collection).
  { destruct Hshape as [[Hf ->]|[E Hne]];
      [now apply js_or_falsy | now apply js_or_string]. }
  rewrite APIAgent_executeTask_run.
  unfold APIAgent.taskBody. cbn [String.eqb Ascii.eqb Bool.eqb].
  unfold APIAgent.runPostmanTests. rewrite Hcoll. unfold newmanCommand.
  cbv beta iota zeta delta [tryCatch bind execSync io ask liftOutcome liftReply update ret
    throw ToString messageOf errorMessage].
  destruct (Env.execSync env _) as [shellOutput|[message|text]].
  - eexists _, _, _. split; [reflexivity|]. cbn.
    repeat split.
    rewrite !String_length_append.
    pose proof (String_length_trim (substringTo 100 shellOutput)).
    pose proof (String_length_substringTo 100 shellOutput).
    change (String_length "Postman tests simulated: ") with 25%nat.
    change (String_length "...") with 3%nat. lia.
  - eexists _, _, _. split; [reflexivity|]. cbn. repeat split.
  - eexists _, _, _. split; [reflexivity|]. cbn. repeat split.
Qed.

(** A collection of 80 U+00E9: the shell echoes the command, and the
    output keeps the 28 characters before the collection and 72 of the
    80. *)
Lemma postman_tests_outcome_witness :
  exists r w' a',
    APIAgent.executeTask "postman_tests"
      {[ "collectionPath" := JsString (times 80 E_ACUTE) ]} calmEnv world0 APIAgent.new
    = (Returned r, w', a')
    /\ TaskResult.status r = COMPLETED
    /\ TaskResult.output r
       = "Postman tests simulated: Pretend running: newman run " +:+ times 72 E_ACUTE +:+ "..."
    /\ String_length (TaskResult.output r) = 128%nat
    /\ APIAgent.postmanCollections a' = [JsString (times 80 E_ACUTE)].
Proof.
  destruct (postman_tests_outcome {[ "collectionPath" := JsString (times 80 E_ACUTE) ]}
              calmEnv world0 APIAgent.new (times 80 E_ACUTE))
    as (r & w' & a' & E & H).
  { right. split; [reflexivity | discriminate]. }
  exists r, w', a'. split; [exact E|].
  change (Env.execSync calmEnv (newmanCommand (times 80 E_ACUTE)))
    with (@Returned JsExn string (echoed (newmanCommand (times 80 E_ACUTE)))) in H.
  cbv iota in H. destruct H as (H1 & H2 & _ & H4).
  split; [exact H1|]. split; [rewrite H2; vm_compute; reflexivity|].
  split; [rewrite H2; vm_compute; reflexivity | exact H4].
Defined.





(** X4: [executeTask('appium_tests')] of the mobile agent cannot fail: it
    reads no context, writes one line per device of the agent 100 ms
    apart, and leaves the device list as it was. *)
Theorem appium_tests_always_complete (context : gmap string JsValue) (env : Env)
  (w : World) (a : MobileAgent.t) :
  exists r a',
    MobileAgent.executeTask "appium_tests" context env w a
    = (Returned r, afterTimers env 100 (length (MobileAgent.devices a)) w, a')
    /\ TaskResult.status r = COMPLETED
    /\ TaskResult.error r = None
    /\ TaskResult.output r
       = "Appium tests completed:" +:+ LF
         +:+ String.concat LF (map deviceLine (MobileAgent.devices a))
    /\ MobileAgent.devices a' = MobileAgent.devices a.
Proof.
  rewrite MobileAgent_executeTask_run.
  unfold MobileAgent.taskBody. cbn [String.eqb Ascii.eqb Bool.eqb].
  unfold MobileAgent.runAppiumTests.
  unfold bind at 1. unfold this at 1. unfold bind at 1.
  pose proof (forOf_sleep_lines 100 deviceLine (MobileAgent.devices a) [] env w a) as Eloop.
  cbv beta delta [deviceLine] in Eloop. rewrite Eloop. clear Eloop.
  unfold ret at 1. cbn [app].
  eexists _, _. split; [reflexivity|]. cbn. repeat split.
Qed.



(** X6: [executeTask('wiremock_tests')] of the WireMock agent, for a
    [collectionPath] that is absent or falsy (the collection is then
    'get-user.json') or a string that is not empty: the shell runs
    [echo "Pretend running: wiremock run <collection>"]. When it
    answers, the result is COMPLETED; its output is 'Wiremock tests
    simulated: ', the first 100 UTF-16 code units of the answer with
    white space trimmed at both ends, and '...', hence at most 129 code
    units; and the collection is recorded in [wiremocks]. When the
    shell throws, the result is FAILED with the error 'Wiremock tests
    failed: ' followed by the message of the [Error] (or by the
    rendering of another thrown value), and nothing is recorded. *)
Theorem wiremock_tests_outcome (context : gmap string JsValue) (env : Env) (w : World)
  (a : WireMockAgent.t) (collection : string) :
  falsy (context !! "collectionPath") /\ collection = "get-user.json"
  \/ context !! "collectionPath" = Some (JsString collection) /\ collection <> "" ->
  exists r w' a',
    WireMockAgent.executeTask "wiremock_tests" context env w a = (Returned r, w', a')
    /\ match Env.execSync env (wiremockRunCommand collection) with
       | Returned shellOutput =>
           TaskResult.status r = COMPLETED
           /\ TaskResult.output r
              = "Wiremock tests simulated: " +:+ trim (substringTo 100 shellOutput) +:+ "..."
           /\ (String_length (TaskResult.output r) <= 129)%nat
           /\ WireMockAgent.wiremocks a'
              = WireMockAgent.wiremocks a ++ [JsString collection]
       | Thrown (JsError message) =>
           TaskResult.status r = FAILED
           /\ TaskResult.error r = Some ("Wiremock tests failed: " +:+ message)
           /\ WireMockAgent.wiremocks a' = WireMockAgent.wiremocks a
       | Thrown (JsThrown text) =>
           TaskResult.status r = FAILED
           /\ TaskResult.error r = Some ("Wiremock tests failed: " +:+ text)
           /\ WireMockAgent.wiremocks a' = WireMockAgent.wiremocks a
       end.
Proof.
  intros Hshape.
  assert (Hcoll : js_or (prop context "collectionPath") (JsString "get-user.json")
                  = JsString collection).
  { destruct Hshape as [[Hf ->]|[E Hne]];
      [now apply js_or_falsy | now apply js_or_string]. }
  rewrite WireMockAgent_executeTask_run.
  unfold WireMockAgent.taskBody. cbn [String.eqb Ascii.eqb Bool.eqb].
  unfold WireMockAgent.runWiremockTests. rewrite Hcoll. unfold wiremockRunCommand.
  cbv beta iota zeta delta [tryCatch bind execSync io ask liftOutcome liftReply update ret
    throw ToString messageOf errorMessage].
  destruct (Env.execSync env _) as [shellOutput|[message|text]].
  - eexists _, _, _. split; [reflexivity|]. cbn.
    repeat split.
    rewrite !String_length_append.
    pose proof (String_length_trim (substringTo 100 shellOutput)).
    pose proof (String_length_substringTo 100 shellOutput).
    change (String_length "Wiremock tests simulated: ") with 26%nat.
    change (String_length "...") with 3%nat. lia.
  - eexists _, _, _. split; [reflexivity|]. cbn. repeat split.
  - eexists _, _, _. split; [reflexivity|]. cbn. repeat split.
Qed.

(** No context: the shell echoes the command for 'get-user.json', and
    the line feed that ends its output is trimmed. *)
Lemma wiremock_tests_outcome_witness :
  exists r w' a',
    WireMockAgent.executeTask "wiremock_tests" ∅ calmEnv world0 WireMockAgent.new
    = (Returned r, w', a')
    /\ TaskResult.status r = COMPLETED
    /\ TaskResult.output r
       = "Wiremock tests simulated: Pretend running: wiremock run get-user.json..."
    /\ WireMockAgent.wiremocks a' = [JsString "get-user.json"].
Proof.
  destruct (wiremock_tests_outcome ∅ calmEnv world0 WireMockAgent.new "get-user.json")
    as (r & w' & a' & E & H).
  { left. split; [exact I | reflexivity]. }
  exists r, w', a'. split; [exact E|].
  change (Env.execSync calmEnv (wiremockRunCommand "get-user.json"))
    with (@Returned JsExn string (echoed (wiremockRunCommand "get-user.json"))) in H.
  cbv iota in H. destruct H as (H1 & H2 & _ & H4).
  split; [exact H1|]. split; [rewrite H2; vm_compute; reflexivity | exact H4].
Defined.

(** X7: without [HEADSPIN_API_TOKEN] or [HEADSPIN_UDID] in the
    environment (unset or empty), the HeadSpin smoke test is FAILED with
    'Missing HeadSpin credentials or device info in .env'; the device
    cloud is not contacted and no time passes. *)
Theorem headspin_missing_credentials (context : gmap string JsValue) (env : Env)
  (w : World) (a : HeadSpinAgent.t) :
  HeadSpinAgent.absent (headSpinToken env) || HeadSpinAgent.absent (headSpinUdid env) = true ->
  exists r,
    HeadSpinAgent.executeTask "headspin_ios_smoke" context env w a
    = (Returned r, w, HeadSpinAgent.testResults_push r a)
    /\ TaskResult.status r = FAILED
    /\ TaskResult.error r = Some "Missing HeadSpin credentials or device info in .env".
Proof.
  intros Hmissing.
  rewrite HeadSpinAgent_executeTask_run.
  unfold HeadSpinAgent.taskBody. cbn [String.eqb Ascii.eqb Bool.eqb].
  unfold HeadSpinAgent.runHeadSpinIOSSmokeTest, HeadSpinAgent.process_env.
  cbv beta iota zeta delta [bind ask].
  unfold headSpinToken, headSpinUdid in Hmissing. rewrite Hmissing.
  eexists. split; [reflexivity|]. split; reflexivity.
Qed.

Lemma headspin_missing_credentials_witness :
  HeadSpinAgent.absent (headSpinToken calmEnv) || HeadSpinAgent.absent (headSpinUdid calmEnv)
  = true
  /\ exists r,
       HeadSpinAgent.executeTask "headspin_ios_smoke" ∅ calmEnv world0 HeadSpinAgent.new
       = (Returned r, world0, HeadSpinAgent.testResults_push r HeadSpinAgent.new)
       /\ TaskResult.status r = FAILED
       /\ TaskResult.error r = Some "Missing HeadSpin credentials or device info in .env".
Proof.
  split; [reflexivity|].
  apply (headspin_missing_credentials ∅ calmEnv world0 HeadSpinAgent.new). reflexivity.
Defined.



(** X9: what a call of [executeTask] comes to, for every agent, task
    and context, is decided by the outcome of the task body. When the
    body returns, the result is COMPLETED with the body's output, no
    error, and as duration the time that passed during the call, in
    seconds. When the body throws an [Error], or another value that
    [String] renders, the result is FAILED with an empty output, a
    duration of 0 and, as error, the message or the rendering. When the
    body throws a value that [String] cannot render, the call rejects
    with what [String] throws. A result is therefore of one of two
    shapes; and the world is as the body left it. *)
Theorem executeTask_result_shape (o : AgentObject) (task : string)
  (context : gmap string JsValue) (env : Env) (w : World) :
  exists outcome w' o',
    AgentObject_executeTask task context env w o = (outcome, w', o')
    /\ match AgentObject_taskBody task context env w o with
       | (Returned out, wb, _) =>
           w' = wb
           /\ outcome
              = Returned (TaskResult.mk task COMPLETED out
                            (Qmake (World.clock w' - World.clock w) 1000) None)
       | (Thrown (Printable (JsError message)), wb, _) =>
           w' = wb
           /\ outcome = Returned (TaskResult.mk task FAILED "" (Qmake 0 1) (Some message))
       | (Thrown (Printable (JsThrown text)), wb, _) =>
           w' = wb
           /\ outcome = Returned (TaskResult.mk task FAILED "" (Qmake 0 1) (Some text))
       | (Thrown (Unprintable raises), wb, _) =>
           w' = wb /\ outcome = Thrown raises
       end
    /\ (forall r,
          outcome = Returned r ->
          TaskResult.status r = COMPLETED
            /\ TaskResult.error r = None
            /\ TaskResult.duration r = Qmake (World.clock w' - World.clock w) 1000
          \/ TaskResult.status r = FAILED
             /\ TaskResult.output r = ""
             /\ TaskResult.duration r = Qmake 0 1
             /\ TaskResult.error r <> None).
Proof.
  destruct (AgentObject_executeTask_run task context env w o)
    as (ob & wb & o1 & Eb & _ & _ & _ & Ex).
  rewrite Eb.
  destruct ob as [out|[[message|text]|raises]]; cbn [resultFor] in Ex;
    eexists _, _, _; (split; [exact Ex|]); (split; [split; reflexivity|]);
    intros r Hr; inversion Hr; subst r.
  - left. repeat split.
  - right. repeat split. discriminate.
  - right. repeat split. discriminate.
Qed.

Lemma terminal_counts (rs : list TaskResult) :
  countIf (hasStatus COMPLETED) rs + countIf (hasStatus FAILED) rs <= Z.of_nat (length rs)
  /\ (countIf (hasStatus COMPLETED) rs + countIf (hasStatus FAILED) rs
      = Z.of_nat (length rs) <-> Forall terminal rs).
Proof.
  unfold countIf. induction rs as [|r rs [IHle IHeq]].
  - simpl. split; [lia|]. split; [constructor | reflexivity].
  - rewrite Forall_cons, <- IHeq. cbn [List.filter].
    assert (Hc : hasStatus COMPLETED r = TaskStatus_eqb (TaskResult.status r) COMPLETED)
      by reflexivity.
    assert (Hf : hasStatus FAILED r = TaskStatus_eqb (TaskResult.status r) FAILED)
      by reflexivity.
    rewrite Hc, Hf. unfold terminal.
    destruct (TaskResult.status r); cbn [TaskStatus_eqb length]; split; try lia.
    + split; [intros H; lia | intros [[H|H] _]; discriminate H].
    + split; [intros H; lia | intros [[H|H] _]; discriminate H].
    + split; [intros H; split; [now left | lia] | intros [_ H]; lia].
    + split; [intros H; split; [now right | lia] | intros [_ H]; lia].
Qed.

(** ** The summary file *)

(** The whole effect of [generateAllureReport]. *)
Lemma generateAllureReport_effects {S : Type} testResults outputDir env w (s : S) :
  exists w',
    ReportGenerator.generateAllureReport testResults outputDir env w s
    = ((match Env.mkdir env (default "pipeline-reports" outputDir) with
       | Thrown e => Thrown e
       | Returned _ =>
           match Env.writeFile env (reportPath env outputDir w) with
           | Thrown e => Thrown e
           | Returned _ => Returned (reportPath env outputDir w)
           end
       end) : Outcome string, w', s)
    /\ World.console w' = World.console w
    /\ World.dirs w'
       = match Env.mkdir env (default "pipeline-reports" outputDir) with
         | Thrown _ => World.dirs w
         | Returned _ => {[ default "pipeline-reports" outputDir ]} ∪ World.dirs w
         end
    /\ World.files w'
       = match Env.mkdir env (default "pipeline-reports" outputDir),
               Env.writeFile env (reportPath env outputDir w) with
         | Returned _, Returned _ =>
             <[ reportPath env outputDir w
                := summaryOf (namingTime env outputDir w) testResults ]> (World.files w)
         | _, _ => World.files w
         end.
Proof.
  unfold reportPath, namingTime.
  cbv beta iota zeta delta [ReportGenerator.generateAllureReport fs_mkdir fs_writeFile
    bind io ask liftOutcome liftReply Date_now ret advance].
  cbn [World.clock World.files World.console World.dirs].
  destruct (Env.mkdir env (default "pipeline-reports" outputDir)) as [[]|e].
  - destruct (Env.writeFile env _) as [[]|e]; eexists; repeat split.
  - eexists; repeat split.
Qed.



(** X11: for an output directory that is a single path segment (no
    slash, not empty, not '.' or '..'), the path returned by
    [generateAllureReport] is the directory, a slash and
    'allure-report-<ms>.json', and the directory is created; leaving
    [outputDir] out is the same as passing 'pipeline-reports'. *)
Theorem report_lands_in_output_directory {S : Type} (testResults : list TaskResult)
  (outputDir : string) (env : Env) (w : World) (s : S) :
  plainName outputDir ->
  Env.mkdir env outputDir = Returned tt ->
  (forall p, Env.writeFile env p = Returned tt) ->
  exists w',
    ReportGenerator.generateAllureReport testResults (Some outputDir) env w s
    = (Returned (outputDir +:+ "/" +:+ "allure-report-"
                 +:+ Z_toString (namingTime env (Some outputDir) w) +:+ ".json"),
       w', s)
    /\ outputDir ∈ World.dirs w'
    /\ ReportGenerator.generateAllureReport testResults None env w s
       = ReportGenerator.generateAllureReport testResults (Some "pipeline-reports") env w s.
Proof.
  intros Hd Hmk Hwr.
  destruct (generateAllureReport_effects testResults (Some outputDir) env w s)
    as (w' & E & _ & D & _).
  change (default "pipeline-reports" (Some outputDir)) with outputDir in E, D.
  rewrite Hmk in E, D. rewrite Hwr in E.
  exists w'. split.
  - rewrite E. unfold reportPath.
    change (default "pipeline-reports" (Some outputDir)) with outputDir.
    rewrite (join_plain_names outputDir _ Hd (plainName_fileName _)). reflexivity.
  - split; [|reflexivity]. rewrite D. apply elem_of_union_l. now apply elem_of_singleton.
Qed.

Lemma report_lands_in_output_directory_witness :
  plainName "custom-reports"
  /\ Env.mkdir tickEnv "custom-reports" = Returned tt
  /\ (forall p, Env.writeFile tickEnv p = Returned tt)
  /\ exists w',
       ReportGenerator.generateAllureReport [passedResult] (Some "custom-reports")
         tickEnv world0 tt
       = (Returned ("custom-reports" +:+ "/" +:+ "allure-report-"
                    +:+ Z_toString (namingTime tickEnv (Some "custom-reports") world0)
                    +:+ ".json"),
          w', tt)
       /\ "custom-reports" ∈ World.dirs w'
       /\ ReportGenerator.generateAllureReport [passedResult] None tickEnv world0 tt
          = ReportGenerator.generateAllureReport [passedResult] (Some "pipeline-reports")
              tickEnv world0 tt.
Proof.
  assert (Hp : plainName "custom-reports") by (repeat split).
  split; [exact Hp|]. split; [reflexivity|]. split; [intros p; reflexivity|].
  apply (report_lands_in_output_directory [passedResult] "custom-reports" tickEnv world0 tt
           Hp).
  - reflexivity.
  - intros p. reflexivity.
Defined.

(** X12: [generateAllureReport] rejects with the error of [fs.mkdir] or
    of [fs.writeFile], whichever fails first. When [mkdir] fails nothing
    is written; otherwise the directory exists afterwards, and on
    success exactly one file name is added to (or overwritten in) the
    files. *)
Theorem generateAllureReport_stops_at_first_failure {S : Type} (testResults : list TaskResult)
  (outputDir : option string) (env : Env) (w : World) (s : S) :
  exists outcome w',
    ReportGenerator.generateAllureReport testResults outputDir env w s = (outcome, w', s)
    /\ match Env.mkdir env (default "pipeline-reports" outputDir) with
       | Thrown e =>
           outcome = Thrown e
           /\ World.files w' = World.files w
           /\ World.dirs w' = World.dirs w
       | Returned _ =>
           default "pipeline-reports" outputDir ∈ World.dirs w'
           /\ match Env.writeFile env (reportPath env outputDir w) with
              | Thrown e => outcome = Thrown e
              | Returned _ =>
                  outcome = Returned (reportPath env outputDir w)
                  /\ dom (World.files w')
                     = {[ reportPath env outputDir w ]} ∪ dom (World.files w)
              end
       end.
Proof.
  destruct (generateAllureReport_effects testResults outputDir env w s)
    as (w' & E & _ & D & F).
  eexists _, w'. split; [exact E|].
  destruct (Env.mkdir env (default "pipeline-reports" outputDir)) as [[]|e].
  - split; [rewrite D; apply elem_of_union_l; now apply elem_of_singleton|].
    destruct (Env.writeFile env (reportPath env outputDir w)) as [[]|e].
    + split; [reflexivity|]. rewrite F. apply dom_insert_L.
    + reflexivity.
  - repeat split; assumption.
Qed.

(** ** The tracker sync, again *)

Lemma filter_length_Permutation {A} (p : A -> bool) (xs ys : list A) :
  Permutation xs ys -> length (List.filter p xs) = length (List.filter p ys).
Proof.
  induction 1 as [|x xs ys _ IH|x y xs|xs ys zs _ IH1 _ IH2]; cbn [List.filter].
  - reflexivity.
  - destruct (p x); cbn [length]; congruence.
  - destruct (p x), (p y); reflexivity.
  - congruence.
Qed.

(** X13: [syncWithZephyrJira] contacts nothing: it resumes 150 ms later
    (plus the timer's lag), leaves directories, files and console as
    they were, and its message does not depend on the order of the
    results. *)
Theorem syncWithZephyrJira_only_waits {S : Type} (testResults : list TaskResult)
  (env : Env) (w : World) (s : S) :
  exists message w',
    ReportGenerator.syncWithZephyrJira testResults env w s = (Returned message, w', s)
    /\ World.clock w' = World.clock w + 150 + Z.of_nat (Env.elapsed env (IoTimer 150))
    /\ World.dirs w' = World.dirs w
    /\ World.files w' = World.files w
    /\ World.console w' = World.console w
    /\ forall reordered,
         Permutation testResults reordered ->
         ReportGenerator.syncWithZephyrJira reordered env w s = (Returned message, w', s).
Proof.
  assert (Hrun : forall results,
             ReportGenerator.syncWithZephyrJira results env w s
             = (Returned (syncMessage results),
                advance (Env.elapsed env (IoTimer 150))
                  (World.mk (World.clock w + 150) (World.dirs w) (World.files w)
                     (World.console w)), s)).
  { intros results.
    unfold ReportGenerator.syncWithZephyrJira, ReportGenerator.delay, syncMessage.
    cbv beta iota zeta delta [bind sleep ret].
    destruct (negb (length (List.filter (hasStatus FAILED) results) =? 0)%nat);
      reflexivity. }
  eexists _, _. split; [apply Hrun|].
  cbn [advance World.clock World.dirs World.files World.console].
  repeat (split; [reflexivity|]).
  intros reordered Hp. rewrite Hrun. unfold syncMessage.
  now rewrite (filter_length_Permutation _ _ _ Hp).
Qed.

(** ** Pipeline runs, one after the other *)

(** ** The verdict *)

Lemma existsb_Permutation {A} (p : A -> bool) (xs ys : list A) :
  Permutation xs ys -> existsb p xs = existsb p ys.
Proof.
  induction 1; simpl; try congruence.
  destruct (p x), (p y); reflexivity.
Qed.

Lemma forallb_Permutation {A} (p : A -> bool) (xs ys : list A) :
  Permutation xs ys -> forallb p xs = forallb p ys.
Proof.
  induction 1; simpl; try congruence.
  destruct (p x), (p y); reflexivity.
Qed.

(** X14: the pipeline status of two lists put together is FAILED when
    either is FAILED, SUCCESS when both are SUCCESS, INCOMPLETE
    otherwise; and it does not depend on the order of the results. *)
Theorem getPipelineStatus_composes :
  (forall first second,
     getPipelineStatus (first ++ second)
     = if String.eqb (getPipelineStatus first) "FAILED"
          || String.eqb (getPipelineStatus second) "FAILED"
       then "FAILED"
       else if String.eqb (getPipelineStatus first) "SUCCESS"
               && String.eqb (getPipelineStatus second) "SUCCESS"
            then "SUCCESS"
            else "INCOMPLETE")
  /\ (forall results results',
        Permutation results results' ->
        getPipelineStatus results = getPipelineStatus results').
Proof.
  split.
  - intros first second. unfold getPipelineStatus.
    rewrite existsb_app, forallb_app.
    destruct (existsb (hasStatus FAILED) first), (existsb (hasStatus FAILED) second),
      (forallb (hasStatus COMPLETED) first), (forallb (hasStatus COMPLETED) second);
      reflexivity.
  - intros results results' Hperm. unfold getPipelineStatus.
    now rewrite (existsb_Permutation _ _ _ Hperm), (forallb_Permutation _ _ _ Hperm).
Qed.

Lemma terminal_verdict (rs : list TaskResult) :
  Forall terminal rs ->
  getPipelineStatus rs
  = (if existsb (hasStatus FAILED) rs then "FAILED" else "SUCCESS")
  /\ (existsb (hasStatus FAILED) rs = false
      <-> Forall (fun r => TaskResult.status r = COMPLETED) rs).
Proof.
  intros Ht. unfold getPipelineStatus. induction Ht as [|r rs Hr Ht [IH1 IH2]].
  - split; [reflexivity|]. split; [constructor | reflexivity].
  - cbn [existsb forallb]. rewrite Forall_cons, <- IH2.
    assert (Hc : hasStatus COMPLETED r = TaskStatus_eqb (TaskResult.status r) COMPLETED)
      by reflexivity.
    assert (Hf : hasStatus FAILED r = TaskStatus_eqb (TaskResult.status r) FAILED)
      by reflexivity.
    rewrite Hc, Hf.
    destruct Hr as [Hr|Hr]; rewrite Hr; cbn [TaskStatus_eqb orb andb].
    + split; [exact IH1|]. split; [intros H; now split | intros [_ H]; exact H].
    + split; [reflexivity|]. split; [discriminate | intros [H _]; discriminate H].
Qed.

Lemma syncMessage_no_issues (rs : list TaskResult) :
  syncMessage rs = "No issues to sync with Jira/Zephyr - all tests passed!"
  <-> existsb (hasStatus FAILED) rs = false.
Proof.
  unfold syncMessage.
  assert (H : (length (List.filter (hasStatus FAILED) rs) =? 0)%nat
              = negb (existsb (hasStatus FAILED) rs)).
  { induction rs as [|r rs IH]; [reflexivity|]. cbn [List.filter existsb].
    destruct (hasStatus FAILED r); [reflexivity | exact IH]. }
  rewrite H, negb_involutive.
  destruct (existsb (hasStatus FAILED) rs); split; intros E; try reflexivity;
    discriminate E.
Qed.

(** ** What a run leaves behind *)

Lemma sameWiring_wired a m k o' :
  sameWiring (wired a m k) o' -> exists a' m' k', o' = wired a' m' k'.
Proof.
  intros [Hkeys Hclass]. destruct o' as [table]. cbn [agents wired] in *.
  destruct table as [|[n1 o1] [|[n2 o2] [|[n3 o3] [|? ?]]]]; try discriminate Hkeys.
  cbn [map fst] in Hkeys. injection Hkeys as -> -> ->.
  pose proof (Hclass "api_agent") as H1.
  pose proof (Hclass "mobile_agent") as H2.
  pose proof (Hclass "wiremock_agent") as H3.
  cbn in H1, H2, H3.
  destruct o1; try discriminate H1. destruct o2; try discriminate H2.
  destruct o3; try discriminate H3. eauto.
Qed.

(** The whole effect of [processEvent] on a wired orchestrator. *)
Lemma processEvent_effects event env w a m k :
  exists r1 r2 r3 r4 r5 r6 w6 wf a' m' k',
    processEvent event env w (wired a m k)
    = ((match Env.mkdir env "pipeline-reports" with
       | Thrown e => Thrown e
       | Returned _ =>
           match Env.writeFile env (reportPath env None w6) with
           | Thrown e => Thrown e
           | Returned _ =>
               Returned
                 (PipelineResult.mk event [r1; r2; r3; r4; r5; r6]
                    [("api_agent", reportFor (ApiObject a'));
                     ("mobile_agent", reportFor (MobileObject m'));
                     ("wiremock_agent", reportFor (WireMockObject k'))]
                    [reportPath env None w6; syncMessage [r1; r2; r3; r4; r5; r6]]
                    (getPipelineStatus [r1; r2; r3; r4; r5; r6]))
           end
       end) : Outcome PipelineResult, wf, wired a' m' k')
    /\ Forall terminal [r1; r2; r3; r4; r5; r6]
    /\ APIAgent.testResults a' = APIAgent.testResults a ++ [r1; r2]
    /\ MobileAgent.testResults m' = MobileAgent.testResults m ++ [r3; r4]
    /\ WireMockAgent.testResults k' = WireMockAgent.testResults k ++ [r5; r6]
    /\ World.files wf
       = match Env.mkdir env "pipeline-reports",
               Env.writeFile env (reportPath env None w6) with
         | Returned _, Returned _ =>
             <[ reportPath env None w6
                := summaryOf (namingTime env None w6) [r1; r2; r3; r4; r5; r6] ]>
               (World.files w)
         | _, _ => World.files w
         end.
Proof.
  set (w0 := World.mk (World.clock w) (World.dirs w) (World.files w)
               (World.console w ++ [processingLine event])).
  destruct (runTasks_run event env w0 (wired a m k) (wired_registered a m k))
    as (r1 & r2 & r3 & r4 & r5 & r6 & w6 & orch' & E & _ & Ht & _ & _ & Hf6
        & Hs & Ha & Hm & Hk).
  destruct (sameWiring_wired a m k orch' Hs) as (a' & m' & k' & ->).
  cbn in Ha, Hm, Hk.
  assert (Hf0 : World.files w6 = World.files w) by exact Hf6. clear Hf6.
  set (rs := [r1; r2; r3; r4; r5; r6]) in *.
  destruct (generateAllureReport_effects rs None env w6 (wired a' m' k'))
    as (w7 & E7 & _ & _ & F7).
  exists r1, r2, r3, r4, r5, r6, w6.
  unfold processEvent. unfold bind at 1. unfold console_log at 1.
  fold (processingLine event). fold w0.
  unfold bind at 1. rewrite E. fold rs.
  unfold bind at 1. unfold Promise_all. unfold bind at 1. rewrite E7.
  change (default "pipeline-reports" None) with "pipeline-reports" in *.
  destruct (Env.mkdir env "pipeline-reports") as [[]|e].
  2:{ exists w7, a', m', k'.
      repeat (split; [first [reflexivity | assumption | congruence]|]). congruence. }
  destruct (Env.writeFile env (reportPath env None w6)) as [[]|e].
  2:{ exists w7, a', m', k'.
      repeat (split; [first [reflexivity | assumption | congruence]|]). congruence. }
  destruct (syncWithZephyrJira_run rs env w7 (wired a' m' k')) as (w8 & E8 & _ & F8).
  exists w8, a', m', k'.
  unfold bind at 1. rewrite E8. unfold ret at 1. cbv beta iota.
  unfold bind at 1. unfold this at 1. unfold bind at 1.
  cbn [agents wired forOf]. unfold bind at 1. unfold collectReport at 1.
  unfold bind at 1.
  rewrite (callAgent_generateReport_run "api_agent" env w8 (wired a' m' k')
             (ApiObject a') eq_refl).
  unfold ret at 1. cbv beta iota.
  unfold bind at 1. unfold collectReport at 1. unfold bind at 1.
  rewrite (callAgent_generateReport_run "mobile_agent" env w8 (wired a' m' k')
             (MobileObject m') eq_refl).
  unfold ret at 1. cbv beta iota.
  unfold bind at 1. unfold collectReport at 1. unfold bind at 1.
  rewrite (callAgent_generateReport_run "wiremock_agent" env w8 (wired a' m' k')
             (WireMockObject k') eq_refl).
  unfold ret. cbn [app].
  repeat (split; [first [reflexivity | assumption | congruence]|]). congruence.
Qed.

(** X15: a result of [processEvent] (on an orchestrator with its three
    agents) is never INCOMPLETE: its status is SUCCESS or FAILED, it is
    SUCCESS exactly when every task result is COMPLETED, and the second
    generated report is the 'No issues to sync' message exactly then. *)
Theorem processEvent_verdict (event : CIPipelineEvent) (env : Env) (w : World)
  (a : APIAgent.t) (m : MobileAgent.t) (k : WireMockAgent.t) :
  exists outcome w' orch',
    processEvent event env w (wired a m k) = (outcome, w', orch')
    /\ forall result,
         outcome = Returned result ->
         (PipelineResult.pipelineStatus result = "SUCCESS"
          \/ PipelineResult.pipelineStatus result = "FAILED")
         /\ (PipelineResult.pipelineStatus result = "SUCCESS"
             <-> forall r, In r (PipelineResult.taskResults result) ->
                   TaskResult.status r = COMPLETED)
         /\ exists filePath message,
              PipelineResult.generatedReports result = [filePath; message]
              /\ (message = "No issues to sync with Jira/Zephyr - all tests passed!"
                  <-> PipelineResult.pipelineStatus result = "SUCCESS").
Proof.
  destruct (processEvent_effects event env w a m k)
    as (r1 & r2 & r3 & r4 & r5 & r6 & w6 & wf & a' & m' & k' & E & Ht & _).
  eexists _, _, _. split; [exact E|].
  intros result Hres.
  destruct (Env.mkdir env "pipeline-reports") as [[]|e]; [|discriminate Hres].
  destruct (Env.writeFile env (reportPath env None w6)) as [[]|e]; [|discriminate Hres].
  injection Hres as <-.
  cbn [PipelineResult.pipelineStatus PipelineResult.taskResults
       PipelineResult.generatedReports].
  destruct (terminal_verdict _ Ht) as [Hv Hall]. rewrite Hv.
  rewrite List.Forall_forall in Hall.
  pose proof (syncMessage_no_issues [r1; r2; r3; r4; r5; r6]) as Hmsg.
  destruct (existsb (hasStatus FAILED) [r1; r2; r3; r4; r5; r6]).
  - split; [now right|]. split.
    + split; [discriminate | intros H; apply Hall in H; discriminate H].
    + eexists _, _. split; [reflexivity|]. rewrite Hmsg. split; discriminate.
  - split; [now left|]. split.
    + split; [intros _; now apply Hall | reflexivity].
    + eexists _, _. split; [reflexivity|]. rewrite Hmsg. split; reflexivity.
Qed.

(** X16: the agent reports of a result are those of 'api_agent',
    'mobile_agent' and 'wiremock_agent', in this order, and each lists
    everything its agent has ever run: the history the agent had before
    the event followed by its two results of this run. *)
Theorem agent_reports_are_cumulative (event : CIPipelineEvent) (env : Env) (w : World)
  (a : APIAgent.t) (m : MobileAgent.t) (k : WireMockAgent.t) :
  exists r1 r2 r3 r4 r5 r6 outcome w' orch',
    processEvent event env w (wired a m k) = (outcome, w', orch')
    /\ forall result,
         outcome = Returned result ->
         PipelineResult.taskResults result = [r1; r2; r3; r4; r5; r6]
         /\ exists api mobile wiremock,
              PipelineResult.agentReports result
              = [("api_agent", api); ("mobile_agent", mobile); ("wiremock_agent", wiremock)]
              /\ AgentReport.testResults api = APIAgent.testResults a ++ [r1; r2]
              /\ AgentReport.testResults mobile = MobileAgent.testResults m ++ [r3; r4]
              /\ AgentReport.testResults wiremock = WireMockAgent.testResults k ++ [r5; r6]
              /\ AgentReport.totalTests api
                 = Z.of_nat (length (APIAgent.testResults a)) + 2
              /\ AgentReport.totalTests mobile
                 = Z.of_nat (length (MobileAgent.testResults m)) + 2
              /\ AgentReport.totalTests wiremock
                 = Z.of_nat (length (WireMockAgent.testResults k)) + 2.
Proof.
  destruct (processEvent_effects event env w a m k)
    as (r1 & r2 & r3 & r4 & r5 & r6 & w6 & wf & a' & m' & k' & E & _ & Ha & Hm & Hk & _).
  exists r1, r2, r3, r4, r5, r6. eexists _, _, _. split; [exact E|].
  intros result Hres.
  destruct (Env.mkdir env "pipeline-reports") as [[]|e]; [|discriminate Hres].
  destruct (Env.writeFile env (reportPath env None w6)) as [[]|e]; [|discriminate Hres].
  injection Hres as <-. split; [reflexivity|].
  eexists _, _, _. split; [reflexivity|].
  unfold reportFor. cbn [AgentReport.testResults AgentReport.totalTests history].
  rewrite Ha, Hm, Hk, !length_app. cbn [length]. repeat split; lia.
Qed.

(** X17: when [processEvent] returns, the file named by the first
    generated report holds the six task results of the returned result,
    with passed and failed adding up to 6, and no failure exactly when
    the status is SUCCESS. *)
Theorem written_summary_matches_result (event : CIPipelineEvent) (env : Env) (w : World)
  (a : APIAgent.t) (m : MobileAgent.t) (k : WireMockAgent.t) :
  exists outcome w' orch',
    processEvent event env w (wired a m k) = (outcome, w', orch')
    /\ forall result,
          outcome = Returned result ->
          exists filePath message summary,
            PipelineResult.generatedReports result = [filePath; message]
            /\ World.files w' !! filePath = Some summary
            /\ Summary.results summary = PipelineResult.taskResults result
            /\ Summary.totalTests summary = 6
            /\ Summary.passed summary + Summary.failed summary = 6
            /\ (Summary.failed summary = 0
                <-> PipelineResult.pipelineStatus result = "SUCCESS").
Proof.
  destruct (processEvent_effects event env w a m k)
    as (r1 & r2 & r3 & r4 & r5 & r6 & w6 & wf & a' & m' & k' & E & Ht & _ & _ & _ & F).
  eexists _, _, _. split; [exact E|].
  destruct (Env.mkdir env "pipeline-reports") as [[]|e].
  2:{ intros result Hres; discriminate Hres. }
  destruct (Env.writeFile env (reportPath env None w6)) as [[]|e].
  2:{ intros result Hres; discriminate Hres. }
  intros result Hres. injection Hres as <-.
  eexists _, _, _. split; [reflexivity|].
  split; [rewrite F; apply lookup_insert_eq|].
  cbn [summaryOf Summary.results Summary.totalTests Summary.passed Summary.failed
       PipelineResult.taskResults PipelineResult.pipelineStatus].
  destruct (terminal_counts [r1; r2; r3; r4; r5; r6]) as [_ Heq].
  apply Heq in Ht as Hsum. cbn [length] in Hsum.
  split; [reflexivity|]. split; [reflexivity|]. split; [exact Hsum|].
  destruct (terminal_verdict _ Ht) as [Hv _]. rewrite Hv.
  assert (Hz : countIf (hasStatus FAILED) [r1; r2; r3; r4; r5; r6] = 0
               <-> existsb (hasStatus FAILED) [r1; r2; r3; r4; r5; r6] = false).
  { unfold countIf. generalize [r1; r2; r3; r4; r5; r6]. intros rs.
    induction rs as [|r rs IH]; [simpl; tauto|]. cbn [List.filter existsb].
    destruct (hasStatus FAILED r); cbn [length orb]; [split; [lia | discriminate] | exact IH]. }
  rewrite Hz.
  destruct (existsb (hasStatus FAILED) [r1; r2; r3; r4; r5; r6]); split; intros H;
    try reflexivity; discriminate H.
Qed.

(** The invariant of the loop: after each event every agent holds two
    more results. *)
Lemma processEvents_from events : forall acc env w a m k (n : nat),
  length (APIAgent.testResults a) = (2 * n)%nat ->
  length (MobileAgent.testResults m) = (2 * n)%nat ->
  length (WireMockAgent.testResults k) = (2 * n)%nat ->
  exists outcomes w' a' m' k',
    forOf events acc (fun outcomes event =>
      fun env w self =>
        match processEvent event env w self with
        | (outcome, w', self') => (Returned (outcomes ++ [outcome]), w', self')
        end) env w (wired a m k)
    = (Returned (acc ++ outcomes), w', wired a' m' k')
    /\ length outcomes = length events
    /\ length (APIAgent.testResults a') = (2 * (n + length events))%nat
    /\ length (MobileAgent.testResults m') = (2 * (n + length events))%nat
    /\ length (WireMockAgent.testResults k') = (2 * (n + length events))%nat
    /\ forall (i : nat) result,
         outcomes !! i = Some (Returned result) ->
         length (PipelineResult.taskResults result) = 6%nat
         /\ Forall (fun named =>
                      AgentReport.totalTests (snd named) = 2 * (Z.of_nat n + Z.of_nat i + 1))
              (PipelineResult.agentReports result).
Proof.
  induction events as [|event events IH]; intros acc env w a m k n La Lm Lk.
  - exists [], w, a, m, k. cbn [forOf length]. rewrite app_nil_r, Nat.add_0_r.
    split; [reflexivity|]. do 4 (split; [trivial|]).
    intros i result Hi. discriminate Hi.
  - destruct (processEvent_effects event env w a m k)
      as (r1 & r2 & r3 & r4 & r5 & r6 & w6 & wf & a' & m' & k' & E & _ & Ha & Hm & Hk & _).
    assert (La' : length (APIAgent.testResults a') = (2 * S n)%nat)
      by (rewrite Ha, length_app; cbn [length]; lia).
    assert (Lm' : length (MobileAgent.testResults m') = (2 * S n)%nat)
      by (rewrite Hm, length_app; cbn [length]; lia).
    assert (Lk' : length (WireMockAgent.testResults k') = (2 * S n)%nat)
      by (rewrite Hk, length_app; cbn [length]; lia).
    cbn [forOf]. unfold bind at 1. rewrite E.
    match goal with
    | |- context [forOf events (acc ++ [?o])] => set (first := o)
    end.
    destruct (IH (acc ++ [first]) env wf a' m' k' (S n) La' Lm' Lk')
      as (outcomes & w' & a'' & m'' & k'' & E' & Hl & La'' & Lm'' & Lk'' & Hreports).
    exists (first :: outcomes), w', a'', m'', k''.
    rewrite E', <- app_assoc. split; [reflexivity|].
    split; [cbn [length]; congruence|].
    split; [rewrite La''; cbn [length]; lia|].
    split; [rewrite Lm''; cbn [length]; lia|].
    split; [rewrite Lk''; cbn [length]; lia|].
    intros j result Hi. destruct j as [|j].
    + cbn in Hi. injection Hi as Hi. unfold first in Hi.
      destruct (Env.mkdir env "pipeline-reports") as [[]|e]; [|discriminate Hi].
      destruct (Env.writeFile env (reportPath env None w6)) as [[]|e]; [|discriminate Hi].
      injection Hi as <-. split; [reflexivity|].
      cbn [PipelineResult.agentReports]. unfold reportFor.
      repeat constructor; cbn [snd AgentReport.totalTests history]; lia.
    + cbn in Hi. destruct (Hreports j result Hi) as [H6 HF]. split; [exact H6|].
      eapply Forall_impl; [exact HF|]. intros named Hn. cbn beta in Hn |- *. lia.
Qed.

(** X18: an orchestrator that processes n events one after the other
    always ends with 2n results in each agent, whether the calls
    returned or rejected; the i-th call (from 0), when it returns, has
    six task results and agent reports of 2(i+1) tests each. *)
Theorem histories_are_never_reset (events : list CIPipelineEvent) (env : Env) (w : World) :
  exists outcomes w' a m k,
    processEvents events env w MCPAgentOrchestrator.new
    = (Returned outcomes, w', wired a m k)
    /\ length outcomes = length events
    /\ length (APIAgent.testResults a) = (2 * length events)%nat
    /\ length (MobileAgent.testResults m) = (2 * length events)%nat
    /\ length (WireMockAgent.testResults k) = (2 * length events)%nat
    /\ forall (i : nat) result,
         outcomes !! i = Some (Returned result) ->
         length (PipelineResult.taskResults result) = 6%nat
         /\ Forall (fun named =>
                      AgentReport.totalTests (snd named) = 2 * (Z.of_nat i + 1))
              (PipelineResult.agentReports result).
Proof.
  destruct (processEvents_from events [] env w APIAgent.new MobileAgent.new
              WireMockAgent.new 0 eq_refl eq_refl eq_refl)
    as (outcomes & w' & a & m & k & E & Hl & La & Lm & Lk & Hr).
  exists outcomes, w', a, m, k. split; [exact E|].
  repeat (split; [assumption|]). exact Hr.
Qed.

(** ** The analytics agent and the test-file prioritizer *)

Lemma Array_insert_Permutation {A} (key : A -> Z) x l :
  Permutation (x :: l) (Array_insert (byKey key) x l).
Proof.
  induction l as [|y l IH]; cbn [Array_insert]; [reflexivity|].
  destruct (byKey key x y <=? 0); [reflexivity|].
  rewrite perm_swap. now constructor.
Qed.

Lemma Array_sort_Permutation {A} (key : A -> Z) l : Permutation l (Array_sort (byKey key) l).
Proof.
  induction l as [|x l IH]; cbn [Array_sort]; [reflexivity|].
  rewrite <- Array_insert_Permutation. now constructor.
Qed.

Lemma Array_insert_sorted {A} (key : A -> Z) x l :
  StronglySorted (fun a b => key a <= key b) l ->
  StronglySorted (fun a b => key a <= key b) (Array_insert (byKey key) x l).
Proof.
  induction l as [|y l IH]; intros Hs; cbn [Array_insert].
  - repeat constructor.
  - apply StronglySorted_inv in Hs as [Hl Hy].
    destruct (Z.leb_spec (byKey key x y) 0) as [Hle|Hgt]; unfold byKey in *.
    + constructor; [now constructor|].
      constructor; [lia|]. eapply List.Forall_impl; [|exact Hy].
      cbn beta. intros z Hz. lia.
    + constructor; [now apply IH|].
      eapply Permutation_Forall; [apply (Array_insert_Permutation key x l)|].
      constructor; [lia | exact Hy].
Qed.

Lemma Array_sort_sorted {A} (key : A -> Z) l :
  StronglySorted (fun a b => key a <= key b) (Array_sort (byKey key) l).
Proof.
  induction l as [|x l IH]; cbn [Array_sort]; [constructor|].
  now apply Array_insert_sorted.
Qed.

Lemma Array_insert_stable {A} (key : A -> Z) p x l :
  List.filter (fun y => key y =? p) (Array_insert (byKey key) x l)
  = List.filter (fun y => key y =? p) (x :: l).
Proof.
  induction l as [|y l IH]; cbn [Array_insert]; [reflexivity|].
  destruct (Z.leb_spec (byKey key x y) 0) as [Hle|Hgt]; [reflexivity|].
  unfold byKey in Hgt. cbn [List.filter] in IH |- *. rewrite IH.
  destruct (Z.eqb_spec (key x) p), (Z.eqb_spec (key y) p); try reflexivity; lia.
Qed.

Lemma Array_sort_stable {A} (key : A -> Z) p l :
  List.filter (fun y => key y =? p) (Array_sort (byKey key) l)
  = List.filter (fun y => key y =? p) l.
Proof.
  induction l as [|x l IH]; cbn [Array_sort]; [reflexivity|].
  rewrite Array_insert_stable. cbn [List.filter]. now rewrite IH.
Qed.

Lemma Array_sort_in_order {A} (key : A -> Z) l :
  StronglySorted (fun a b => key a <= key b) l -> Array_sort (byKey key) l = l.
Proof.
  induction l as [|x l IH]; intros Hs; cbn [Array_sort]; [reflexivity|].
  apply StronglySorted_inv in Hs as [Hl Hx]. rewrite (IH Hl).
  destruct l as [|y l]; [reflexivity|]. cbn [Array_insert].
  apply List.Forall_inv in Hx. unfold byKey.
  destruct (Z.leb_spec (key x - key y) 0); [reflexivity | lia].
Qed.

Lemma constant_key_sorted {A} (key : A -> Z) (c : Z) (l : list A) :
  (forall x, key x = c) -> StronglySorted (fun a b => key a <= key b) l.
Proof.
  intros Hc. induction l as [|x l IH]; constructor; [exact IH|].
  apply List.Forall_forall. intros y _. rewrite !Hc. lia.
Qed.

Lemma rank_equation insights file :
  rank insights file
  = if includes (toLowerCase insights) "failure trends" && includes file "regression"
    then 1
    else if includes (toLowerCase insights) "performance issues"
            && includes file "performance"
         then 2 else 10.
Proof.
  unfold rank, priorityOf, AnalyticsAgent.prioritizeTests.
  destruct (includes (toLowerCase insights) "failure trends"),
           (includes (toLowerCase insights) "performance issues");
    cbn [app List.find AnalyticsAgent.type AnalyticsAgent.priority andb];
    destruct (includes file "regression"), (includes file "performance");
    reflexivity.
Qed.

Lemma lowerChar_idempotent (c : ascii) : lowerChar (lowerChar c) = lowerChar c.
Proof. destruct c as [[] [] [] [] [] [] [] []]; reflexivity. Qed.

Lemma toLowerCase_idempotent (s : string) : toLowerCase (toLowerCase s) = toLowerCase s.
Proof.
  induction s as [|c s IH]; cbn [toLowerCase]; [reflexivity|].
  now rewrite lowerChar_idempotent, IH.
Qed.

(** X19: the priority of a test file is 1 when the insights mention
    'failure trends' and the file name contains 'regression'; otherwise
    2 when the insights mention 'performance issues' and the name
    contains 'performance'; otherwise 10. The letter case of the
    insights does not matter, and there are never more than two
    priorities. *)
Theorem priority_table (insights file : string) :
  priorityOf (AnalyticsAgent.prioritizeTests insights) file
  = (if includes (toLowerCase insights) "failure trends" && includes file "regression"
     then 1
     else if includes (toLowerCase insights) "performance issues"
             && includes file "performance"
          then 2 else 10)
  /\ priorityOf (AnalyticsAgent.prioritizeTests (toLowerCase insights)) file
     = priorityOf (AnalyticsAgent.prioritizeTests insights) file
  /\ (length (AnalyticsAgent.prioritizeTests insights) <= 2)%nat.
Proof.
  pose proof (rank_equation insights file) as E.
  pose proof (rank_equation (toLowerCase insights) file) as E'.
  unfold rank in E, E'. rewrite toLowerCase_idempotent in E'.
  split; [exact E|]. split; [congruence|].
  unfold AnalyticsAgent.prioritizeTests.
  destruct (includes (toLowerCase insights) "failure trends"),
           (includes (toLowerCase insights) "performance issues"); cbn [app length]; lia.
Qed.

Lemma analyzeTestResults_run {S} services path env w (s : S) :
  exists o,
    AnalyticsAgent.analyzeTestResults services path env w s
    = (o,
       match AnalyticsAgent.readFile services path with
       | Thrown _ => advance (AnalyticsAgent.readTook services path) w
       | Returned text =>
           match AnalyticsAgent.jsonPretty services text with
           | Thrown _ => advance (AnalyticsAgent.readTook services path) w
           | Returned data =>
               advance (AnalyticsAgent.chatTook services (AnalyticsAgent.promptFor data))
                 (advance (AnalyticsAgent.readTook services path) w)
           end
       end, s)
    /\ o = match AnalyticsAgent.readFile services path with
           | Thrown e => Thrown e
           | Returned text =>
               match AnalyticsAgent.jsonPretty services text with
               | Thrown e => Thrown e
               | Returned data =>
                   match AnalyticsAgent.chat services "gpt-4o" (AnalyticsAgent.promptFor data) with
                   | Thrown e => Thrown e
                   | Returned [] =>
                       Thrown (JsError "Cannot read properties of undefined (reading 'message')")
                   | Returned (choice :: _) =>
                       match AnalyticsAgent.message choice with
                       | Some (Some content) =>
                           Returned (if String.eqb content "" then "No analysis available"
                                     else content)
                       | _ => Returned "No analysis available"
                       end
                   end
               end
           end.
Proof.
  unfold AnalyticsAgent.analyzeTestResults.
  cbv beta iota delta [bind elapse liftOutcome liftReply ret throw].
  destruct (AnalyticsAgent.readFile services path) as [text|e]; [|eexists; split; reflexivity].
  destruct (AnalyticsAgent.jsonPretty services text) as [data|e]; [|eexists; split; reflexivity].
  fold (AnalyticsAgent.promptFor data).
  destruct (AnalyticsAgent.chat services "gpt-4o" (AnalyticsAgent.promptFor data))
    as [[|choice rest]|e]; try (eexists; split; reflexivity).
  destruct (AnalyticsAgent.message choice) as [[content|]|]; try (eexists; split; reflexivity).
  destruct (String.eqb content ""); eexists; split; reflexivity.
Qed.

Lemma prioritizeTestFiles_run {S} services testFiles env w (s : S) o w1 :
  testFiles <> [] ->
  AnalyticsAgent.analyzeTestResults services "data/latest_failures.json" env w s
  = (o, w1, s) ->
  prioritizeTestFiles services testFiles env w s
  = (Returned (Array_sort
                 (byRank match o with
                         | Returned insights => insights
                         | Thrown _ => "No insights available"
                         end) testFiles),
     World.mk (World.clock w1) (World.dirs w1) (World.files w1)
       (World.console w1
        ++ [match o with
            | Returned insights => "AI Insights: " +:+ insights
            | Thrown e =>
                "Failed to analyze test results: " +:+ AnalyticsAgent.inspect services e
            end]),
     s).
Proof.
  intros Hne E. unfold prioritizeTestFiles.
  destruct testFiles as [|file files]; [congruence|]. cbn [length Nat.eqb].
  cbv beta iota delta [bind tryCatch console_error console_log ret].
  rewrite E. destruct o; reflexivity.
Qed.

Lemma analyzeTestResults_world {S} services path env w (s : S) :
  exists o w1,
    AnalyticsAgent.analyzeTestResults services path env w s = (o, w1, s)
    /\ World.console w1 = World.console w
    /\ World.dirs w1 = World.dirs w
    /\ World.files w1 = World.files w
    /\ World.clock w <= World.clock w1.
Proof.
  destruct (analyzeTestResults_run services path env w s) as (o & E & _).
  eexists _, _. split; [exact E|].
  destruct (AnalyticsAgent.readFile services path) as [text|e];
    [destruct (AnalyticsAgent.jsonPretty services text) as [data|e]|];
    cbn [advance World.console World.dirs World.files World.clock];
    repeat split; lia.
Qed.

Lemma quiet_insights_rank insights file :
  includes (toLowerCase insights) "failure trends" = false ->
  includes (toLowerCase insights) "performance issues" = false ->
  rank insights file = 10.
Proof. intros H1 H2. rewrite rank_equation, H1, H2. reflexivity. Qed.

(** X20: [prioritizeTestFiles] never rejects, whatever the analytics
    agent does; it returns the same files in some order and writes no
    file. On an empty list it does nothing at all; otherwise it logs
    exactly one line. *)
Theorem prioritizeTestFiles_never_rejects {S} (services : AnalyticsAgent.Services)
  (testFiles : list string) (env : Env) (w : World) (s : S) :
  exists sorted w',
    prioritizeTestFiles services testFiles env w s = (Returned sorted, w', s)
    /\ Permutation testFiles sorted
    /\ World.dirs w' = World.dirs w
    /\ World.files w' = World.files w
    /\ (testFiles = [] -> sorted = [] /\ w' = w)
    /\ (testFiles <> [] ->
        exists line, World.console w' = World.console w ++ [line]).
Proof.
  destruct testFiles as [|file files].
  - exists [], w. repeat split; try reflexivity. intros H. now contradiction H.
  - destruct (analyzeTestResults_world services "data/latest_failures.json" env w s)
      as (o & w1 & E & Hc & Hd & Hf & _).
    assert (Hne : file :: files <> []) by discriminate.
    eexists _, _. split; [exact (prioritizeTestFiles_run _ _ _ _ _ _ _ Hne E)|].
    cbn [World.dirs World.files World.console].
    split; [apply (Array_sort_Permutation (rank _))|].
    split; [exact Hd|]. split; [exact Hf|]. split; [discriminate|].
    intros _. eexists. rewrite Hc. reflexivity.
Qed.

(** X21: the files come back in ascending priority, files of equal
    priority in their original order; the priorities are those of the
    insights that were logged, or of 'No insights available' when the
    analysis failed. *)
Theorem prioritizeTestFiles_order {S} (services : AnalyticsAgent.Services)
  (testFiles : list string) (env : Env) (w : World) (s : S) :
  testFiles <> [] ->
  exists insights line sorted w',
    prioritizeTestFiles services testFiles env w s = (Returned sorted, w', s)
    /\ World.console w' = World.console w ++ [line]
    /\ (line = "AI Insights: " +:+ insights
        \/ insights = "No insights available"
           /\ exists e, line = "Failed to analyze test results: "
                               +:+ AnalyticsAgent.inspect services e)
    /\ StronglySorted (fun a b => rank insights a <= rank insights b) sorted
    /\ forall p,
         List.filter (fun file => rank insights file =? p) sorted
         = List.filter (fun file => rank insights file =? p) testFiles.
Proof.
  intros Hne.
  destruct (analyzeTestResults_world services "data/latest_failures.json" env w s)
    as (o & w1 & E & Hc & _).
  exists (match o with Returned insights => insights | Thrown _ => "No insights available" end).
  eexists _, _, _. split; [exact (prioritizeTestFiles_run _ _ _ _ _ _ _ Hne E)|].
  cbn [World.console]. rewrite Hc. split; [reflexivity|].
  split; [destruct o as [insights|e]; [now left | right; split; [reflexivity | now exists e]]|].
  split; [apply (Array_sort_sorted (rank _)) | intros p; apply (Array_sort_stable (rank _))].
Qed.

(** Two files, the model naming failure trends. *)
Lemma prioritizeTestFiles_order_witness :
  ["tests/smoke.spec.ts"; "tests/regression/cart.spec.ts"] <> []
  /\ exists insights line sorted w',
       prioritizeTestFiles (answering "Failure trends: the cart suite is flaky.")
         ["tests/smoke.spec.ts"; "tests/regression/cart.spec.ts"] calmEnv world0 tt
       = (Returned sorted, w', tt)
       /\ World.console w' = World.console world0 ++ [line]
       /\ (line = "AI Insights: " +:+ insights
           \/ insights = "No insights available"
              /\ exists e, line = "Failed to analyze test results: "
                                  +:+ AnalyticsAgent.inspect
                                        (answering "Failure trends: the cart suite is flaky.") e)
       /\ StronglySorted (fun a b => rank insights a <= rank insights b) sorted
       /\ forall p,
            List.filter (fun file => rank insights file =? p) sorted
            = List.filter (fun file => rank insights file =? p)
                ["tests/smoke.spec.ts"; "tests/regression/cart.spec.ts"].
Proof.
  split; [discriminate|].
  apply (prioritizeTestFiles_order (answering "Failure trends: the cart suite is flaky.")
           ["tests/smoke.spec.ts"; "tests/regression/cart.spec.ts"] calmEnv world0 tt).
  discriminate.
Defined.

(** X22: when the analysis fails, or answers 'No analysis available', or
    mentions neither 'failure trends' nor 'performance issues', the
    files come back in their original order. *)
Theorem uninformative_analysis_keeps_order {S} (services : AnalyticsAgent.Services)
  (testFiles : list string) (env : Env) (w : World) (s : S)
  (o : Outcome string) (w1 : World) :
  AnalyticsAgent.analyzeTestResults services "data/latest_failures.json" env w s
  = (o, w1, s) ->
  match o with
  | Thrown _ => True
  | Returned insights =>
      insights = "No analysis available"
      \/ includes (toLowerCase insights) "failure trends" = false
         /\ includes (toLowerCase insights) "performance issues" = false
  end ->
  exists w', prioritizeTestFiles services testFiles env w s = (Returned testFiles, w', s).
Proof.
  intros E Ho. destruct testFiles as [|file files]; [exists w; reflexivity|].
  assert (Hne : file :: files <> []) by discriminate.
  eexists. rewrite (prioritizeTestFiles_run _ _ _ _ _ _ _ Hne E).
  unfold byRank. rewrite (Array_sort_in_order (rank _)); [reflexivity|].
  apply (constant_key_sorted _ 10). intros x.
  destruct o as [insights|e].
  - destruct Ho as [->|[H1 H2]]; [reflexivity | now apply quiet_insights_rank].
  - reflexivity.
Qed.

(** The failure data is missing. *)
Lemma uninformative_analysis_keeps_order_witness :
  exists w',
    prioritizeTestFiles noDataServices
      ["tests/regression/cart.spec.ts"; "tests/smoke.spec.ts"; "tests/performance/load.spec.ts"]
      calmEnv world0 tt
    = (Returned ["tests/regression/cart.spec.ts"; "tests/smoke.spec.ts";
                 "tests/performance/load.spec.ts"], w', tt).
Proof.
  eapply (uninformative_analysis_keeps_order noDataServices _ calmEnv world0 tt
            (Thrown (JsError "ENOENT: no such file or directory, open 'data/latest_failures.json'"))).
  - vm_compute. reflexivity.
  - exact I.
Defined.

(** X23: [analyzeTestResults] reads the file, parses it, and asks the
    model 'gpt-4o' with the prompt made of the parsed data. It rejects
    with the error of the first of these three that fails, and with a
    [TypeError] when the response has no choice. Otherwise it returns
    the content of the message of the first choice, whatever the other
    choices, or 'No analysis available' when the message or its content
    is missing or the content is empty; so that it never returns an
    empty string. It logs and writes nothing. *)
Theorem analyzeTestResults_outcome {S} (services : AnalyticsAgent.Services)
  (testDataPath : string) (env : Env) (w : World) (s : S) :
  exists o w',
    AnalyticsAgent.analyzeTestResults services testDataPath env w s = (o, w', s)
    /\ World.console w' = World.console w
    /\ World.dirs w' = World.dirs w
    /\ World.files w' = World.files w
    /\ match AnalyticsAgent.readFile services testDataPath with
       | Thrown e => o = Thrown e
       | Returned text =>
           match AnalyticsAgent.jsonPretty services text with
           | Thrown e => o = Thrown e
           | Returned testData =>
               match AnalyticsAgent.chat services "gpt-4o"
                       (AnalyticsAgent.promptFor testData) with
               | Thrown e => o = Thrown e
               | Returned [] =>
                   o = Thrown
                         (JsError "Cannot read properties of undefined (reading 'message')")
               | Returned (choice :: _) =>
                   match AnalyticsAgent.message choice with
                   | Some (Some EmptyString) => o = Returned "No analysis available"
                   | Some (Some content) => o = Returned content
                   | Some None => o = Returned "No analysis available"
                   | None => o = Returned "No analysis available"
                   end
               end
           end
       end
    /\ (forall content, o = Returned content -> content <> "").
Proof.
  destruct (analyzeTestResults_world services testDataPath env w s)
    as (o & w1 & E & Hc & Hd & Hf & _).
  exists o, w1. split; [exact E|]. split; [exact Hc|]. split; [exact Hd|].
  split; [exact Hf|].
  destruct (analyzeTestResults_run services testDataPath env w s) as (o' & E' & Ho).
  assert (o' = o) by congruence. subst o'. clear E E'.
  destruct (AnalyticsAgent.readFile services testDataPath) as [text|e0].
  2:{ subst o. split; [reflexivity | discriminate]. }
  destruct (AnalyticsAgent.jsonPretty services text) as [testData|e0].
  2:{ subst o. split; [reflexivity | discriminate]. }
  destruct (AnalyticsAgent.chat services "gpt-4o" (AnalyticsAgent.promptFor testData))
    as [[|choice rest]|e0].
  - subst o. split; [reflexivity | discriminate].
  - destruct (AnalyticsAgent.message choice) as [[[|c content]|]|]; subst o;
      (split; [reflexivity|]); intros text' H; injection H as <-; discriminate.
  - subst o. split; [reflexivity | discriminate].
Qed.

(** The model answers with two choices: the content of the first one
    is returned. *)
Lemma analyzeTestResults_outcome_witness :
  exists w',
    AnalyticsAgent.analyzeTestResults
      (AnalyticsAgent.mkServices
         (fun _ => Returned "[]") (fun _ => 1%nat) (fun text => Returned text)
         (fun _ _ => Returned [AnalyticsAgent.mkChoice (Some (Some "Failure trends: none."));
                               AnalyticsAgent.mkChoice (Some (Some "second"))])
         (fun _ => 250%nat) rendering)
      "data/latest_failures.json" calmEnv world0 tt
    = (Returned "Failure trends: none.", w', tt).
Proof.
  destruct (analyzeTestResults_outcome
              (AnalyticsAgent.mkServices
                 (fun _ => Returned "[]") (fun _ => 1%nat) (fun text => Returned text)
                 (fun _ _ =>
                    Returned [AnalyticsAgent.mkChoice (Some (Some "Failure trends: none."));
                              AnalyticsAgent.mkChoice (Some (Some "second"))])
                 (fun _ => 250%nat) rendering)
              "data/latest_failures.json" calmEnv world0 tt)
    as (o & w' & E & _ & _ & _ & Ho & _).
  cbn in Ho. subst o. exists w'. exact E.
Defined.

(** ** Signing in *)

(** X24: [login] accepts exactly two accounts, 'alice' with 'alicepw'
    and 'bob' with 'barbpw', and only with a token that [totp.check]
    accepts for the secret of that account. *)
Theorem login_needs_password_and_token (aliceSecret bobSecret : string)
  (check : string -> string -> bool) (name pass token : string) :
  auth.login aliceSecret bobSecret check name pass token = true
  <-> (name = "alice" /\ pass = "alicepw" /\ check token aliceSecret = true)
      \/ (name = "bob" /\ pass = "barbpw" /\ check token bobSecret = true).
Proof.
  unfold auth.login, auth.findUser, auth.users, auth.verifyTOTP.
  cbn [List.find auth.username].
  destruct (String.eqb_spec "alice" name) as [<-|Ha].
  - cbn [auth.password auth.totpSecret].
    destruct (String.eqb_spec "alicepw" pass) as [<-|Hp].
    + split; [intros H; left; auto | intros [(_ & _ & H)|(H & _)]; [exact H | discriminate H]].
    + split; [discriminate | intros [(_ & H & _)|(H & _)]; [congruence | discriminate H]].
  - destruct (String.eqb_spec "bob" name) as [<-|Hb].
    + cbn [auth.password auth.totpSecret].
      destruct (String.eqb_spec "barbpw" pass) as [<-|Hp].
      * split; [intros H; right; auto | intros [(H & _)|(_ & _ & H)]; [discriminate H | exact H]].
      * split; [discriminate | intros [(H & _)|(_ & H & _)]; [discriminate H | congruence]].
    + split; [discriminate | intros [(H & _)|(H & _)]; congruence].
Qed.

(** ** The health check and the retry decision *)

Lemma statusCount_app s xs ys :
  statusCount s (xs ++ ys) = (statusCount s xs + statusCount s ys)%nat.
Proof. unfold statusCount. now rewrite List.filter_app, length_app. Qed.

Lemma statusCount_Permutation s xs ys :
  Permutation xs ys -> statusCount s xs = statusCount s ys.
Proof.
  unfold statusCount.
  induction 1 as [|x xs ys _ IH|x y xs|xs ys zs _ IH1 _ IH2]; cbn [List.filter].
  - reflexivity.
  - destruct (HealthCheck.Status_eqb _ _); cbn [length]; congruence.
  - do 2 destruct (HealthCheck.Status_eqb _ _); reflexivity.
  - congruence.
Qed.

Lemma statusCount_positive s results :
  (0 < statusCount s results)%nat <-> exists r, In r results /\ HealthCheck.status r = s.
Proof.
  unfold statusCount. induction results as [|r results IH]; cbn [List.filter length].
  - split; [lia | intros (r & [] & _)].
  - destruct (HealthCheck.Status_eqb (HealthCheck.status r) s) eqn:E.
    + split; [intros _|cbn [length]; lia]. exists r. split; [now left|].
      destruct (HealthCheck.status r), s; try discriminate E; reflexivity.
    + rewrite IH. split.
      * intros (r' & Hin & Hs). exists r'. split; [now right | exact Hs].
      * intros (r' & [->|Hin] & Hs); [|now exists r'].
        subst s. destruct (HealthCheck.status r'); discriminate E.
Qed.

Lemma assessOverallHealth_cases results :
  HealthCheck.assessOverallHealth results
  = if (0 <? statusCount HealthCheck.fail results)%nat then HealthCheck.critical
    else if (3 <? statusCount HealthCheck.warn results)%nat then HealthCheck.warning
    else HealthCheck.healthy.
Proof. reflexivity. Qed.

(** X25: the overall health is critical exactly when some check failed,
    warning exactly when none failed and more than three warned, healthy
    otherwise; further results never improve it, results put together
    are critical exactly when a part is, and the order of the results
    does not matter. *)
Theorem assessOverallHealth_severity (results more : list HealthCheck.HealthCheckResult) :
  (HealthCheck.assessOverallHealth results = HealthCheck.critical
   <-> exists r, In r results /\ HealthCheck.status r = HealthCheck.fail)
  /\ (HealthCheck.assessOverallHealth results = HealthCheck.warning
      <-> (forall r, In r results -> HealthCheck.status r <> HealthCheck.fail)
          /\ (3 < statusCount HealthCheck.warn results)%nat)
  /\ severity (HealthCheck.assessOverallHealth results)
     <= severity (HealthCheck.assessOverallHealth (results ++ more))
  /\ (HealthCheck.assessOverallHealth (results ++ more) = HealthCheck.critical
      <-> HealthCheck.assessOverallHealth results = HealthCheck.critical
          \/ HealthCheck.assessOverallHealth more = HealthCheck.critical)
  /\ (Permutation results more ->
      HealthCheck.assessOverallHealth results = HealthCheck.assessOverallHealth more).
Proof.
  rewrite !assessOverallHealth_cases, !statusCount_app.
  pose proof (statusCount_positive HealthCheck.fail results) as Hf.
  split; [|split; [|split; [|split]]].
  - rewrite <- Hf.
    destruct (Nat.ltb_spec 0 (statusCount HealthCheck.fail results));
      [tauto|]. destruct (3 <? _)%nat; split; (discriminate || lia).
  - assert (Hnone : (forall r, In r results -> HealthCheck.status r <> HealthCheck.fail)
                    <-> ~ (0 < statusCount HealthCheck.fail results)%nat).
    { rewrite Hf. split.
      - intros H (r & Hin & Hs). exact (H r Hin Hs).
      - intros H r Hin Hs. apply H. now exists r. }
    rewrite Hnone.
    destruct (Nat.ltb_spec 0 (statusCount HealthCheck.fail results)).
    + split; [discriminate | intros [Hn _]; lia].
    + destruct (Nat.ltb_spec 3 (statusCount HealthCheck.warn results)).
      * split; [intros _; split; lia | reflexivity].
      * split; [discriminate | intros [_ Hw]; lia].
  - repeat match goal with
           | |- context [(?a <? ?b)%nat] => destruct (Nat.ltb_spec a b)
           end; cbn [severity]; lia.
  - repeat match goal with
           | |- context [(?a <? ?b)%nat] => destruct (Nat.ltb_spec a b)
           end; split; try tauto; try discriminate; try lia;
      intros [H'|H']; try discriminate H'; lia.
  - intros Hp.
    now rewrite (statusCount_Permutation _ _ _ Hp), (statusCount_Permutation _ _ _ Hp).
Qed.

Lemma firstIncluded_true text patterns :
  SmartRetry.firstIncluded text patterns = true
  <-> exists pattern, In pattern patterns /\ includes text pattern = true.
Proof.
  induction patterns as [|p patterns IH]; cbn [SmartRetry.firstIncluded].
  - split; [discriminate | intros (p & [] & _)].
  - destruct (includes text p) eqn:E.
    + split; [intros _; exists p; split; [now left | exact E] | reflexivity].
    + rewrite IH. split.
      * intros (q & Hin & Hq). exists q. split; [now right | exact Hq].
      * intros (q & [->|Hin] & Hq); [congruence | now exists q].
Qed.

Lemma includes_empty (text : string) : includes text "" = true.
Proof. destruct text; reflexivity. Qed.

(** X26: [shouldRetryTest] answers yes exactly when smart retry is
    enabled, the attempt is below [maxRetries], the error text (the
    message, or the name of an error without message) includes no skip
    pattern and includes some retry pattern: skip patterns win. An empty
    skip pattern forbids every retry, and a retry granted at one attempt
    is granted at every earlier one. *)
Theorem shouldRetryTest_decision (error : SmartRetry.Error) (attempt : Z)
  (smartRetry : SmartRetry.t) :
  (SmartRetry.shouldRetryTest error attempt smartRetry = true
   <-> SmartRetry.enabled smartRetry = true
       /\ attempt < SmartRetry.maxRetries smartRetry
       /\ (forall pattern, In pattern (SmartRetry.skipPatterns smartRetry) ->
             includes (searchedText error) pattern = false)
       /\ exists pattern, In pattern (SmartRetry.retryPatterns smartRetry)
                          /\ includes (searchedText error) pattern = true)
  /\ (In "" (SmartRetry.skipPatterns smartRetry) ->
      SmartRetry.shouldRetryTest error attempt smartRetry = false)
  /\ (forall earlier,
        earlier <= attempt ->
        SmartRetry.shouldRetryTest error attempt smartRetry = true ->
        SmartRetry.shouldRetryTest error earlier smartRetry = true).
Proof.
  assert (Htext : (if String.eqb (SmartRetry.message error) ""
                   then SmartRetry.Error_toString error else SmartRetry.message error)
                  = searchedText error).
  { unfold searchedText, SmartRetry.Error_toString.
    destruct (String.eqb_spec (SmartRetry.message error) "") as [E|_]; [|reflexivity].
    destruct (String.eqb_spec (SmartRetry.name error) "") as [N|_]; congruence. }
  assert (Hiff : forall n,
    SmartRetry.shouldRetryTest error n smartRetry = true
    <-> SmartRetry.enabled smartRetry = true
        /\ n < SmartRetry.maxRetries smartRetry
        /\ (forall pattern, In pattern (SmartRetry.skipPatterns smartRetry) ->
              includes (searchedText error) pattern = false)
        /\ exists pattern, In pattern (SmartRetry.retryPatterns smartRetry)
                           /\ includes (searchedText error) pattern = true).
  { intros n. unfold SmartRetry.shouldRetryTest. cbv zeta. rewrite Htext.
    pose proof (firstIncluded_true (searchedText error) (SmartRetry.skipPatterns smartRetry))
      as Hs.
    pose proof (firstIncluded_true (searchedText error) (SmartRetry.retryPatterns smartRetry))
      as Hr.
    destruct (SmartRetry.enabled smartRetry); cbn [negb orb];
      [|split; [discriminate | intros [H _]; discriminate H]].
    destruct (Z.leb_spec (SmartRetry.maxRetries smartRetry) n);
      [split; [discriminate | intros (_ & H' & _); lia]|].
    destruct (SmartRetry.firstIncluded (searchedText error) (SmartRetry.skipPatterns smartRetry)).
    - split; [discriminate|]. intros (_ & _ & Hnone & _).
      destruct (proj1 Hs eq_refl) as (p & Hin & Hp). rewrite (Hnone p Hin) in Hp.
      discriminate Hp.
    - assert (Hnone : forall pattern, In pattern (SmartRetry.skipPatterns smartRetry) ->
                        includes (searchedText error) pattern = false).
      { intros p Hin. destruct (includes (searchedText error) p) eqn:E; [|reflexivity].
        assert (false = true) as F by (apply Hs; now exists p). discriminate F. }
      destruct (SmartRetry.firstIncluded (searchedText error)
                  (SmartRetry.retryPatterns smartRetry)).
      + split; [intros _|reflexivity].
        split; [reflexivity|]. split; [lia|]. split; [exact Hnone|]. now apply Hr.
      + split; [discriminate|]. intros (_ & _ & _ & Hex).
        apply Hr in Hex. discriminate Hex. }
  split; [apply Hiff|]. split.
  - intros Hin.
    destruct (SmartRetry.shouldRetryTest error attempt smartRetry) eqn:E; [|reflexivity].
    apply Hiff in E as (_ & _ & Hnone & _).
    pose proof (Hnone "" Hin) as F. rewrite includes_empty in F. discriminate F.
  - intros earlier Hle H. apply Hiff in H as (He & Hlt & Hnone & Hex).
    apply Hiff. split; [exact He|]. split; [lia|]. split; assumption.
Qed.

(** ** Walking the suites of a report *)

Lemma logsOnly_refl w : logsOnly w w.
Proof. repeat split. exists []. now rewrite app_nil_r. Qed.

Lemma logsOnly_trans w1 w2 w3 : logsOnly w1 w2 -> logsOnly w2 w3 -> logsOnly w1 w3.
Proof.
  intros (C1 & D1 & F1 & l1 & L1) (C2 & D2 & F2 & l2 & L2).
  repeat split; try congruence. exists (l1 ++ l2). now rewrite L2, L1, app_assoc.
Qed.

Lemma logsOnly_console_log {S} line env w (s : S) :
  exists w', console_log line env w s = (Returned tt, w', s) /\ logsOnly w w'.
Proof. eexists. split; [reflexivity|]. repeat split. now exists [line]. Qed.

Lemma TestSuite_nested_ind (P : TestSummary.TestSuite -> Prop) :
  (forall title file tests, P (TestSummary.mkSuite title file tests None)) ->
  (forall title file tests nested,
     Forall P nested -> P (TestSummary.mkSuite title file tests (Some nested))) ->
  forall suite, P suite.
Proof.
  intros Hnone Hsome. fix IH 1. intros [title file tests [nested|]].
  - apply Hsome. induction nested as [|suite nested IHn]; constructor; [apply IH | exact IHn].
  - apply Hnone.
Qed.

Lemma addCounts_assoc a b c : addCounts (addCounts a b) c = addCounts a (addCounts b c).
Proof. unfold addCounts. cbn. f_equal; lia. Qed.

Lemma addCounts_zero a : addCounts a (TestSummary.mkCounts 0 0 0) = a.
Proof. destruct a. unfold addCounts. cbn. f_equal; lia. Qed.

Lemma TestSummaryData_eq (a b : TestSummary.TestSummaryData) :
  TestSummary.totalTests a = TestSummary.totalTests b ->
  TestSummary.passedTests a = TestSummary.passedTests b ->
  TestSummary.failedTests a = TestSummary.failedTests b ->
  TestSummary.skippedTests a = TestSummary.skippedTests b ->
  TestSummary.flakyTests a = TestSummary.flakyTests b ->
  TestSummary.totalDuration a = TestSummary.totalDuration b ->
  TestSummary.webTests a = TestSummary.webTests b ->
  TestSummary.apiTests a = TestSummary.apiTests b ->
  TestSummary.failedTestsList a = TestSummary.failedTestsList b ->
  TestSummary.platformBreakdown a = TestSummary.platformBreakdown b ->
  a = b.
Proof. destruct a, b. cbn. intros. congruence. Qed.

(** The loop over the results of a test. *)
Lemma results_loop_run results : forall env w d,
  forOf results tt
    (fun _ result => update (TestSummary.set_totalDuration
                               (fun t => t + TestSummary.duration result))) env w d
  = (Returned tt, w,
     TestSummary.set_totalDuration
       (fun t => t + fold_right (fun result t => TestSummary.duration result + t) 0 results)
       d).
Proof.
  induction results as [|result results IH]; intros env w d.
  - cbn [forOf fold_right]. unfold ret. f_equal. apply TestSummaryData_eq; cbn; trivial; lia.
  - cbn [forOf fold_right]. unfold bind at 1. unfold update at 1. rewrite IH.
    f_equal. apply TestSummaryData_eq; cbn; trivial; lia.
Qed.

Lemma fold_right_duration_shift results total :
  fold_right (fun result t => TestSummary.duration result + t) total results
  = fold_right (fun result t => TestSummary.duration result + t) 0 results + total.
Proof. induction results as [|r results IH]; cbn [fold_right]; lia. Qed.

Lemma countIf_cons {A} (p : A -> bool) x xs :
  countIf p (x :: xs) = (if p x then 1 else 0) + countIf p xs.
Proof. unfold countIf. cbn [List.filter]. destruct (p x); cbn [length]; lia. Qed.

Lemma tally_cons test tests : tally (test :: tests) = addCounts (tally [test]) (tally tests).
Proof.
  unfold tally, addCounts. cbn [TestSummary.passed TestSummary.failed TestSummary.skipped].
  rewrite !(countIf_cons _ test tests), !(countIf_cons _ test []).
  unfold countIf. cbn [List.filter length]. f_equal; lia.
Qed.

Lemma durationOf_cons test tests :
  durationOf (test :: tests) = durationOf [test] + durationOf tests.
Proof.
  unfold durationOf. cbn [fold_right].
  rewrite (fold_right_duration_shift _ (fold_right _ 0 tests)). reflexivity.
Qed.

Lemma afterBlock_cons file test tests d :
  afterBlock (file, tests) (afterBlock (file, [test]) d) = afterBlock (file, test :: tests) d.
Proof.
  apply TestSummaryData_eq; cbn -[tally durationOf addCounts]; trivial.
  - rewrite (durationOf_cons test tests). lia.
  - destruct (String.eqb (TestSummary.platformOf file) "web"); lia.
  - destruct (String.eqb (TestSummary.platformOf file) "api"); lia.
  - rewrite <- app_assoc. f_equal. destruct (isFailed test); reflexivity.
  - rewrite lookup_insert_eq, insert_insert_eq. cbn [default]. unfold id.
    now rewrite addCounts_assoc, <- tally_cons.
Qed.

Lemma afterBlock_nil file d counts :
  TestSummary.platformBreakdown d !! TestSummary.platformOf file = Some counts ->
  afterBlock (file, []) d = d.
Proof.
  intros Hc. apply TestSummaryData_eq; cbn -[addCounts tally]; trivial; try lia;
    try (destruct (String.eqb _ _); cbn; lia).
  - apply app_nil_r.
  - rewrite Hc. cbn [default]. unfold id. change (tally []) with (TestSummary.mkCounts 0 0 0).
    rewrite addCounts_zero. now apply insert_id.
Qed.

Lemma outcome_kinds test :
  match isPassed test, isFailed test, isSkipped test with
  | true, false, false | false, true, false | false, false, true | false, false, false => True
  | _, _, _ => False
  end.
Proof.
  unfold isPassed, isFailed, isSkipped.
  destruct (String.eqb_spec (TestSummary.outcome test) "expected") as [->|_]; [exact I|].
  destruct (String.eqb_spec (TestSummary.outcome test) "passed") as [->|_]; [exact I|].
  destruct (String.eqb_spec (TestSummary.outcome test) "unexpected") as [->|_]; [exact I|].
  destruct (String.eqb_spec (TestSummary.outcome test) "failed") as [->|_]; [exact I|].
  destruct (String.eqb (TestSummary.outcome test) "skipped"); exact I.
Qed.

(** One test, on a platform whose entry is there. *)
Lemma processTest_run file test env w d counts :
  TestSummary.platformBreakdown d !! TestSummary.platformOf file = Some counts ->
  exists w',
    TestSummary.processTest (TestSummary.platformOf file) file test env w d
    = (Returned tt, w', afterBlock (file, [test]) d)
    /\ logsOnly w w'.
Proof.
  intros Hc. pose proof (outcome_kinds test) as Hk.
  unfold TestSummary.processTest.
  change (String.eqb (TestSummary.outcome test) "expected"
          || String.eqb (TestSummary.outcome test) "passed") with (isPassed test).
  change (String.eqb (TestSummary.outcome test) "unexpected"
          || String.eqb (TestSummary.outcome test) "failed") with (isFailed test).
  change (String.eqb (TestSummary.outcome test) "skipped") with (isSkipped test).
  unfold afterBlock, tally, countIf. cbn [fst snd List.filter length map].
  assert (Hd : durationOf [test]
               = fold_right (fun result t => TestSummary.duration result + t) 0
                   (TestSummary.results test)) by reflexivity.
  rewrite Hd. clear Hd.
  set (platform := TestSummary.platformOf file) in *.
  destruct (String.eqb platform "web"), (String.eqb platform "api"),
    (isPassed test), (isFailed test), (isSkipped test); try contradiction;
    cbv beta iota delta [bind update ret this console_log TestSummary.increment];
    cbn [TestSummary.platformBreakdown TestSummary.set_webTests TestSummary.set_apiTests
         TestSummary.set_platformBreakdown TestSummary.set_failedTestsList];
    rewrite Hc; rewrite results_loop_run;
    (eexists; split;
     [ f_equal; f_equal; apply TestSummaryData_eq;
       cbn -[Z.add Z.of_nat]; cbn [length filter default]; unfold id, addCounts;
       cbn [TestSummary.passed TestSummary.failed TestSummary.skipped length];
       try reflexivity; try lia;
       try (destruct counts; rewrite ?Z.add_0_r; try reflexivity; f_equal; f_equal; lia)
     | repeat split; eexists [_]; reflexivity ]).
  all: try (now rewrite app_nil_r).
  all: symmetry; apply insert_id; rewrite Hc; destruct counts; cbn; do 2 f_equal; lia.
Qed.

Lemma bind_run {S A B} (m : M S A) (k : A -> M S B) env w s a w1 s1 :
  m env w s = (Returned a, w1, s1) -> bind m k env w s = k a env w1 s1.
Proof. unfold bind. now intros ->. Qed.

(** The loop over the tests of a suite. *)
Lemma tests_loop_run file tests : forall env w d counts,
  TestSummary.platformBreakdown d !! TestSummary.platformOf file = Some counts ->
  exists w',
    forOf tests tt
      (fun _ test => TestSummary.processTest (TestSummary.platformOf file) file test)
      env w d
    = (Returned tt, w', afterBlock (file, tests) d)
    /\ logsOnly w w'.
Proof.
  induction tests as [|test tests IH]; intros env w d counts Hc.
  - exists w. cbn [forOf]. unfold ret. rewrite (afterBlock_nil _ _ _ Hc).
    split; [reflexivity | apply logsOnly_refl].
  - cbn [forOf].
    destruct (processTest_run file test env w d counts Hc) as (w1 & E1 & Hw1).
    rewrite (bind_run _ _ _ _ _ _ _ _ E1).
    assert (Hc1 : TestSummary.platformBreakdown (afterBlock (file, [test]) d)
                  !! TestSummary.platformOf file
                  = Some (addCounts
                            (default (TestSummary.mkCounts 0 0 0)
                               (TestSummary.platformBreakdown d
                                !! TestSummary.platformOf file))
                            (tally [test])))
      by apply lookup_insert_eq.
    destruct (IH env w1 _ _ Hc1) as (w' & E' & Hw').
    exists w'. rewrite E', afterBlock_cons.
    split; [reflexivity | eapply logsOnly_trans; eassumption].
Qed.

Lemma afterBlocks_cons b B d : afterBlocks (b :: B) d = afterBlocks B (afterBlock b d).
Proof. reflexivity. Qed.

Lemma afterBlocks_app B1 B2 d : afterBlocks (B1 ++ B2) d = afterBlocks B2 (afterBlocks B1 d).
Proof. apply fold_left_app. Qed.

(** A suite up to its nested suites: the entry of the platform is
    created if need be, then the tests are counted. *)
Lemma suite_head_run title file tests env w d (k : M TestSummary.TestSummaryData unit) :
  exists w1,
    logsOnly w w1
    /\ (console_log (TestSummary.MAGNIFYING_GLASS +:+ " Processing suite: " +:+ title
                     +:+ " (" +:+ file +:+ ")") ;;
        (let* summaryData := this in
         match TestSummary.platformBreakdown summaryData !! TestSummary.platformOf file with
         | None =>
             update (TestSummary.set_platformBreakdown
                       (fun b => <[TestSummary.platformOf file
                                   := TestSummary.mkCounts 0 0 0]> b))
         | Some _ => ret tt
         end) ;;
        (if (0 <? length tests)%nat then
           console_log ("  " +:+ TestSummary.MEMO +:+ " Processing "
                        +:+ nat_toString (length tests) +:+ " tests in suite") ;;
           forOf tests tt
             (fun _ test =>
                TestSummary.processTest (TestSummary.platformOf file) file test)
         else
           console_log ("  " +:+ TestSummary.WARNING_SIGN
                        +:+ " No tests found in this suite")) ;;
        k) env w d
       = k env w1 (afterBlock (file, tests) d).
Proof.
  set (platform := TestSummary.platformOf file).
  destruct (logsOnly_console_log
              (TestSummary.MAGNIFYING_GLASS +:+ " Processing suite: " +:+ title
               +:+ " (" +:+ file +:+ ")") env w d) as (wa & Ea & Hwa).
  rewrite (bind_run _ _ _ _ _ _ _ _ Ea).
  set (d1 := match TestSummary.platformBreakdown d !! platform with
             | None => TestSummary.set_platformBreakdown
                         (fun b => <[platform := TestSummary.mkCounts 0 0 0]> b) d
             | Some _ => d
             end).
  assert (Eb : (let* summaryData := this in
                match TestSummary.platformBreakdown summaryData !! platform with
                | None =>
                    update (TestSummary.set_platformBreakdown
                              (fun b => <[platform := TestSummary.mkCounts 0 0 0]> b))
                | Some _ => ret tt
                end) env wa d = (Returned tt, wa, d1)).
  { unfold bind, this, d1.
    destruct (TestSummary.platformBreakdown d !! platform); reflexivity. }
  rewrite (bind_run _ _ _ _ _ _ _ _ Eb).
  assert (Hc1 : TestSummary.platformBreakdown d1 !! platform
                = Some (default (TestSummary.mkCounts 0 0 0)
                          (TestSummary.platformBreakdown d !! platform))).
  { unfold d1. destruct (TestSummary.platformBreakdown d !! platform) eqn:E.
    - exact E.
    - apply lookup_insert_eq. }
  assert (Hsame : afterBlock (file, tests) d1 = afterBlock (file, tests) d).
  { unfold d1. fold platform.
    destruct (TestSummary.platformBreakdown d !! platform) eqn:E; [reflexivity|].
    apply TestSummaryData_eq; cbn -[tally addCounts]; trivial.
    fold platform. rewrite lookup_insert_eq, E, insert_insert_eq. reflexivity. }
  assert (Ec : exists w1,
             logsOnly wa w1
             /\ (if (0 <? length tests)%nat then
                   console_log ("  " +:+ TestSummary.MEMO +:+ " Processing "
                                +:+ nat_toString (length tests) +:+ " tests in suite") ;;
                   forOf tests tt
                     (fun _ test => TestSummary.processTest platform file test)
                 else
                   console_log ("  " +:+ TestSummary.WARNING_SIGN
                                +:+ " No tests found in this suite")) env wa d1
                = (Returned tt, w1, afterBlock (file, tests) d)).
  { rewrite <- Hsame. destruct tests as [|test tests].
    - cbn [length Nat.ltb Nat.leb].
      destruct (logsOnly_console_log
                  ("  " +:+ TestSummary.WARNING_SIGN +:+ " No tests found in this suite")
                  env wa d1) as (wb & Eb' & Hwb).
      exists wb. split; [exact Hwb|]. rewrite Eb'.
      now rewrite (afterBlock_nil _ _ _ Hc1).
    - change (0 <? length (test :: tests))%nat with true. cbv iota.
      destruct (logsOnly_console_log
                  ("  " +:+ TestSummary.MEMO +:+ " Processing "
                   +:+ nat_toString (length (test :: tests)) +:+ " tests in suite")
                  env wa d1) as (wb & Eb' & Hwb).
      rewrite (bind_run _ _ _ _ _ _ _ _ Eb').
      destruct (tests_loop_run file (test :: tests) env wb d1 _ Hc1) as (wc & Ec & Hwc).
      exists wc. split; [eapply logsOnly_trans; eassumption | exact Ec]. }
  destruct Ec as (w1 & Hw1 & Ec).
  exists w1. split; [eapply logsOnly_trans; eassumption|].
  now rewrite (bind_run _ _ _ _ _ _ _ _ Ec).
Qed.

Lemma processSuite_run suite : forall env w d,
  exists w',
    TestSummary.processSuite suite env w d
    = (Returned tt, w', afterBlocks (blocksOf suite) d)
    /\ logsOnly w w'.
Proof.
  induction suite as [title file tests|title file tests nested IH] using TestSuite_nested_ind;
    intros env w d; cbn [TestSummary.processSuite blocksOf].
  - destruct (suite_head_run title file tests env w d (ret tt)) as (w1 & Hw1 & E).
    exists w1. split; [|exact Hw1]. rewrite E. reflexivity.
  - match goal with
    | |- context [bind _ (fun _ => bind _ (fun _ => bind _ (fun _ => ?k)))] =>
        destruct (suite_head_run title file tests env w d k) as (w1 & Hw1 & E)
    end.
    rewrite E. clear E. rewrite afterBlocks_cons.
    generalize (afterBlock (file, tests) d). intros d1.
    assert (Hloop : forall env w d,
              exists w',
                (fix processSuites (suites : list TestSummary.TestSuite)
                   : M TestSummary.TestSummaryData unit :=
                   match suites with
                   | [] => ret tt
                   | suite :: rest => TestSummary.processSuite suite ;; processSuites rest
                   end) nested env w d
                = (Returned tt, w',
                   afterBlocks
                     ((fix each (suites : list TestSummary.TestSuite) :=
                         match suites with
                         | [] => []
                         | suite :: rest => blocksOf suite ++ each rest
                         end) nested) d)
                /\ logsOnly w w').
    { clear w Hw1 d1 env d. induction IH as [|suite nested Hs _ IHn]; intros env w d.
      - exists w. split; [reflexivity | apply logsOnly_refl].
      - destruct (Hs env w d) as (wa & Ea & Hwa).
        rewrite (bind_run _ _ _ _ _ _ _ _ Ea).
        destruct (IHn env wa (afterBlocks (blocksOf suite) d)) as (wb & Eb & Hwb).
        exists wb. rewrite Eb, afterBlocks_app.
        split; [reflexivity | eapply logsOnly_trans; eassumption]. }
    destruct nested as [|suite nested].
    + exists w1. split; [reflexivity | exact Hw1].
    + change (0 <? length (suite :: nested))%nat with true. cbv iota.
      destruct (logsOnly_console_log
                  ("  " +:+ TestSummary.FILE_FOLDER +:+ " Processing "
                   +:+ nat_toString (length (suite :: nested)) +:+ " nested suites")
                  env w1 d1) as (wa & Ea & Hwa).
      rewrite (bind_run _ _ _ _ _ _ _ _ Ea).
      destruct (Hloop env wa d1) as (wb & Eb & Hwb).
      exists wb. split; [exact Eb|].
      eapply logsOnly_trans; [exact Hw1|]. eapply logsOnly_trans; eassumption.
Qed.

Lemma processSuites_run suites : forall env w d,
  exists w',
    TestSummary.processSuites suites env w d
    = (Returned tt, w', afterBlocks (blocks suites) d)
    /\ logsOnly w w'.
Proof.
  unfold TestSummary.processSuites, blocks.
  induction suites as [|suite suites IH]; intros env w d.
  - exists w. split; [reflexivity | apply logsOnly_refl].
  - cbn [forOf flat_map].
    destruct (processSuite_run suite env w d) as (wa & Ea & Hwa).
    rewrite (bind_run _ _ _ _ _ _ _ _ Ea).
    destruct (IH env wa (afterBlocks (blocksOf suite) d)) as (wb & Eb & Hwb).
    exists wb. rewrite Eb, afterBlocks_app.
    split; [reflexivity | eapply logsOnly_trans; eassumption].
Qed.

Lemma tally_app xs ys : tally (xs ++ ys) = addCounts (tally xs) (tally ys).
Proof.
  induction xs as [|x xs IH]; cbn [app].
  - unfold addCounts, tally. cbn. reflexivity.
  - now rewrite tally_cons, IH, <- addCounts_assoc, <- tally_cons.
Qed.

Lemma durationOf_app xs ys : durationOf (xs ++ ys) = durationOf xs + durationOf ys.
Proof.
  induction xs as [|x xs IH]; cbn [app]; [reflexivity|].
  rewrite (durationOf_cons x (xs ++ ys)), (durationOf_cons x xs), IH. lia.
Qed.

Lemma testsOn_not_entered platform B : entered platform B = false -> testsOn platform B = [].
Proof.
  unfold entered, testsOn. induction B as [|b B IH]; cbn [existsb flat_map]; [reflexivity|].
  destruct (String.eqb (TestSummary.platformOf (fst b)) platform); [discriminate|].
  exact IH.
Qed.

(** The fields that the walk adds to. *)
Lemma afterBlocks_fields B : forall d,
  TestSummary.totalTests (afterBlocks B d) = TestSummary.totalTests d
  /\ TestSummary.passedTests (afterBlocks B d) = TestSummary.passedTests d
  /\ TestSummary.failedTests (afterBlocks B d) = TestSummary.failedTests d
  /\ TestSummary.skippedTests (afterBlocks B d) = TestSummary.skippedTests d
  /\ TestSummary.flakyTests (afterBlocks B d) = TestSummary.flakyTests d
  /\ TestSummary.totalDuration (afterBlocks B d)
     = TestSummary.totalDuration d + durationOf (flat_map snd B)
  /\ TestSummary.webTests (afterBlocks B d)
     = TestSummary.webTests d + Z.of_nat (length (testsOn "web" B))
  /\ TestSummary.apiTests (afterBlocks B d)
     = TestSummary.apiTests d + Z.of_nat (length (testsOn "api" B))
  /\ TestSummary.failedTestsList (afterBlocks B d)
     = TestSummary.failedTestsList d ++ failuresOf B.
Proof.
  induction B as [|b B IH]; intros d.
  - cbn. rewrite app_nil_r. repeat split; lia.
  - rewrite afterBlocks_cons.
    destruct (IH (afterBlock b d)) as (H1 & H2 & H3 & H4 & H5 & H6 & H7 & H8 & H9).
    rewrite H1, H2, H3, H4, H5, H6, H7, H8, H9.
    unfold testsOn, failuresOf. cbn [flat_map]. fold (testsOn "web" B) (testsOn "api" B).
    rewrite durationOf_app, !length_app.
    cbn [afterBlock TestSummary.totalTests TestSummary.passedTests TestSummary.failedTests
         TestSummary.skippedTests TestSummary.flakyTests TestSummary.totalDuration
         TestSummary.webTests TestSummary.apiTests TestSummary.failedTestsList].
    repeat (split; [try reflexivity|]).
    + lia.
    + destruct (String.eqb (TestSummary.platformOf (fst b)) "web"); cbn [length]; lia.
    + destruct (String.eqb (TestSummary.platformOf (fst b)) "api"); cbn [length]; lia.
    + now rewrite app_assoc.
Qed.

(** The entry of a platform after the walk. *)
Lemma afterBlocks_platform platform B : forall d,
  TestSummary.platformBreakdown (afterBlocks B d) !! platform
  = if entered platform B
    then Some (addCounts
                 (default (TestSummary.mkCounts 0 0 0)
                    (TestSummary.platformBreakdown d !! platform))
                 (tally (testsOn platform B)))
    else TestSummary.platformBreakdown d !! platform.
Proof.
  induction B as [|b B IH]; intros d; [reflexivity|].
  rewrite afterBlocks_cons, IH. unfold entered, testsOn. cbn [existsb flat_map].
  fold (entered platform B) (testsOn platform B).
  cbn [afterBlock TestSummary.platformBreakdown].
  destruct (String.eqb_spec (TestSummary.platformOf (fst b)) platform) as [->|Hne];
    cbn [orb].
  - rewrite lookup_insert_eq. cbn [default]. unfold id.
    destruct (entered platform B) eqn:E.
    + now rewrite addCounts_assoc, tally_app.
    + now rewrite (testsOn_not_entered _ _ E), app_nil_r.
  - rewrite lookup_insert_ne by exact Hne. reflexivity.
Qed.

Lemma countIf_bounds {A} (p q r : A -> bool) (xs : list A) :
  (forall x, match p x, q x, r x with
             | true, false, false | false, true, false | false, false, true
             | false, false, false => True
             | _, _, _ => False
             end) ->
  0 <= countIf p xs /\ 0 <= countIf q xs /\ 0 <= countIf r xs
  /\ countIf p xs + countIf q xs + countIf r xs <= Z.of_nat (length xs).
Proof.
  intros Hx. induction xs as [|x xs IH].
  - unfold countIf. cbn [List.filter length]. lia.
  - rewrite !countIf_cons. specialize (Hx x).
    destruct (p x), (q x), (r x); try contradiction; cbn [length]; cbv iota; lia.
Qed.

(** X27: [processSuites] never throws and only logs. It leaves the five
    totals that come from the report's stats alone; it adds to
    [webTests] and [apiTests] the tests of the suites (nested ones
    included) whose file is of that platform, to [totalDuration] the
    durations of all results, and to [failedTestsList] one label per
    failed test, in the order of the walk. *)
Theorem processSuites_totals (suites : list TestSummary.TestSuite) (env : Env) (w : World)
  (d : TestSummary.TestSummaryData) :
  exists w' d',
    TestSummary.processSuites suites env w d = (Returned tt, w', d')
    /\ logsOnly w w'
    /\ TestSummary.totalTests d' = TestSummary.totalTests d
    /\ TestSummary.passedTests d' = TestSummary.passedTests d
    /\ TestSummary.failedTests d' = TestSummary.failedTests d
    /\ TestSummary.skippedTests d' = TestSummary.skippedTests d
    /\ TestSummary.flakyTests d' = TestSummary.flakyTests d
    /\ TestSummary.totalDuration d'
       = TestSummary.totalDuration d + durationOf (flat_map snd (blocks suites))
    /\ TestSummary.webTests d'
       = TestSummary.webTests d + Z.of_nat (length (testsOn "web" (blocks suites)))
    /\ TestSummary.apiTests d'
       = TestSummary.apiTests d + Z.of_nat (length (testsOn "api" (blocks suites)))
    /\ TestSummary.failedTestsList d'
       = TestSummary.failedTestsList d ++ failuresOf (blocks suites).
Proof.
  destruct (processSuites_run suites env w d) as (w' & E & Hw).
  exists w', (afterBlocks (blocks suites) d). split; [exact E|]. split; [exact Hw|].
  apply afterBlocks_fields.
Qed.

(** X28: after [processSuites], a platform has an entry in
    [platformBreakdown] when it had one or a suite of the platform was
    entered, even one without tests; the entry is the old one (or zero)
    plus the passed, failed and skipped tests of the platform, which
    together never exceed the tests of the platform. New entries are
    among 'api', 'web', 'visual', 'performance', 'manual', 'other'. *)
Theorem processSuites_platform_breakdown (suites : list TestSummary.TestSuite) (env : Env)
  (w : World) (d : TestSummary.TestSummaryData) :
  exists w' d',
    TestSummary.processSuites suites env w d = (Returned tt, w', d')
    /\ (forall platform,
          TestSummary.platformBreakdown d' !! platform
          = if entered platform (blocks suites)
            then Some (addCounts
                         (default (TestSummary.mkCounts 0 0 0)
                            (TestSummary.platformBreakdown d !! platform))
                         (tally (testsOn platform (blocks suites))))
            else TestSummary.platformBreakdown d !! platform)
    /\ (forall platform,
          0 <= TestSummary.passed (tally (testsOn platform (blocks suites)))
          /\ 0 <= TestSummary.failed (tally (testsOn platform (blocks suites)))
          /\ 0 <= TestSummary.skipped (tally (testsOn platform (blocks suites)))
          /\ TestSummary.passed (tally (testsOn platform (blocks suites)))
             + TestSummary.failed (tally (testsOn platform (blocks suites)))
             + TestSummary.skipped (tally (testsOn platform (blocks suites)))
             <= Z.of_nat (length (testsOn platform (blocks suites))))
    /\ (forall platform,
          TestSummary.platformBreakdown d' !! platform <> None ->
          TestSummary.platformBreakdown d !! platform <> None
          \/ In platform ["api"; "web"; "visual"; "performance"; "manual"; "other"]).
Proof.
  destruct (processSuites_run suites env w d) as (w' & E & Hw).
  exists w', (afterBlocks (blocks suites) d). split; [exact E|].
  split; [intros platform; apply afterBlocks_platform|].
  split; [intros platform; apply (countIf_bounds isPassed isFailed isSkipped), outcome_kinds|].
  intros platform. rewrite afterBlocks_platform.
  destruct (entered platform (blocks suites)) eqn:He; [intros _; right | now left].
  unfold entered in He. apply existsb_exists in He as (b & _ & Hb).
  apply String.eqb_eq in Hb. subst platform. unfold TestSummary.platformOf.
  repeat match goal with
         | |- context [if ?c then _ else _] => destruct c
         end; cbn; tauto.
Qed.

Lemma addCounts_zero_l a : addCounts (TestSummary.mkCounts 0 0 0) a = a.
Proof. destruct a. unfold addCounts. cbn. f_equal; lia. Qed.

Lemma onObject_processSuites_run {S} suites d env w (s : S) :
  exists w',
    TestSummary.onObject d (TestSummary.processSuites suites) env w s
    = (Returned (afterBlocks (blocks suites) d), w', s)
    /\ logsOnly w w'.
Proof.
  destruct (processSuites_run suites env w d) as (w' & E & Hw).
  exists w'. unfold TestSummary.onObject. rewrite E. split; [reflexivity | exact Hw].
Qed.

(** What [processPlaywrightResults] does after its first line, from the
    summary that the stats give. *)
Lemma processPlaywrightResults_tail {S} suites d env w (s : S) :
  exists w',
    ((let* summaryData :=
        if (0 <? length suites)%nat then
          console_log (TestSummary.FILE_FOLDER +:+ " Processing "
                       +:+ nat_toString (length suites) +:+ " test suites...") ;;
          TestSummary.onObject d (TestSummary.processSuites suites)
        else
          console_log (TestSummary.WARNING_SIGN +:+ " No suites found in results") ;;
          ret d in
      console_log (TestSummary.CHECK_BUTTON +:+ " Finished processing Playwright results") ;;
      ret summaryData) : M S TestSummary.TestSummaryData) env w s
    = (Returned (afterBlocks (blocks suites) d), w', s)
    /\ logsOnly w w'.
Proof.
  assert (Hstep : exists w1,
            (if (0 <? length suites)%nat then
               console_log (TestSummary.FILE_FOLDER +:+ " Processing "
                            +:+ nat_toString (length suites) +:+ " test suites...") ;;
               TestSummary.onObject d (TestSummary.processSuites suites)
             else
               console_log (TestSummary.WARNING_SIGN +:+ " No suites found in results") ;;
               ret d) env w s
            = (Returned (afterBlocks (blocks suites) d), w1, s)
            /\ logsOnly w w1).
  { destruct suites as [|suite suites].
    - cbn [length Nat.ltb Nat.leb].
      destruct (logsOnly_console_log
                  (TestSummary.WARNING_SIGN +:+ " No suites found in results") env w s)
        as (wa & Ea & Hwa).
      rewrite (bind_run _ _ _ _ _ _ _ _ Ea). exists wa. split; [reflexivity | exact Hwa].
    - change (0 <? length (suite :: suites))%nat with true. cbv iota.
      destruct (logsOnly_console_log
                  (TestSummary.FILE_FOLDER +:+ " Processing "
                   +:+ nat_toString (length (suite :: suites)) +:+ " test suites...")
                  env w s) as (wa & Ea & Hwa).
      rewrite (bind_run _ _ _ _ _ _ _ _ Ea).
      destruct (onObject_processSuites_run (suite :: suites) d env wa s) as (wb & Eb & Hwb).
      exists wb. split; [exact Eb | eapply logsOnly_trans; eassumption]. }
  destruct Hstep as (w1 & E1 & Hw1).
  rewrite (bind_run _ _ _ _ _ _ _ _ E1).
  destruct (logsOnly_console_log
              (TestSummary.CHECK_BUTTON +:+ " Finished processing Playwright results")
              env w1 s) as (w2 & E2 & Hw2).
  rewrite (bind_run _ _ _ _ _ _ _ _ E2).
  exists w2. split; [reflexivity | eapply logsOnly_trans; eassumption].
Qed.

(** X29: [processPlaywrightResults] never throws and only logs. In its
    summary [totalTests] is always passed + failed + skipped (flaky
    tests are not part of it); [totalDuration] is the duration of the
    stats plus the durations of all results of the suites; the web and
    API counts, the failed tests and the platform entries are those of
    the walk over the suites, starting from nothing. Without stats the
    totals are 0 whatever the suites hold. *)
Theorem processPlaywrightResults_summary {S : Type}
  (inspect : TestSummary.TestStats.t -> string)
  (results : TestSummary.PlaywrightResults) (env : Env) (w : World) (s : S) :
  exists w' d,
    TestSummary.processPlaywrightResults inspect results env w s = (Returned d, w', s)
    /\ logsOnly w w'
    /\ TestSummary.totalTests d
       = TestSummary.passedTests d + TestSummary.failedTests d + TestSummary.skippedTests d
    /\ TestSummary.totalDuration d
       = match TestSummary.stats results with
         | Some st => TestSummary.orZero (TestSummary.TestStats.duration st)
         | None => 0
         end
         + durationOf (flat_map snd (blocks (TestSummary.suites results)))
    /\ TestSummary.webTests d
       = Z.of_nat (length (testsOn "web" (blocks (TestSummary.suites results))))
    /\ TestSummary.apiTests d
       = Z.of_nat (length (testsOn "api" (blocks (TestSummary.suites results))))
    /\ TestSummary.failedTestsList d = failuresOf (blocks (TestSummary.suites results))
    /\ (forall platform,
          TestSummary.platformBreakdown d !! platform
          = if entered platform (blocks (TestSummary.suites results))
            then Some (tally (testsOn platform (blocks (TestSummary.suites results))))
            else None)
    /\ (TestSummary.stats results = None ->
        TestSummary.totalTests d = 0 /\ TestSummary.flakyTests d = 0).
Proof.
  unfold TestSummary.processPlaywrightResults.
  destruct (logsOnly_console_log
              (TestSummary.COUNTERCLOCKWISE_ARROWS +:+ " Processing Playwright results...")
              env w s) as (w0 & E0 & Hw0).
  rewrite (bind_run _ _ _ _ _ _ _ _ E0). cbv zeta.
  set (B := blocks (TestSummary.suites results)).
  assert (Hfrom : forall d0 w1,
            logsOnly w w1 ->
            TestSummary.webTests d0 = 0 -> TestSummary.apiTests d0 = 0 ->
            TestSummary.failedTestsList d0 = [] ->
            TestSummary.platformBreakdown d0 = ∅ ->
            TestSummary.totalTests d0
            = TestSummary.passedTests d0 + TestSummary.failedTests d0
              + TestSummary.skippedTests d0 ->
            exists w' d,
              ((let* summaryData :=
                  if (0 <? length (TestSummary.suites results))%nat then
                    console_log (TestSummary.FILE_FOLDER +:+ " Processing "
                                 +:+ nat_toString (length (TestSummary.suites results))
                                 +:+ " test suites...") ;;
                    TestSummary.onObject d0
                      (TestSummary.processSuites (TestSummary.suites results))
                  else
                    console_log (TestSummary.WARNING_SIGN
                                 +:+ " No suites found in results") ;;
                    ret d0 in
                console_log (TestSummary.CHECK_BUTTON
                             +:+ " Finished processing Playwright results") ;;
                ret summaryData) : M S TestSummary.TestSummaryData) env w1 s
              = (Returned d, w', s)
              /\ logsOnly w w'
              /\ TestSummary.totalTests d
                 = TestSummary.passedTests d + TestSummary.failedTests d
                   + TestSummary.skippedTests d
              /\ TestSummary.totalDuration d
                 = TestSummary.totalDuration d0 + durationOf (flat_map snd B)
              /\ TestSummary.webTests d = Z.of_nat (length (testsOn "web" B))
              /\ TestSummary.apiTests d = Z.of_nat (length (testsOn "api" B))
              /\ TestSummary.failedTestsList d = failuresOf B
              /\ (forall platform,
                    TestSummary.platformBreakdown d !! platform
                    = if entered platform B then Some (tally (testsOn platform B))
                      else None)
              /\ TestSummary.totalTests d = TestSummary.totalTests d0
              /\ TestSummary.flakyTests d = TestSummary.flakyTests d0).
  { intros d0 w1 Hw1 Hweb Hapi Hlist Hpb Htot.
    destruct (processPlaywrightResults_tail (TestSummary.suites results) d0 env w1 s)
      as (w' & E & Hw').
    exists w', (afterBlocks B d0). split; [exact E|].
    split; [eapply logsOnly_trans; eassumption|].
    destruct (afterBlocks_fields B d0) as (H1 & H2 & H3 & H4 & H5 & H6 & H7 & H8 & H9).
    rewrite H1, H2, H3, H4, H5, H6, H7, H8, H9, Hweb, Hapi, Hlist.
    repeat (split; [first [assumption | reflexivity | lia]|]).
    split; [|split; reflexivity].
    intros platform. rewrite afterBlocks_platform, Hpb, lookup_empty. cbn [default].
    now rewrite addCounts_zero_l. }
  destruct (TestSummary.stats results) as [st|].
  - destruct (logsOnly_console_log
                (TestSummary.BAR_CHART +:+ " Processing stats: " +:+ inspect st) env w0 s)
      as (w1 & E1 & Hw1).
    unfold bind at 1. unfold bind at 1. rewrite E1. unfold ret at 1.
    cbn [TestSummary.webTests TestSummary.apiTests TestSummary.failedTestsList
         TestSummary.platformBreakdown].
    match goal with
    | |- context [TestSummary.onObject ?d0 _] =>
        destruct (Hfrom d0 w1) as (w' & d & E & Hw & Ht & Hd & Hweb & Hapi & Hl & Hp & _)
    end; try reflexivity; [eapply logsOnly_trans; eassumption|].
    exists w', d. split; [exact E|]. split; [exact Hw|]. split; [exact Ht|].
    split; [exact Hd|]. split; [exact Hweb|]. split; [exact Hapi|]. split; [exact Hl|].
    split; [exact Hp | discriminate].
  - destruct (logsOnly_console_log
                (TestSummary.WARNING_SIGN +:+ " No stats found in results") env w0 s)
      as (w1 & E1 & Hw1).
    unfold bind at 1. unfold bind at 1. rewrite E1. unfold ret at 1.
    match goal with
    | |- context [TestSummary.onObject ?d0 _] =>
        destruct (Hfrom d0 w1) as (w' & d & E & Hw & Ht & Hd & Hweb & Hapi & Hl & Hp & H0 & Hf)
    end; try reflexivity; [eapply logsOnly_trans; eassumption|].
    exists w', d. split; [exact E|]. split; [exact Hw|]. split; [exact Ht|].
    split; [exact Hd|]. split; [exact Hweb|]. split; [exact Hapi|]. split; [exact Hl|].
    split; [exact Hp|]. intros _. split; [exact H0 | exact Hf].
Qed.

(** ** The scenarios of the repository's tests, on the model *)

(** tests/agents: the API agent completes postman_tests on an empty
    context. *)
Example APIAgent_completes_postman_tests :
  exists r w' o',
    AgentObject_executeTask "postman_tests" ∅ calmEnv world0 (construct ClassAPIAgent)
    = (Returned r, w', o')
    /\ TaskResult.status r = COMPLETED
    /\ TaskResult.taskName r = "postman_tests"
    /\ TaskResult.output r
       = "Postman tests simulated: Pretend running: newman run api_tests.json...".
Proof. eexists _, _, _. repeat split. Qed.

(** tests/reports: one passing result gives the 'all tests passed'
    message, one failing result gives 'Mock: Synced 1 failed ...'. *)
Example syncWithZephyrJira_works_as_expected :
  syncMessage [passedResult] = "No issues to sync with Jira/Zephyr - all tests passed!"
  /\ syncMessage [failedResult] = "Mock: Synced 1 failed test(s) with Jira.".
Proof. split; reflexivity. Qed.

(** tests/orchestrator: a run on a CI event ends in SUCCESS or FAILED;
    here every task completes. *)
Example orchestrator_runs_pipeline :
  exists result w' orch',
    processEvent ciEvent calmEnv world0 MCPAgentOrchestrator.new
    = (Returned result, w', orch')
    /\ PipelineResult.pipelineStatus result = "SUCCESS"
    /\ map TaskResult.status (PipelineResult.taskResults result)
       = [COMPLETED; COMPLETED; COMPLETED; COMPLETED; COMPLETED; COMPLETED].
Proof. eexists _, _, _. split; [vm_compute; reflexivity|]. split; reflexivity. Qed.

(** Without a shell the three tasks that call it fail, the three others
    still complete, and the run is FAILED. *)
Example orchestrator_continues_after_failures :
  exists result w' orch',
    processEvent ciEvent noShellEnv world0 MCPAgentOrchestrator.new
    = (Returned result, w', orch')
    /\ PipelineResult.pipelineStatus result = "FAILED"
    /\ map TaskResult.status (PipelineResult.taskResults result)
       = [FAILED; COMPLETED; COMPLETED; COMPLETED; FAILED; FAILED]
    /\ map TaskResult.error (PipelineResult.taskResults result)
       = [Some "Postman tests failed: spawnSync /bin/sh ENOENT"; None; None; None;
          Some "Wiremock tests failed: spawnSync /bin/sh ENOENT";
          Some "Wiremock tests failed: spawnSync /bin/sh ENOENT"].
Proof. eexists _, _, _. split; [vm_compute; reflexivity|]. repeat split. Qed.
